(** * OptionalToolManager: optional tool acquisition and track-source resolution

    A shallow embedding of [src/main/managers/OptionalToolManager.ts] and of
    the progress reducer of [src/player/features/playlists/TrackAdd.tsx],
    followed by the properties the specification states about them.

    Conventions.
    - A JavaScript string is the list of its UTF-16 code units ([jsstring]).
    - A value that came out of [JSON.parse] is a [json]; [undefined] is the
      [None] of [option json].
    - Asynchronous methods are functions in the state-and-exception monad
      [M] over [World]: the files below the user-data directory, the
      in-memory catalog cache, and the record of the requests sent and the
      processes spawned so far (a request is recorded when its URL is given
      to [https.get]).  A file operation fails only on a missing path, and
      the rename of the downloaded binary also on a destination that is one
      of the directories the manager has made; no other directory is
      modelled.
    - What the runtime provides (URL parsing, JSON, hashing, signatures,
      dates, paths, the network and the spawned process) is the interface
      [Platform]. *)

From Stdlib Require Import ZArith QArith Lia List String Ascii.
From stdpp Require Import base decidable option list gmap strings pretty.

Local Open Scope Z_scope.
Local Open Scope list_scope.

(** Closed equations and closed instances of a lemma, settled by
    evaluation. *)
Ltac vm_refl :=
  match goal with
  | |- ?a = ?b => exact (@eq_refl _ a <: a = b)
  end.

Ltac vm_exact H :=
  match goal with
  | |- ?G => exact (H <: G)
  end.

(** ** Strings *)

Definition jsstring := list N.
Definition Buffer := list N.

Fixpoint str (s : string) : jsstring :=
  match s with
  | EmptyString => []
  | String a s' => N_of_ascii a :: str s'
  end.
Arguments str : simpl never.

Definition streq (a b : jsstring) : bool := bool_decide (a = b).

(** [String.prototype.endsWith] and [String.prototype.includes]. *)
Definition endsWith (s suffix : jsstring) : bool :=
  bool_decide (suffix `suffix_of` s).

Definition includes (s : jsstring) (c : N) : bool :=
  bool_decide (c ∈ s).

(** ECMAScript WhiteSpace and LineTerminator code points, the ones
    [String.prototype.trim] strips; all of them are single code units. *)
Definition is_white (c : N) : bool :=
  match c with
  | 9 | 10 | 11 | 12 | 13 | 32 | 160 | 5760
  | 8192 | 8193 | 8194 | 8195 | 8196 | 8197 | 8198 | 8199 | 8200 | 8201 | 8202
  | 8232 | 8233 | 8239 | 8287 | 12288 | 65279 => true
  | _ => false
  end%N.

Fixpoint trimStart (s : jsstring) : jsstring :=
  match s with
  | [] => []
  | c :: s' => if is_white c then trimStart s' else s
  end.

Definition trimEnd (s : jsstring) : jsstring := rev (trimStart (rev s)).

Definition trim (s : jsstring) : jsstring := trimEnd (trimStart s).

(** [s.split(/\r?\n/)]: a line feed ends a piece, together with the
    carriage return right before it when there is one.  [cur] is the piece
    being read, reversed. *)
Fixpoint split_lines_from (cur : jsstring) (s : jsstring) : list jsstring :=
  match s with
  | [] => [rev cur]
  | c :: rest =>
      if (c =? 10)%N then rev cur :: split_lines_from [] rest
      else
        match rest with
        | d :: rest' =>
            if ((c =? 13) && (d =? 10))%N
            then rev cur :: split_lines_from [] rest'
            else split_lines_from (c :: cur) rest
        | [] => split_lines_from (c :: cur) rest
        end
  end.

Definition split_lines (s : jsstring) : list jsstring := split_lines_from [] s.

Definition nonempty (s : jsstring) : bool :=
  match s with [] => false | _ => true end.

(** The character class [[a-zA-Z0-9-_]]. *)
Definition is_safe_id_char (c : N) : bool :=
  ((97 <=? c) && (c <=? 122) || (65 <=? c) && (c <=? 90)
   || (48 <=? c) && (c <=? 57) || (c =? 45) || (c =? 95))%N.

(** ** JSON values *)

#[warnings="-register-all"]
Inductive json : Type :=
| JNull
| JBool (b : bool)
| JNum (n : Q)
| JStr (s : jsstring)
| JArr (items : list json)
| JObj (props : list (jsstring * json)).

(** [undefined] is [None]. *)
Definition jsval := option json.

Fixpoint assoc (k : jsstring) (props : list (jsstring * json)) : jsval :=
  match props with
  | [] => None
  | (k', v) :: rest => if streq k' k then Some v else assoc k rest
  end.

(** Property read [v[k]] for the keys this module uses (none of them is
    an array index, ["length"] or an inherited name), on a value that is
    not [null]: only an object has such a property. *)
Definition get (v : json) (k : jsstring) : jsval :=
  match v with
  | JObj props => assoc k props
  | _ => None
  end.

(** Optional chaining [v?.[k]]. *)
Definition oget (v : jsval) (k : jsstring) : jsval :=
  match v with
  | Some o => get o k
  | None => None
  end.

Fixpoint assoc_set (k : jsstring) (x : json) (props : list (jsstring * json))
  : list (jsstring * json) :=
  match props with
  | [] => [(k, x)]
  | (k', v) :: rest =>
      if streq k' k then (k', x) :: rest else (k', v) :: assoc_set k x rest
  end.

(** ToBoolean. *)
Definition truthy (v : json) : bool :=
  match v with
  | JNull => false
  | JBool b => b
  | JNum n => negb (Qeq_bool n 0)
  | JStr s => nonempty s
  | JArr _ | JObj _ => true
  end.

Definition truthyv (v : jsval) : bool :=
  match v with Some x => truthy x | None => false end.

(** [typeof v === "object"], [=== "number"], [=== "string"]. *)
Definition is_object (v : jsval) : bool :=
  match v with Some (JNull | JArr _ | JObj _) => true | _ => false end.

Definition is_number (v : jsval) : bool :=
  match v with Some (JNum _) => true | _ => false end.

Definition as_string (v : jsval) : option jsstring :=
  match v with Some (JStr s) => Some s | _ => None end.

(** [v === s] for a string [s]. *)
Definition is_str (v : jsval) (s : jsstring) : bool :=
  match v with Some (JStr s') => streq s' s | _ => false end.

(** An object literal in which a property whose value is [undefined] is
    left out, as [JSON.stringify] does. *)
Fixpoint object_of (fields : list (jsstring * jsval)) : list (jsstring * json) :=
  match fields with
  | [] => []
  | (k, Some v) :: rest => (k, v) :: object_of rest
  | (_, None) :: rest => object_of rest
  end.

(** ** Types of the module *)

Inductive ToolName := YtDlp | Ffmpeg.

Definition tool_name (t : ToolName) : jsstring :=
  match t with YtDlp => str "yt-dlp" | Ffmpeg => str "ffmpeg" end.

Inductive ToolSourceType := direct | youtube.

(** The fields of a release carry the prefix [rel_], the class having a
    method [sha256] of its own. *)
Record ToolRelease := {
  rel_version : jsstring;
  rel_url : jsstring;
  rel_sha256 : jsstring;
  rel_binaryName : jsstring;
  rel_signature : jsval;
  rel_publicKeyPem : jsval
}.

Record ToolManifest := { tools : json }.

Record ResolvedTrackSource := {
  sourceType : ToolSourceType;
  url : jsstring;
  title : option jsstring;
  localPath : option jsstring
}.

Definition mk_release (v u h b : string) : ToolRelease :=
  {| rel_version := str v; rel_url := str u; rel_sha256 := str h;
     rel_binaryName := str b; rel_signature := None; rel_publicKeyPem := None |}.

Definition BUILTIN_TOOL_RELEASES (tool : ToolName) : list (jsstring * ToolRelease) :=
  match tool with
  | YtDlp =>
      [ (str "darwin-arm64",
          mk_release "2026.02.21"
            "https://github.com/yt-dlp/yt-dlp/releases/download/2026.02.21/yt-dlp_macos"
            "13dc66e13e87c187e16bf0def71b35f118bc06145907739d5549d213a9e3b9e5"
            "yt-dlp");
        (str "darwin-x64",
          mk_release "2026.02.21"
            "https://github.com/yt-dlp/yt-dlp/releases/download/2026.02.21/yt-dlp_macos"
            "13dc66e13e87c187e16bf0def71b35f118bc06145907739d5549d213a9e3b9e5"
            "yt-dlp");
        (str "linux-x64",
          mk_release "2026.02.21"
            "https://github.com/yt-dlp/yt-dlp/releases/download/2026.02.21/yt-dlp_linux"
            "057098b1390e8d4931e143eb889e9bbe088f17e40a2936f31ee218909f806f5f"
            "yt-dlp");
        (str "linux-arm64",
          mk_release "2026.02.21"
            "https://github.com/yt-dlp/yt-dlp/releases/download/2026.02.21/yt-dlp_linux_aarch64"
            "7571d3a9bb1ef31a490cd33c37341002006748078ed4d7fa617b0b6ce495f965"
            "yt-dlp");
        (str "win32-x64",
          mk_release "2026.02.21"
            "https://github.com/yt-dlp/yt-dlp/releases/download/2026.02.21/yt-dlp.exe"
            "72a91fe064d5758c976e94f877c24369477dd3e395614b5b270dd5400a035ffa"
            "yt-dlp.exe");
        (str "win32-arm64",
          mk_release "2026.02.21"
            "https://github.com/yt-dlp/yt-dlp/releases/download/2026.02.21/yt-dlp_arm64.exe"
            "17771a25b11af4bc8324de006b39fde7ff62deb8a95bf9000a182769f7b0450b"
            "yt-dlp.exe") ]
  | Ffmpeg => []
  end.

Fixpoint lookup_release (key : jsstring) (table : list (jsstring * ToolRelease))
  : option ToolRelease :=
  match table with
  | [] => None
  | (k, r) :: rest => if streq k key then Some r else lookup_release key rest
  end.

Definition REMOTE_MANIFEST_CACHE_TTL_MS : Z := 1000 * 60 * 60 * 6.

(** ** The world and the platform *)

Record File := { f_data : Buffer; f_mode : Z }.

(** What [https.get] reports: an ['error'] event on the request, or a
    response with its status code (possibly absent), its [Location] header
    and its body ([None] when the response stream fails before its end). *)
Inductive HttpReply :=
| RequestFailed
| Response (statusCode : option Z) (location : option jsstring) (body : option Buffer).

(** What a spawned process does: it fails to start, or it closes with an
    exit code ([None] when killed by a signal), its two output streams, and
    the files as it leaves them. *)
Inductive ProcOutcome :=
| SpawnFailed
| Closed (code : option Z) (stdout stderr : jsstring) (files : gmap jsstring File).

Record World := {
  w_fs : gmap jsstring File;
  w_mem : json;                       (* remoteManifestMemoryCache, [JNull] for null *)
  w_tick : nat;                       (* clock readings taken so far *)
  w_requests : list jsstring;         (* URLs given to https.get, latest first *)
  w_spawned : list (jsstring * list jsstring)
}.

Class Platform := {
  userData : jsstring;
  path_join : jsstring -> jsstring -> jsstring;
  path_basename : jsstring -> jsstring -> jsstring;
  path_extname : jsstring -> jsstring;
  pathToFileURL : jsstring -> jsstring;
  process_platform : jsstring;
  process_arch : jsstring;
  env_GH_OWNER : option jsstring;
  env_GH_REPO : option jsstring;
  env_GH_TAG : option jsstring;
  env_ASSET : option jsstring;
  env_PUBLIC_KEY_PEM : option jsstring;
  (* [new URL(s).hostname]; [None] when the constructor throws *)
  URL_hostname : jsstring -> option jsstring;
  toLowerCase : jsstring -> jsstring;
  (* [JSON.parse]; [None] when it throws *)
  JSON_parse : jsstring -> option json;
  (* [JSON.stringify(v, null, indent)] *)
  JSON_stringify : option nat -> json -> jsstring;
  utf8_encode : jsstring -> Buffer;
  utf8_decode : Buffer -> jsstring;
  (* [Buffer.from(v, "base64")]; [None] when it throws *)
  Buffer_from_base64 : json -> option Buffer;
  sha256_hex : Buffer -> jsstring;
  (* [crypto.verify("sha256", payload, key, signature)]; [None] when it throws *)
  crypto_verify : Buffer -> json -> Buffer -> option bool;
  (* [Date.parse]; [None] for NaN *)
  Date_parse : jsval -> option Z;
  Date_toISOString : Z -> jsstring;
  (* the n-th reading of the clock, in milliseconds *)
  clock : nat -> Z;
  (* [https.get] takes the URL: it parses as an absolute URL whose
     protocol is https; on any other string [https.get] throws a [TypeError]
     and sends nothing *)
  https_get_accepts : jsstring -> bool;
  (* the reply to a request, given how many calls of [https.get] came
     before it *)
  net : nat -> jsstring -> HttpReply;
  proc : jsstring -> list jsstring -> gmap jsstring File -> ProcOutcome
}.

(** ** The monad of asynchronous methods *)

Inductive error :=
| Error (message : jsstring)     (* [new Error(message)] thrown by this module *)
| SyntaxError                    (* [JSON.parse] *)
| TypeError
| CryptoError                    (* [crypto.verify] on a key it cannot use *)
| ENOENT (path : jsstring)       (* a file operation on a missing path *)
| EISDIR (path : jsstring)       (* a file renamed onto a directory; the code
                                    reported is EISDIR, ENOTEMPTY or EPERM
                                    with the platform *)
| NetworkError                   (* an ['error'] event of a request or response *)
| SpawnError.

Inductive result (A : Type) :=
| Ok (a : A)
| Throw (e : error).
Arguments Ok {A} a.
Arguments Throw {A} e.

Definition M (A : Type) : Type := World -> result A * World.

Definition ret {A} (a : A) : M A := fun w => (Ok a, w).

Definition throw {A} (e : error) : M A := fun w => (Throw e, w).

Definition bind {A B} (m : M A) (k : A -> M B) : M B :=
  fun w =>
    match m w with
    | (Ok a, w') => k a w'
    | (Throw e, w') => (Throw e, w')
    end.

(** [try { m } catch (e) { h e }] *)
Definition try_catch {A} (m : M A) (h : error -> M A) : M A :=
  fun w =>
    match m w with
    | (Ok a, w') => (Ok a, w')
    | (Throw e, w') => h e w'
    end.

Definition lift {A} (r : result A) : M A := fun w => (r, w).

Declare Scope js_scope.
Delimit Scope js_scope with js.
Notation "x <- m ;; k" := (bind m (fun x => k))
  (at level 100, m at next level, right associativity) : js_scope.
Notation "m ;; k" := (bind m (fun _ => k))
  (at level 100, right associativity) : js_scope.
Local Open Scope js_scope.

Definition set_fs (fs : gmap jsstring File) (w : World) : World :=
  {| w_fs := fs; w_mem := w_mem w; w_tick := w_tick w;
     w_requests := w_requests w; w_spawned := w_spawned w |}.

Definition set_mem (c : json) (w : World) : World :=
  {| w_fs := w_fs w; w_mem := c; w_tick := w_tick w;
     w_requests := w_requests w; w_spawned := w_spawned w |}.

Definition tick (w : World) : World :=
  {| w_fs := w_fs w; w_mem := w_mem w; w_tick := S (w_tick w);
     w_requests := w_requests w; w_spawned := w_spawned w |}.

Definition log_request (u : jsstring) (w : World) : World :=
  {| w_fs := w_fs w; w_mem := w_mem w; w_tick := w_tick w;
     w_requests := u :: w_requests w; w_spawned := w_spawned w |}.

Definition log_spawn (b : jsstring) (args : list jsstring) (w : World) : World :=
  {| w_fs := w_fs w; w_mem := w_mem w; w_tick := w_tick w;
     w_requests := w_requests w; w_spawned := (b, args) :: w_spawned w |}.

(** ** The manager *)

Section Manager.
Context {P : Platform}.

(** *** Files, clock, processes *)

Definition exists_ (filePath : jsstring) : M bool :=
  fun w => (Ok (bool_decide (is_Some (w_fs w !! filePath))), w).

Definition fs_readFile (filePath : jsstring) : M jsstring :=
  fun w =>
    match w_fs w !! filePath with
    | Some f => (Ok (utf8_decode (f_data f)), w)
    | None => (Throw (ENOENT filePath), w)
    end.

(** A new file gets mode 0o644; an overwritten one keeps its mode. *)
Definition fs_writeFile (filePath : jsstring) (data : Buffer) : M unit :=
  fun w =>
    let mode := match w_fs w !! filePath with Some f => f_mode f | None => 420 end in
    (Ok tt, set_fs (<[filePath := {| f_data := data; f_mode := mode |}]> (w_fs w)) w).

(** [fs.rename] to a destination that is no directory: the catalog cache
    and the manifest are renamed to a fixed file name joined to [baseDir]. *)
Definition fs_rename (oldPath newPath : jsstring) : M unit :=
  fun w =>
    match w_fs w !! oldPath with
    | Some f => (Ok tt, set_fs (<[newPath := f]> (delete oldPath (w_fs w))) w)
    | None => (Throw (ENOENT oldPath), w)
    end.

(** [fs.rm(path, { force: true })] *)
Definition fs_rm_force (filePath : jsstring) : M unit :=
  fun w => (Ok tt, set_fs (delete filePath (w_fs w)) w).

Definition fs_chmod (filePath : jsstring) (mode : Z) : M unit :=
  fun w =>
    match w_fs w !! filePath with
    | Some f =>
        (Ok tt, set_fs (<[filePath := {| f_data := f_data f; f_mode := mode |}]> (w_fs w)) w)
    | None => (Throw (ENOENT filePath), w)
    end.

(** [fs.mkdir(dir, { recursive: true })]: directories are not part of the
    file map, a file's path stands for its directories. *)
Definition fs_mkdir (dir : jsstring) : M unit := ret tt.

Definition Date_now : M Z := fun w => (Ok (clock (w_tick w)), tick w).

(** [new Date().toISOString()] *)
Definition now_iso : M jsstring := t <- Date_now ;; ret (Date_toISOString t).

Definition get_mem : M json := fun w => (Ok (w_mem w), w).

Definition put_mem (c : json) : M unit := fun w => (Ok tt, set_mem c w).

(** *** Paths and configuration *)

Definition baseDir : jsstring := path_join userData (str "optional-tools").
Definition binDir : jsstring := path_join baseDir (str "bin").
Definition tempDir : jsstring := path_join baseDir (str "tmp").
Definition manifestPath : jsstring := path_join baseDir (str "tools.json").
Definition remoteManifestCachePath : jsstring :=
  path_join baseDir (str "tools-manifest-cache.json").
Definition mediaDir : jsstring := path_join userData (str "playlist-media").

(** [process.env.X || fallback] *)
Definition or_default (e : option jsstring) (fallback : jsstring) : jsstring :=
  match e with
  | Some s => if nonempty s then s else fallback
  | None => fallback
  end.

Definition REMOTE_MANIFEST_OWNER := or_default env_GH_OWNER (str "Soteyl").
Definition REMOTE_MANIFEST_REPO := or_default env_GH_REPO (str "better-kenku-fm").
Definition REMOTE_MANIFEST_TAG := or_default env_GH_TAG (str "tool-manifest").
Definition REMOTE_MANIFEST_ASSET := or_default env_ASSET (str "tools-manifest.json").
Definition REMOTE_MANIFEST_PUBLIC_KEY_PEM : option jsstring := env_PUBLIC_KEY_PEM.

Definition getRemoteManifestURL : jsstring :=
  str "https://github.com/" ++ REMOTE_MANIFEST_OWNER ++ str "/"
  ++ REMOTE_MANIFEST_REPO ++ str "/releases/download/"
  ++ REMOTE_MANIFEST_TAG ++ str "/" ++ REMOTE_MANIFEST_ASSET.

Definition getPlatformKey : jsstring :=
  process_platform ++ str "-" ++ process_arch.

(** *** isYoutubeURL *)

Definition isYoutubeURL (value : jsstring) : bool :=
  match URL_hostname (trim value) with
  | Some hostname =>
      let host := toLowerCase hostname in
      streq host (str "youtube.com")
      || streq host (str "www.youtube.com")
      || streq host (str "m.youtube.com")
      || streq host (str "youtu.be")
      || endsWith host (str ".youtube.com")
  | None => false
  end.

(** *** httpGetBuffer *)

Definition is_redirect (statusCode : option Z) (location : option jsstring)
  : option jsstring :=
  match statusCode, location with
  | Some c, Some l =>
      if (negb (c =? 0) && (300 <=? c) && (c <? 400) && nonempty l)%Z
      then Some l else None
  | _, _ => None
  end.

Definition status_text (statusCode : option Z) : jsstring :=
  match statusCode with
  | Some c => str (pretty c)
  | None => str "unknown status"
  end.

Definition is_200 (statusCode : option Z) : bool :=
  match statusCode with Some c => c =? 200 | None => false end.

(** The method calls itself with [redirectCount + 1] and refuses a count
    above 5; [hops] bounds the calls still possible, [6 - redirectCount]
    in [httpGetBuffer] below (see [httpGetBuffer_unfold]).  [https.get]
    throws inside the executor of the promise when it does not take the
    URL, which rejects the promise with that [TypeError]. *)
Fixpoint httpGetBuffer_hops (hops : nat) (url : jsstring) (redirectCount : nat)
  : M Buffer :=
  if (5 <? redirectCount)%nat
  then throw (Error (str "Too many redirects while downloading tool"))
  else
    fun w =>
      let w' := log_request url w in
      if negb (https_get_accepts url) then (Throw TypeError, w')
      else
        match net (length (w_requests w)) url with
        | RequestFailed => (Throw NetworkError, w')
        | Response statusCode location body =>
            match is_redirect statusCode location with
            | Some target =>
                match hops with
                | S hops' => httpGetBuffer_hops hops' target (S redirectCount) w'
                | O => (Throw (Error (str "Too many redirects while downloading tool")), w')
                end
            | None =>
                if negb (is_200 statusCode)
                then (Throw (Error (str "Failed to download tool: "
                                    ++ status_text statusCode)), w')
                else
                  match body with
                  | Some chunks => (Ok chunks, w')
                  | None => (Throw NetworkError, w')
                  end
            end
        end.

Definition httpGetBuffer (url : jsstring) (redirectCount : nat) : M Buffer :=
  httpGetBuffer_hops (6 - redirectCount) url redirectCount.

Definition downloadToFile (url destination : jsstring) : M unit :=
  response <- httpGetBuffer url 0 ;;
  fs_writeFile destination response.

(** *** Hashing and integrity *)

Definition sha256 (filePath : jsstring) : M jsstring :=
  fun w =>
    match w_fs w !! filePath with
    | Some f => (Ok (sha256_hex (f_data f)), w)
    | None => (Throw (ENOENT filePath), w)
    end.

(** The signature branch shared by the catalog and the release checks:
    decode the signature, verify it over [payload], throw [failure] when
    the verification answers false. *)
Definition check_signature (signature key : json) (payload : Buffer)
  (failure : jsstring) : result unit :=
  match Buffer_from_base64 signature with
  | None => Throw TypeError
  | Some sig =>
      match crypto_verify payload key sig with
      | None => Throw CryptoError
      | Some true => Ok tt
      | Some false => Throw (Error failure)
      end
  end.

Definition verifyReleaseIntegrity (tool : ToolName) (filePath : jsstring)
  (release : ToolRelease) : M unit :=
  hash <- sha256 filePath ;;
  if negb (streq hash (rel_sha256 release))
  then throw (Error (str "Checksum mismatch while installing " ++ tool_name tool))
  else
    match rel_signature release, rel_publicKeyPem release with
    | Some signature, Some key =>
        if truthy signature && truthy key
        then
          lift (check_signature signature key
                  (utf8_encode (tool_name tool ++ str "@" ++ rel_version release
                                ++ str ":" ++ hash))
                  (str "Signature verification failed for " ++ tool_name tool))
        else ret tt
    | _, _ => ret tt
    end.

(** *** The remote catalog *)

(** The bytes the catalog signature is over:
    [JSON.stringify({ version, generatedAt, tools })]. *)
Definition catalog_payload (parsed : json) : Buffer :=
  utf8_encode
    (JSON_stringify None
       (JObj (object_of
                [ (str "version", get parsed (str "version"));
                  (str "generatedAt", get parsed (str "generatedAt"));
                  (str "tools", get parsed (str "tools")) ]))).

Definition parseAndValidateRemoteManifest (buffer : Buffer) : result json :=
  match JSON_parse (utf8_decode buffer) with
  | None => Throw SyntaxError
  | Some parsed =>
      if negb (truthy parsed) || negb (is_object (Some parsed))
         || negb (is_number (get parsed (str "version")))
      then Throw (Error (str "Invalid tools manifest"))
      else if negb (truthyv (get parsed (str "tools")))
              || negb (is_object (get parsed (str "tools")))
      then Throw (Error (str "Invalid tools manifest payload"))
      else
        match get parsed (str "signature"), REMOTE_MANIFEST_PUBLIC_KEY_PEM with
        | Some signature, Some key =>
            if truthy signature && nonempty key
            then
              let payload := catalog_payload parsed in
              match check_signature signature (JStr key) payload
                      (str "Tools manifest signature verification failed") with
              | Ok _ => Ok parsed
              | Throw e => Throw e
              end
            else Ok parsed
        | _, _ => Ok parsed
        end
  end.

Definition toValidToolRelease (value : jsval) : option ToolRelease :=
  match value with
  | None => None
  | Some release =>
      if negb (truthy release) || negb (is_object value) then None
      else
        match as_string (get release (str "version")),
              as_string (get release (str "url")),
              as_string (get release (str "sha256")),
              as_string (get release (str "binaryName")) with
        | Some version, Some url, Some sha, Some binaryName =>
            if includes binaryName 47%N || includes binaryName 92%N
               || (length (trim binaryName) =? 0)%nat
            then None
            else Some {| rel_version := version;
                         rel_url := url;
                         rel_sha256 := toLowerCase sha;
                         rel_binaryName := binaryName;
                         rel_signature := get release (str "signature");
                         rel_publicKeyPem := get release (str "publicKeyPem") |}
        | _, _, _, _ => None
        end
  end.

(** Returns the cached object, or [JNull]. *)
Definition readRemoteManifestDiskCache : M json :=
  present <- exists_ remoteManifestCachePath ;;
  if negb present then ret JNull
  else
    try_catch
      (content <- fs_readFile remoteManifestCachePath ;;
       match JSON_parse content with
       | None => throw SyntaxError
       | Some parsed =>
           if negb (truthyv (get parsed (str "manifest")))
              || negb (truthyv (get parsed (str "fetchedAt")))
           then ret JNull
           else ret parsed
       end)
      (fun _ => ret JNull).

Definition writeRemoteManifestDiskCache (cache : json) : M unit :=
  fs_mkdir baseDir ;;
  let tempPath := remoteManifestCachePath ++ str ".tmp" in
  fs_writeFile tempPath (utf8_encode (JSON_stringify (Some 2%nat) cache)) ;;
  fs_rename tempPath remoteManifestCachePath.

(** [Number.isFinite(fetchedAt) && now - fetchedAt < TTL] *)
Definition is_fresh (now : Z) (fetchedAt : jsval) : bool :=
  match Date_parse fetchedAt with
  | Some t => now - t <? REMOTE_MANIFEST_CACHE_TTL_MS
  | None => false
  end.

(** The [try] block of [getRemoteManifest]. *)
Definition refreshRemoteManifest : M jsval :=
  response <- httpGetBuffer getRemoteManifestURL 0 ;;
  manifest <- lift (parseAndValidateRemoteManifest response) ;;
  fetchedAt <- now_iso ;;
  let cache := JObj [ (str "fetchedAt", JStr fetchedAt);
                      (str "manifest", manifest) ] in
  put_mem cache ;;
  writeRemoteManifestDiskCache cache ;;
  ret (Some manifest).

(** The catalog, [Some JNull] for [null]. *)
Definition getRemoteManifest : M jsval :=
  now <- Date_now ;;
  memoryCache <- get_mem ;;
  if truthy memoryCache && is_fresh now (get memoryCache (str "fetchedAt"))
  then ret (get memoryCache (str "manifest"))
  else
    diskCache <- readRemoteManifestDiskCache ;;
    if truthy diskCache && is_fresh now (get diskCache (str "fetchedAt"))
    then put_mem diskCache ;; ret (get diskCache (str "manifest"))
    else
      try_catch refreshRemoteManifest
        (fun _ =>
           if truthy diskCache
           then put_mem diskCache ;; ret (get diskCache (str "manifest"))
           else ret (Some JNull)).

Definition unsupported_platform (tool : ToolName) : error :=
  Error (str "Unsupported platform for " ++ tool_name tool ++ str ": "
         ++ process_platform ++ str "-" ++ process_arch).

(** [remoteManifest?.tools?.[tool]?.[platformKey]] *)
Definition remote_entry (remoteManifest : jsval) (tool : ToolName) : jsval :=
  oget (oget (oget remoteManifest (str "tools")) (tool_name tool)) getPlatformKey.

Definition getRelease (tool : ToolName) : M ToolRelease :=
  let platformKey := getPlatformKey in
  remoteManifest <- getRemoteManifest ;;
  match toValidToolRelease (remote_entry remoteManifest tool) with
  | Some remoteRelease => ret remoteRelease
  | None =>
      match lookup_release platformKey (BUILTIN_TOOL_RELEASES tool) with
      | Some release => ret release
      | None => throw (unsupported_platform tool)
      end
  end.

(** *** The local manifest *)

Definition empty_manifest : ToolManifest := {| tools := JObj [] |}.

Definition readManifest : M ToolManifest :=
  present <- exists_ manifestPath ;;
  if negb present then ret empty_manifest
  else
    try_catch
      (content <- fs_readFile manifestPath ;;
       match JSON_parse content with
       | None => throw SyntaxError
       | Some JNull => throw TypeError
       | Some parsed =>
           ret {| tools := match get parsed (str "tools") with
                           | Some t => if truthy t then t else JObj []
                           | None => JObj []
                           end |}
       end)
      (fun _ => ret empty_manifest).

Definition writeManifest (manifest : ToolManifest) : M unit :=
  fs_mkdir baseDir ;;
  let tempPath := manifestPath ++ str ".tmp" in
  fs_writeFile tempPath
    (utf8_encode (JSON_stringify (Some 2%nat) (JObj [ (str "tools", tools manifest) ]))) ;;
  fs_rename tempPath manifestPath.

(** [{ ...entry }]; the method spreads an entry only after it has read a
    string property from it, that is an object. *)
Definition spread (entry : jsval) : list (jsstring * json) :=
  match entry with
  | Some (JObj props) => props
  | _ => []
  end.

(** [manifest.tools[tool] = record] in strict code: a primitive refuses
    the property, and a named property set on an array is not part of what
    [JSON.stringify] writes. *)
Definition set_tool (manifest : ToolManifest) (tool : ToolName) (record : json)
  : result ToolManifest :=
  match tools manifest with
  | JObj props => Ok {| tools := JObj (assoc_set (tool_name tool) record props) |}
  | JArr items => Ok {| tools := JArr items |}
  | _ => Throw TypeError
  end.

(** *** ensureToolInstalled *)

(** The directories that are there once [ensureToolInstalled] has made
    [binDir] and [tempDir] with the [recursive] option. *)
Definition made_directories : list jsstring := [userData; baseDir; binDir; tempDir].

(** [fs.rename] to the binary path, which is computed from the name the
    release gives: [path.join(binDir, binaryName)] is [binDir] itself for the
    name ["."] and [baseDir] for [".."], and a file is not renamed onto a
    directory. *)
Definition fs_rename_binary (oldPath newPath : jsstring) : M unit :=
  fun w =>
    match w_fs w !! oldPath with
    | Some f =>
        if bool_decide (newPath ∈ made_directories)
        then (Throw (EISDIR newPath), w)
        else (Ok tt, set_fs (<[newPath := f]> (delete oldPath (w_fs w))) w)
    | None => (Throw (ENOENT oldPath), w)
    end.

(** The [try] block of [ensureToolInstalled]. *)
Definition installRelease (tool : ToolName) (release : ToolRelease)
  (binaryPath tempPath : jsstring) (manifest : ToolManifest) : M jsstring :=
  downloadToFile (rel_url release) tempPath ;;
  verifyReleaseIntegrity tool tempPath release ;;
  fs_chmod tempPath 493 ;;
  fs_rename_binary tempPath binaryPath ;;
  installedAt <- now_iso ;;
  lastVerifiedAt <- now_iso ;;
  manifest' <- lift (set_tool manifest tool
                       (JObj [ (str "version", JStr (rel_version release));
                               (str "sha256", JStr (rel_sha256 release));
                               (str "binaryPath", JStr binaryPath);
                               (str "sourceUrl", JStr (rel_url release));
                               (str "installedAt", JStr installedAt);
                               (str "lastVerifiedAt", JStr lastVerifiedAt) ])) ;;
  writeManifest manifest' ;;
  ret binaryPath.

(** The manifest records, for the tool, this path and the version and
    the hash of the release. *)
Definition recordMatches (tool : ToolName) (release : ToolRelease)
  (binaryPath : jsstring) (manifest : ToolManifest) : bool :=
  let entry := get (tools manifest) (tool_name tool) in
  is_str (oget entry (str "binaryPath")) binaryPath
  && is_str (oget entry (str "version")) (rel_version release)
  && is_str (oget entry (str "sha256")) (rel_sha256 release).

(** The condition [validExistingInstall]. *)
Definition validExistingInstall (tool : ToolName) (release : ToolRelease)
  (binaryPath : jsstring) (manifest : ToolManifest) : M bool :=
  if recordMatches tool release binaryPath manifest
  then exists_ binaryPath
  else ret false.

(** [currentHash === release.sha256] *)
Definition currentHashMatches (release : ToolRelease) (binaryPath : jsstring) : M bool :=
  currentHash <- sha256 binaryPath ;;
  ret (streq currentHash (rel_sha256 release)).

(** The body of the inner [if]: the install is the resolved release. *)
Definition refreshVerified (tool : ToolName) (binaryPath : jsstring)
  (manifest : ToolManifest) : M jsstring :=
  let entry := get (tools manifest) (tool_name tool) in
  fs_chmod binaryPath 493 ;;
  lastVerifiedAt <- now_iso ;;
  manifest' <- lift (set_tool manifest tool
                       (JObj (assoc_set (str "lastVerifiedAt") (JStr lastVerifiedAt)
                                (spread entry)))) ;;
  writeManifest manifest' ;;
  ret binaryPath.

Definition tempPathFor (release : ToolRelease) (now : Z) : jsstring :=
  path_join tempDir (rel_binaryName release ++ str "-" ++ str (pretty now)
                     ++ str ".tmp").

Definition ensureToolInstalled (tool : ToolName) : M jsstring :=
  release <- getRelease tool ;;
  let binaryPath := path_join binDir (rel_binaryName release) in
  manifest <- readManifest ;;
  valid <- validExistingInstall tool release binaryPath manifest ;;
  verified <- (if valid then currentHashMatches release binaryPath else ret false) ;;
  if verified
  then refreshVerified tool binaryPath manifest
  else
    fs_mkdir binDir ;;
    fs_mkdir tempDir ;;
    now <- Date_now ;;
    let tempPath := tempPathFor release now in
    try_catch (installRelease tool release binaryPath tempPath manifest)
      (fun error => fs_rm_force tempPath ;; throw error).

(** *** Extraction *)

Record ExecResult := { code : Z; stdout : jsstring; stderr : jsstring }.

Definition execBinary (binaryPath : jsstring) (args : list jsstring) : M ExecResult :=
  fun w =>
    let w' := log_spawn binaryPath args w in
    match proc binaryPath args (w_fs w) with
    | SpawnFailed => (Throw SpawnError, w')
    | Closed c out err files =>
        (Ok {| code := match c with Some n => n | None => 1 end;
               stdout := out; stderr := err |},
         set_fs files w')
    end.

(** [stdout.split(/\r?\n/).map((line) => line.trim()).filter(Boolean)] *)
Definition output_lines (out : jsstring) : list jsstring :=
  filter (fun line => nonempty line = true) (map trim (split_lines out)).

(** [playlistId.replace(/[^a-zA-Z0-9-_]/g, "") || "default"] *)
Definition safePlaylistId (playlistId : jsstring) : jsstring :=
  let kept := filter (fun c => is_safe_id_char c = true) playlistId in
  if nonempty kept then kept else str "default".

Definition downloadArgs (targetDir sourceUrl : jsstring) : list jsstring :=
  let outputTemplate := str "%(title).120B-%(id)s.%(ext)s" in
  [ str "--no-playlist"; str "--no-progress"; str "--no-warnings";
    str "-f"; str "bestaudio[ext=m4a]/bestaudio";
    str "-P"; targetDir;
    str "-o"; outputTemplate;
    str "--print"; str "title";
    str "--print"; str "after_move:filepath";
    sourceUrl ].

Definition downloadYoutubeAudio (ytDlpPath sourceUrl playlistId : jsstring)
  : M (jsstring * jsstring) :=
  let targetDir := path_join mediaDir (safePlaylistId playlistId) in
  fs_mkdir targetDir ;;
  r <- execBinary ytDlpPath (downloadArgs targetDir sourceUrl) ;;
  if negb (code r =? 0)
  then throw (Error (if nonempty (stderr r) then stderr r
                     else str "Failed to download YouTube audio"))
  else
    let lines := output_lines (stdout r) in
    match last lines with
    | None => throw (Error (str "Unable to locate downloaded track file"))
    | Some filePath =>
        present <- (if nonempty filePath then exists_ filePath else ret false) ;;
        if negb present
        then throw (Error (str "Unable to locate downloaded track file"))
        else
          let title :=
            match head lines with
            | Some first =>
                if nonempty first then first
                else path_basename filePath (path_extname filePath)
            | None => path_basename filePath (path_extname filePath)
            end in
          ret (title, filePath)
    end.

(** *** resolveTrackSource *)

Definition extractTrack (trimmed playlistId : jsstring) : M ResolvedTrackSource :=
  ytDlpPath <- ensureToolInstalled YtDlp ;;
  downloadResult <- downloadYoutubeAudio ytDlpPath trimmed playlistId ;;
  ret {| sourceType := youtube;
         title := Some (fst downloadResult);
         localPath := Some (snd downloadResult);
         url := pathToFileURL (snd downloadResult) |}.

Definition resolveTrackSource (source playlistId : jsstring) : M ResolvedTrackSource :=
  let trimmed := trim source in
  if negb (isYoutubeURL trimmed)
  then ret {| sourceType := direct; url := trimmed; title := None; localPath := None |}
  else extractTrack trimmed playlistId.

End Manager.

(** ** The progress reducer of the Add Track dialog *)

(** A number as the listener meets it, through [typeof] and [<]: a finite
    value, an infinity, or NaN (for which [typeof] is "number" too). *)
Inductive jsnumber := Finite (q : Q) | PosInfinity | NegInfinity | NaN.

Record TrackSourceProgress := {
  stage : jsstring;
  message : jsstring;
  progress : option jsnumber      (* [None] when the property is not a number *)
}.

Record TrackAddState := {
  st_requestId : option jsstring;
  st_progress : option TrackSourceProgress
}.

(** [incomingValue < prevValue] on two numbers: false as soon as one of
    them is NaN. *)
Definition num_lt (a b : jsnumber) : bool :=
  match a, b with
  | NaN, _ | _, NaN => false
  | Finite x, Finite y => negb (Qle_bool y x)
  | _, NegInfinity => false
  | NegInfinity, _ => true
  | PosInfinity, _ => false
  | Finite _, PosInfinity => true
  end.

(** The function given to [setProgress]. *)
Definition mergeProgress (prev : option TrackSourceProgress)
  (incomingProgress : TrackSourceProgress) : TrackSourceProgress :=
  match prev with
  | None => incomingProgress
  | Some prev =>
      let prevValue := progress prev in
      let incomingValue := progress incomingProgress in
      match prevValue, incomingValue with
      | Some p, Some i =>
          if num_lt i p
          then {| stage := stage incomingProgress;
                  message := message incomingProgress;
                  progress := Some p |}
          else incomingProgress
      | Some p, None =>
          if streq (stage incomingProgress) (str "download-audio")
          then {| stage := stage incomingProgress;
                  message := message incomingProgress;
                  progress := Some p |}
          else incomingProgress
      | None, _ => incomingProgress
      end
  end.

Definition handleProgress (st : TrackAddState)
  (incomingRequestId : jsstring) (incomingProgress : TrackSourceProgress)
  : TrackAddState :=
  if nonempty incomingRequestId
     && bool_decide (st_requestId st = Some incomingRequestId)
  then {| st_requestId := st_requestId st;
          st_progress := Some (mergeProgress (st_progress st) incomingProgress) |}
  else st.

(** The events delivered to the listener, in their order of delivery. *)
Definition deliver (st : TrackAddState)
  (events : list (jsstring * TrackSourceProgress)) : TrackAddState :=
  fold_left (fun s ev => handleProgress s (fst ev) (snd ev)) events st.

(** What the dialog shows as a number. *)
Definition visible (st : TrackAddState) : option jsnumber :=
  match st_progress st with
  | Some p => progress p
  | None => None
  end.

(** The state [handleSubmit] sets before it calls the resolver. *)
Definition submitted (id : jsstring) : TrackAddState :=
  {| st_requestId := Some id;
     st_progress := Some {| stage := str "prepare";
                            message := str "Preparing import pipeline...";
                            progress := Some (Finite (inject_Z 5)) |} |}.

(** [title || resolved.title || "Track"], the title [handleSubmit] gives
    the track it adds. *)
Definition trackTitle (userTitle : jsstring) (resolved : ResolvedTrackSource)
  : jsstring :=
  if nonempty userTitle then userTitle
  else
    match title resolved with
    | Some resolvedTitle =>
        if nonempty resolvedTitle then resolvedTitle else str "Track"
    | None => str "Track"
    end.

(** ** The source field of the Add Track dialog (AudioSelector.tsx) *)

Module AudioSelector.
Section Selector.
Context {P : Platform}.

Definition formats : list jsstring :=
  [ str "mp3"; str "flac"; str "wav"; str "ogg"; str "mp4"; str "3gp";
    str "webm"; str "mpeg" ].

(** The component's own copy of the function. *)
Definition isYoutubeURL (value : jsstring) : bool :=
  match URL_hostname (trim value) with
  | Some hostname =>
      let host := toLowerCase hostname in
      streq host (str "youtube.com")
      || streq host (str "www.youtube.com")
      || streq host (str "m.youtube.com")
      || streq host (str "youtu.be")
      || endsWith host (str ".youtube.com")
  | None => false
  end.

(** [Boolean(value) && isYoutubeURL(value)]: the download notice is shown. *)
Definition youtube (value : jsstring) : bool :=
  nonempty value && isYoutubeURL value.

(** The unsupported-format warning is shown. *)
Definition warning (value : jsstring) : bool :=
  nonempty value && negb (youtube value)
  && negb (existsb (fun format => endsWith (toLowerCase value) format) formats).

End Selector.
End AudioSelector.

(** ** A concrete platform

    An instance of [Platform] on which the methods run, for the examples:
    POSIX paths joined one segment at a time, ASCII text, JSON documents written
    the way [JSON.stringify] writes them and read back from a given list of
    documents, ISO dates, the SHA-256 digests of [""] and ["abc"], the
    base64 texts of ["good"] and ["bad"], and a key for which the one valid
    signature is the bytes ["good"].  The clock, the network and the
    spawned process are those of a [Scenario]. *)

Module Sample.

Record Scenario := {
  sc_key : option jsstring;
  sc_documents : list json;
  sc_clock : nat -> Z;
  sc_net : nat -> jsstring -> HttpReply;
  sc_proc : jsstring -> list jsstring -> gmap jsstring File -> ProcOutcome
}.

Fixpoint take_while (keep : N -> bool) (s : jsstring) : jsstring :=
  match s with
  | [] => []
  | c :: rest => if keep c then c :: take_while keep rest else []
  end.

(** The path without its last segment. *)
Definition dirname (p : jsstring) : jsstring :=
  let last_segment := take_while (fun c => negb (c =? 47)%N) (rev p) in
  rev (drop (S (length last_segment)) (rev p)).

(** [path.join] of a normalised directory and one segment: the segments
    ["."] and [".."] are resolved. *)
Definition join (a b : jsstring) : jsstring :=
  if streq b (str ".") then a
  else if streq b (str "..") then dirname a
  else a ++ str "/" ++ b.

Definition basename (p : jsstring) : jsstring :=
  rev (take_while (fun c => negb (c =? 47)%N) (rev p)).

Definition extname (p : jsstring) : jsstring :=
  let b := basename p in
  let ext := rev (take_while (fun c => negb (c =? 46)%N) (rev b)) in
  if (length ext <? length b - 1)%nat then 46%N :: ext else [].

Definition basename_without (p ext : jsstring) : jsstring :=
  let b := basename p in
  if nonempty ext && endsWith b ext && (length ext <? length b)%nat
  then take (length b - length ext) b else b.

Definition lower (s : jsstring) : jsstring :=
  map (fun c => if ((65 <=? c) && (c <=? 90))%N then (c + 32)%N else c) s.

(** The host of [http(s)://host...]. *)
Definition hostname (s : jsstring) : option jsstring :=
  let host rest :=
    let h := take_while (fun c => negb ((c =? 47) || (c =? 63) || (c =? 35)
                                        || (c =? 58))%N) rest in
    if nonempty h then Some (lower h) else None in
  if bool_decide (str "https://" `prefix_of` s) then host (drop 8 s)
  else if bool_decide (str "http://" `prefix_of` s) then host (drop 7 s)
  else None.

Fixpoint join_with (sep : jsstring) (parts : list jsstring) : jsstring :=
  match parts with
  | [] => []
  | [p] => p
  | p :: rest => p ++ sep ++ join_with sep rest
  end.

Definition quote (s : jsstring) : jsstring := 34%N :: s ++ [34%N].

Definition newline (gap depth : nat) : jsstring :=
  match gap with
  | O => []
  | _ => 10%N :: repeat 32%N (gap * depth)
  end.

Definition colon (gap : nat) : jsstring :=
  match gap with O => str ":" | _ => str ": " end.

(** [JSON.stringify(v, null, gap)] on integers and on strings that need
    no escape. *)
Fixpoint stringify (gap depth : nat) (v : json) {struct v} : jsstring :=
  match v with
  | JNull => str "null"
  | JBool true => str "true"
  | JBool false => str "false"
  | JNum n => str (pretty (Qnum n))
  | JStr s => quote s
  | JArr [] => str "[]"
  | JArr items =>
      str "[" ++ newline gap (S depth)
      ++ join_with (str "," ++ newline gap (S depth))
           (map (stringify gap (S depth)) items)
      ++ newline gap depth ++ str "]"
  | JObj [] => str "{}"
  | JObj props =>
      str "{" ++ newline gap (S depth)
      ++ join_with (str "," ++ newline gap (S depth))
           (map (fun kv => match kv with
                           | (k, x) => quote k ++ colon gap ++ stringify gap (S depth) x
                           end) props)
      ++ newline gap depth ++ str "}"
  end.

Definition parse (documents : list json) (text : jsstring) : option json :=
  List.find (fun v => streq (stringify 0 0 v) text || streq (stringify 2 0 v) text)
    documents.

Definition base64 (v : json) : option Buffer :=
  match v with
  | JStr s =>
      if streq s (str "Z29vZA==") then Some (str "good")
      else if streq s (str "YmFk") then Some (str "bad")
      else Some []
  | _ => None
  end.

Definition digest (b : Buffer) : jsstring :=
  if streq b []
  then str "e3b0c44298fc1c149afbf4c8996fb92427ae41e4649b934ca495991b7852b855"
  else if streq b (str "abc")
  then str "ba7816bf8f01cfea414140de5dae2223b00361a396177a9cb410ff61f20015ad"
  else str "unknown".

Definition verify (payload : Buffer) (key : json) (sig : Buffer) : option bool :=
  Some (streq sig (str "good")).

(** Decimal digits, padded with zeros to [width]. *)
Definition digits (width : nat) (n : Z) : jsstring :=
  let d := str (pretty n) in
  repeat 48%N (width - length d) ++ d.

(** Days since 1970-01-01 to year, month, day. *)
Definition civil_from_days (days : Z) : Z * Z * Z :=
  let z := days + 719468 in
  let era := z / 146097 in
  let doe := z - era * 146097 in
  let yoe := (doe - doe / 1460 + doe / 36524 - doe / 146096) / 365 in
  let doy := doe - (365 * yoe + yoe / 4 - yoe / 100) in
  let mp := (5 * doy + 2) / 153 in
  let d := doy - (153 * mp + 2) / 5 + 1 in
  let m := if mp <? 10 then mp + 3 else mp - 9 in
  (yoe + era * 400 + (if m <=? 2 then 1 else 0), m, d).

Definition days_from_civil (y m d : Z) : Z :=
  let y := if m <=? 2 then y - 1 else y in
  let era := y / 400 in
  let yoe := y - era * 400 in
  let doy := (153 * (if 2 <? m then m - 3 else m + 9) + 2) / 5 + d - 1 in
  let doe := yoe * 365 + yoe / 4 - yoe / 100 + doy in
  era * 146097 + doe - 719468.

Definition toISOString (t : Z) : jsstring :=
  let '(y, m, d) := civil_from_days (t / 86400000) in
  let ms := t mod 86400000 in
  digits 4 y ++ str "-" ++ digits 2 m ++ str "-" ++ digits 2 d ++ str "T"
  ++ digits 2 (ms / 3600000) ++ str ":" ++ digits 2 (ms / 60000 mod 60) ++ str ":"
  ++ digits 2 (ms / 1000 mod 60) ++ str "." ++ digits 3 (ms mod 1000) ++ str "Z".

Fixpoint number (acc : Z) (s : jsstring) : option Z :=
  match s with
  | [] => Some acc
  | c :: rest =>
      if ((48 <=? c) && (c <=? 57))%N
      then number (10 * acc + Z.of_N (c - 48)) rest
      else None
  end.

(** [Date.parse] on the format [toISOString] writes. *)
Definition parse_date (v : jsval) : option Z :=
  match v with
  | Some (JStr s) =>
      if negb (length s =? 24)%nat then None
      else
        match number 0 (take 4 s), number 0 (take 2 (drop 5 s)),
              number 0 (take 2 (drop 8 s)), number 0 (take 2 (drop 11 s)),
              number 0 (take 2 (drop 14 s)), number 0 (take 2 (drop 17 s)),
              number 0 (take 3 (drop 20 s)) with
        | Some y, Some m, Some d, Some hh, Some mm, Some ss, Some ms =>
            let t := days_from_civil y m d * 86400000
                     + hh * 3600000 + mm * 60000 + ss * 1000 + ms in
            if streq (toISOString t) s then Some t else None
        | _, _, _, _, _, _, _ => None
        end
  | _ => None
  end.

(** An absolute URL of protocol https, with a host. *)
Definition is_https (s : jsstring) : bool :=
  match hostname s with
  | Some _ => bool_decide (str "https://" `prefix_of` s)
  | None => false
  end.

Definition platform (sc : Scenario) : Platform :=
  {| userData := str "/home/user/.config/kenku";
     path_join := join;
     path_basename := basename_without;
     path_extname := extname;
     pathToFileURL := fun p => str "file://" ++ p;
     process_platform := str "linux";
     process_arch := str "x64";
     env_GH_OWNER := None;
     env_GH_REPO := None;
     env_GH_TAG := None;
     env_ASSET := None;
     env_PUBLIC_KEY_PEM := sc_key sc;
     URL_hostname := hostname;
     toLowerCase := lower;
     JSON_parse := parse (sc_documents sc);
     JSON_stringify := fun indent => stringify (default 0%nat indent) 0;
     utf8_encode := fun s => s;
     utf8_decode := fun b => b;
     Buffer_from_base64 := base64;
     sha256_hex := digest;
     crypto_verify := verify;
     Date_parse := parse_date;
     Date_toISOString := toISOString;
     clock := sc_clock sc;
     https_get_accepts := is_https;
     net := sc_net sc;
     proc := sc_proc sc |}.

Definition start : World :=
  {| w_fs := ∅; w_mem := JNull; w_tick := 0; w_requests := []; w_spawned := [] |}.

Definition file (text : jsstring) : File := {| f_data := text; f_mode := 420 |}.

Definition offline : nat -> jsstring -> HttpReply := fun _ _ => RequestFailed.

Definition no_process : jsstring -> list jsstring -> gmap jsstring File -> ProcOutcome :=
  fun _ _ _ => SpawnFailed.

Definition manifest_url : jsstring :=
  str "https://github.com/Soteyl/better-kenku-fm/releases/download/tool-manifest/tools-manifest.json".

Definition cache_path : jsstring :=
  str "/home/user/.config/kenku/optional-tools/tools-manifest-cache.json".

(** A catalog with an empty tool table, as a cache entry fetched at the
    given time. *)
Definition catalog (catalogVersion : Z) : json :=
  JObj [ (str "version", JNum (inject_Z catalogVersion));
         (str "generatedAt", JStr (str "2025-12-01T00:00:00.000Z"));
         (str "tools", JObj []) ].

Definition cached (fetchedAt : string) (manifest : json) : json :=
  JObj [ (str "fetchedAt", JStr (str fetchedAt)); (str "manifest", manifest) ].

Definition disk_entry : json := cached "2026-01-01T00:00:00.000Z" (catalog 2).
Definition memory_entry : json := cached "2025-12-31T12:00:00.000Z" (catalog 1).

(** The network is down on 2026-01-01 at 10:00 UTC. *)
Definition outage : Scenario :=
  {| sc_key := None;
     sc_documents := [disk_entry];
     sc_clock := fun _ => 1767261600000;
     sc_net := offline;
     sc_proc := no_process |}.

(** Both caches hold a catalog older than six hours, and not the same one. *)
Definition stale_caches : World :=
  {| w_fs := {[ cache_path := file (stringify 2 0 disk_entry) ]};
     w_mem := memory_entry;
     w_tick := 0;
     w_requests := [];
     w_spawned := [] |}.

(** Every reply is a redirect to the same address. *)
Definition redirect_loop : Scenario :=
  {| sc_key := None;
     sc_documents := [];
     sc_clock := fun _ => 1767261600000;
     sc_net := fun _ u => Response (Some 302) (Some u) (Some []);
     sc_proc := no_process |}.

(** Two redirects, then the body. *)
Definition two_hops : Scenario :=
  {| sc_key := None;
     sc_documents := [];
     sc_clock := fun _ => 1767261600000;
     sc_net := fun n u =>
                 match n with
                 | O => Response (Some 302) (Some (str "https://cdn.example/a")) None
                 | S O => Response (Some 301) (Some (str "https://cdn.example/b")) None
                 | _ => Response (Some 200) None (Some (str "abc"))
                 end;
     sc_proc := no_process |}.

(** One redirect to a relative address, then the body. *)
Definition relative_redirect : Scenario :=
  {| sc_key := None;
     sc_documents := [];
     sc_clock := fun _ => 1767261600000;
     sc_net := fun n u =>
                 match n with
                 | O => Response (Some 302) (Some (str "/other")) None
                 | _ => Response (Some 200) None (Some (str "abc"))
                 end;
     sc_proc := no_process |}.

(** A reply with a 2xx status other than 200, and a body. *)
Definition non_authoritative : Scenario :=
  {| sc_key := None;
     sc_documents := [];
     sc_clock := fun _ => 1767261600000;
     sc_net := fun _ _ => Response (Some 203) None (Some (str "abc"));
     sc_proc := no_process |}.

Definition pem : jsstring := str "-----BEGIN PUBLIC KEY-----".

(** A catalog whose [signature] property is the empty string, one without
    the property, and one with a signature that does not verify. *)
Definition catalog_signed (sig : string) : json :=
  JObj [ (str "version", JNum (inject_Z 1));
         (str "generatedAt", JStr (str "2025-12-01T00:00:00.000Z"));
         (str "tools", JObj []);
         (str "signature", JStr (str sig)) ].

Definition keyed : Scenario :=
  {| sc_key := Some pem;
     sc_documents := [catalog 1; catalog_signed ""; catalog_signed "YmFk";
                      catalog_signed "Z29vZA=="];
     sc_clock := fun _ => 1767261600000;
     sc_net := offline;
     sc_proc := no_process |}.

(** The extraction process exits with code 1 and writes nothing. *)
Definition silent_failure : Scenario :=
  {| sc_key := None;
     sc_documents := [];
     sc_clock := fun _ => 1767261600000;
     sc_net := offline;
     sc_proc := fun _ _ files => Closed (Some 1) [] [] files |}.

Definition track_path : jsstring :=
  str "/home/user/.config/kenku/playlist-media/p1/Song-abc123.m4a".

(** The extraction process prints the title and the path of the file it
    has written. *)
Definition extraction : Scenario :=
  {| sc_key := None;
     sc_documents := [];
     sc_clock := fun _ => 1767261600000;
     sc_net := offline;
     sc_proc := fun _ _ files =>
                  Closed (Some 0)
                    (str "Song" ++ [13%N; 10%N] ++ track_path ++ [10%N]) []
                    (<[ track_path := file (str "audio") ]> files) |}.

(** The catalog is not published; the address of the built-in release
    answers with an empty body. *)
Definition corrupt_download : Scenario :=
  {| sc_key := None;
     sc_documents := [];
     sc_clock := fun _ => 1767261600000;
     sc_net := fun _ u =>
                 if streq u manifest_url then Response (Some 404) None (Some [])
                 else Response (Some 200) None (Some []);
     sc_proc := no_process |}.

Definition linux_release : ToolRelease :=
  mk_release "2026.02.21"
    "https://github.com/yt-dlp/yt-dlp/releases/download/2026.02.21/yt-dlp_linux"
    "057098b1390e8d4931e143eb889e9bbe088f17e40a2936f31ee218909f806f5f"
    "yt-dlp".

Definition binary_path : jsstring :=
  str "/home/user/.config/kenku/optional-tools/bin/yt-dlp".

Definition temp_path : jsstring :=
  str "/home/user/.config/kenku/optional-tools/tmp/yt-dlp-1767261600000.tmp".

Definition manifest_path : jsstring :=
  str "/home/user/.config/kenku/optional-tools/tools.json".

(** The catalog lists a release of yt-dlp whose artifact is the three
    bytes ["abc"]. *)
Definition small_release : ToolRelease :=
  mk_release "1.0.0" "https://example.com/yt-dlp"
    "ba7816bf8f01cfea414140de5dae2223b00361a396177a9cb410ff61f20015ad"
    "yt-dlp".

Definition small_catalog : json :=
  JObj [ (str "version", JNum (inject_Z 1));
         (str "generatedAt", JStr (str "2025-12-01T00:00:00.000Z"));
         (str "tools",
          JObj [ (str "yt-dlp",
                  JObj [ (str "linux-x64",
                          JObj [ (str "version", JStr (rel_version small_release));
                                 (str "url", JStr (rel_url small_release));
                                 (str "sha256", JStr (rel_sha256 small_release));
                                 (str "binaryName", JStr (str "yt-dlp")) ]) ]) ]) ].

Definition installed_record (lastVerifiedAt : string) : list (jsstring * json) :=
  [ (str "version", JStr (rel_version small_release));
    (str "sha256", JStr (rel_sha256 small_release));
    (str "binaryPath", JStr binary_path);
    (str "sourceUrl", JStr (rel_url small_release));
    (str "installedAt", JStr (str "2026-01-01T10:00:00.000Z"));
    (str "lastVerifiedAt", JStr (str lastVerifiedAt)) ].

Definition installed_manifest : json :=
  JObj [ (str "tools",
          JObj [ (str "yt-dlp", JObj (installed_record "2026-01-01T10:00:00.000Z")) ]) ].

(** The catalog and the artifact are served; the clock reads 10:00 at the
    first call and 11:00 from the sixth reading on. *)
Definition install : Scenario :=
  {| sc_key := None;
     sc_documents := [small_catalog; installed_manifest];
     sc_clock := fun n => if (n <? 5)%nat then 1767261600000 else 1767265200000;
     sc_net := fun _ u =>
                 if streq u manifest_url
                 then Response (Some 200) None (Some (stringify 0 0 small_catalog))
                 else if streq u (rel_url small_release)
                 then Response (Some 200) None (Some (str "abc"))
                 else Response (Some 404) None (Some []);
     sc_proc := no_process |}.

(** The world the first call of the scenario [install] leaves. *)
Definition installed : World :=
  {| w_fs :=
       <[ manifest_path := file (stringify 2 0 installed_manifest) ]>
         (<[ binary_path := {| f_data := str "abc"; f_mode := 493 |} ]>
            (<[ cache_path :=
                  file (stringify 2 0 (cached "2026-01-01T10:00:00.000Z" small_catalog)) ]>
               ∅));
     w_mem := cached "2026-01-01T10:00:00.000Z" small_catalog;
     w_tick := 5;
     w_requests := [rel_url small_release; manifest_url];
     w_spawned := [] |}.

Definition event (id stage_name text : string) (value : option Z)
  : jsstring * TrackSourceProgress :=
  (str id, {| stage := str stage_name; message := str text;
              progress := option_map (fun n => Finite (inject_Z n)) value |}).

(** The world a lookup of the catalog at 10:00 leaves, starting from
    [start]: one request, two clock readings, the catalog in both caches. *)
Definition looked_up (manifest : json) : World :=
  {| w_fs := {[ cache_path :=
                  file (stringify 2 0 (cached "2026-01-01T10:00:00.000Z" manifest)) ]};
     w_mem := cached "2026-01-01T10:00:00.000Z" manifest;
     w_tick := 2;
     w_requests := [manifest_url];
     w_spawned := [] |}.

(** The release of [small_catalog] with a signature that does not verify
    and a key, and the catalog that lists it. *)
Definition forged_release : ToolRelease :=
  {| rel_version := rel_version small_release;
     rel_url := rel_url small_release;
     rel_sha256 := rel_sha256 small_release;
     rel_binaryName := str "yt-dlp";
     rel_signature := Some (JStr (str "YmFk"));
     rel_publicKeyPem := Some (JStr pem) |}.

Definition forged_catalog : json :=
  JObj [ (str "version", JNum (inject_Z 1));
         (str "generatedAt", JStr (str "2025-12-01T00:00:00.000Z"));
         (str "tools",
          JObj [ (str "yt-dlp",
                  JObj [ (str "linux-x64",
                          JObj [ (str "version", JStr (rel_version small_release));
                                 (str "url", JStr (rel_url small_release));
                                 (str "sha256", JStr (rel_sha256 small_release));
                                 (str "binaryName", JStr (str "yt-dlp"));
                                 (str "signature", JStr (str "YmFk"));
                                 (str "publicKeyPem", JStr pem) ]) ]) ]) ].

Definition forged : Scenario :=
  {| sc_key := None;
     sc_documents := [forged_catalog];
     sc_clock := fun _ => 1767261600000;
     sc_net := fun _ u =>
                 if streq u manifest_url
                 then Response (Some 200) None (Some (stringify 0 0 forged_catalog))
                 else if streq u (rel_url small_release)
                 then Response (Some 200) None (Some (str "abc"))
                 else Response (Some 404) None (Some []);
     sc_proc := no_process |}.

(** The scenario [install] with the extraction process of [extraction]. *)
Definition import_track : Scenario :=
  {| sc_key := None;
     sc_documents := sc_documents install;
     sc_clock := sc_clock install;
     sc_net := sc_net install;
     sc_proc := sc_proc extraction |}.

(** The catalog lists the release under the binary name [".."]. *)
Definition parent_release : ToolRelease :=
  {| rel_version := rel_version small_release;
     rel_url := rel_url small_release;
     rel_sha256 := rel_sha256 small_release;
     rel_binaryName := str "..";
     rel_signature := None;
     rel_publicKeyPem := None |}.

Definition parent_catalog : json :=
  JObj [ (str "version", JNum (inject_Z 1));
         (str "generatedAt", JStr (str "2025-12-01T00:00:00.000Z"));
         (str "tools",
          JObj [ (str "yt-dlp",
                  JObj [ (str "linux-x64",
                          JObj [ (str "version", JStr (rel_version small_release));
                                 (str "url", JStr (rel_url small_release));
                                 (str "sha256", JStr (rel_sha256 small_release));
                                 (str "binaryName", JStr (str "..")) ]) ]) ]) ].

Definition parent_name : Scenario :=
  {| sc_key := None;
     sc_documents := [parent_catalog];
     sc_clock := fun _ => 1767261600000;
     sc_net := fun _ u =>
                 if streq u manifest_url
                 then Response (Some 200) None (Some (stringify 0 0 parent_catalog))
                 else if streq u (rel_url small_release)
                 then Response (Some 200) None (Some (str "abc"))
                 else Response (Some 404) None (Some []);
     sc_proc := no_process |}.

(** A manifest file whose tool table is an array, and the scenario
    [install] reading it. *)
Definition array_manifest : json := JObj [ (str "tools", JArr []) ].

Definition array_table : Scenario :=
  {| sc_key := None;
     sc_documents := [small_catalog; array_manifest];
     sc_clock := sc_clock install;
     sc_net := sc_net install;
     sc_proc := no_process |}.

Definition array_start : World :=
  set_fs {[ manifest_path := file (stringify 2 0 array_manifest) ]} start.

(** The extraction process prints an empty title line, then the path of
    the file it has written. *)
Definition blank_title : Scenario :=
  {| sc_key := None;
     sc_documents := [];
     sc_clock := fun _ => 1767261600000;
     sc_net := offline;
     sc_proc := fun _ _ files =>
                  Closed (Some 0) ([10%N] ++ track_path ++ [10%N]) []
                    (<[ track_path := file (str "audio") ]> files) |}.

(** The world [installed] after the binary has been overwritten. *)
Definition tampered : World :=
  set_fs (<[ binary_path := file (str "tampered") ]> (w_fs installed)) installed.

End Sample.

(** ** Vocabulary of the specification *)

(** A string that does not start with white space. *)
Definition clean (s : jsstring) : Prop :=
  match s with
  | [] => True
  | c :: _ => is_white c = false
  end.

(** A known video-hosting domain: an exact match or a subdomain. *)
Definition youtube_host (host : jsstring) : Prop :=
  host = str "youtube.com" \/ host = str "www.youtube.com"
  \/ host = str "m.youtube.com" \/ host = str "youtu.be"
  \/ exists sub, host = sub ++ str ".youtube.com".

Section Vocabulary.
Context {P : Platform}.

(** The trimmed source parses as an absolute URL whose lowercased host
    name is a video-hosting domain. *)
Definition needs_extraction (source : jsstring) : Prop :=
  exists hostname,
    URL_hostname (trim source) = Some hostname
    /\ youtube_host (toLowerCase hostname).

Definition direct_source (source : jsstring) : ResolvedTrackSource :=
  {| sourceType := direct; url := trim source; title := None; localPath := None |}.

(** What [readRemoteManifestDiskCache] and [readManifest] read in a world. *)
Definition disk_cache (w : World) : json :=
  match readRemoteManifestDiskCache w with
  | (Ok c, _) => c
  | (Throw _, _) => JNull
  end.

Definition local_manifest (w : World) : ToolManifest :=
  match readManifest w with
  | (Ok m, _) => m
  | (Throw _, _) => empty_manifest
  end.

(** The two cache tests of [getRemoteManifest], at the clock reading the
    method takes first. *)
Definition memory_fresh (w : World) : bool :=
  truthy (w_mem w)
  && is_fresh (clock (w_tick w)) (get (w_mem w) (str "fetchedAt")).

Definition disk_fresh (w : World) : bool :=
  truthy (disk_cache w)
  && is_fresh (clock (w_tick w)) (get (disk_cache w) (str "fetchedAt")).

(** Both caches are missing or too old: the method goes to the network. *)
Definition must_fetch (w : World) : Prop :=
  memory_fresh w = false /\ disk_fresh w = false.

(** The network fetch of the catalog with its parse, its structural
    validation and its signature check: the first two statements of the
    [try] block. *)
Definition fetchRemoteManifest : M json :=
  response <- httpGetBuffer getRemoteManifestURL 0 ;;
  lift (parseAndValidateRemoteManifest response).

(** What a failed fetch falls back to. *)
Definition fallback_manifest (diskCache : json) : jsval :=
  if truthy diskCache then get diskCache (str "manifest") else Some JNull.

Definition too_many_redirects : error :=
  Error (str "Too many redirects while downloading tool").

(** [follows k u w u' w']: starting with a call of [https.get] on [u] in
    [w], [k] times in a row [https.get] takes the URL and the network
    answers with a 3xx status and a [Location] header; the last one names
    [u'], and [w'] is [w] with the [k] calls recorded. *)
Inductive follows : nat -> jsstring -> World -> jsstring -> World -> Prop :=
| follows_none u w : follows 0 u w u w
| follows_hop k u w statusCode location body target u' w' :
    https_get_accepts u = true ->
    net (length (w_requests w)) u = Response statusCode location body ->
    is_redirect statusCode location = Some target ->
    follows k target (log_request u w) u' w' ->
    follows (S k) u w u' w'.

(** What a reply that is not followed gives. *)
Definition terminal_result (reply : HttpReply) : result Buffer :=
  match reply with
  | RequestFailed => Throw NetworkError
  | Response statusCode _ body =>
      if is_200 statusCode
      then match body with
           | Some chunks => Ok chunks
           | None => Throw NetworkError
           end
      else Throw (Error (str "Failed to download tool: " ++ status_text statusCode))
  end.

Definition is_terminal (reply : HttpReply) : Prop :=
  match reply with
  | RequestFailed => True
  | Response statusCode location _ => is_redirect statusCode location = None
  end.

(** The file at the path is there and hashes to the hash of the release. *)
Definition intact (release : ToolRelease) (binaryPath : jsstring) (w : World) : bool :=
  match w_fs w !! binaryPath with
  | Some f => streq (sha256_hex (f_data f)) (rel_sha256 release)
  | None => false
  end.

(** The test that sends [ensureToolInstalled] to its Verified state. *)
Definition verified_install (tool : ToolName) (release : ToolRelease)
  (binaryPath : jsstring) (w : World) : bool :=
  recordMatches tool release binaryPath (local_manifest w)
  && intact release binaryPath w.

(** The JSON text written for [v] with an indentation of 2 parses back
    to [v]. *)
Definition reads_back (v : json) : Prop :=
  JSON_parse (utf8_decode (utf8_encode (JSON_stringify (Some 2%nat) v))) = Some v.

(** The record a successful call of [ensureToolInstalled] writes for the
    tool, in a world [w] where the release has just been resolved: the
    record read with [lastVerifiedAt] refreshed when the install is
    verified, a new record after a download. *)
Definition recorded_entry (tool : ToolName) (release : ToolRelease)
  (binaryPath : jsstring) (w : World) : list (jsstring * json) :=
  if verified_install tool release binaryPath w
  then assoc_set (str "lastVerifiedAt")
         (JStr (Date_toISOString (clock (w_tick w))))
         (spread (get (tools (local_manifest w)) (tool_name tool)))
  else [ (str "version", JStr (rel_version release));
         (str "sha256", JStr (rel_sha256 release));
         (str "binaryPath", JStr binaryPath);
         (str "sourceUrl", JStr (rel_url release));
         (str "installedAt", JStr (Date_toISOString (clock (S (w_tick w)))));
         (str "lastVerifiedAt", JStr (Date_toISOString (clock (S (S (w_tick w)))))) ].

Definition recorded_manifest (tool : ToolName) (release : ToolRelease)
  (binaryPath : jsstring) (w : World) (tprops : list (jsstring * json)) : json :=
  JObj [ (str "tools",
          JObj (assoc_set (tool_name tool)
                  (JObj (recorded_entry tool release binaryPath w)) tprops)) ].

Definition checksum_mismatch (tool : ToolName) : error :=
  Error (str "Checksum mismatch while installing " ++ tool_name tool).

(** The catalog has a numeric version and an object-shaped tool table. *)
Definition well_shaped (parsed : json) : bool :=
  truthy parsed && is_object (Some parsed)
  && is_number (get parsed (str "version"))
  && truthyv (get parsed (str "tools")) && is_object (get parsed (str "tools")).

(** The signature decodes and verifies over the payload with the key. *)
Definition verifies (signature key : json) (payload : Buffer) : Prop :=
  exists sig, Buffer_from_base64 signature = Some sig
              /\ crypto_verify payload key sig = Some true.

(** The errors that come out of the signature check. *)
Definition signature_rejection (e : error) : Prop :=
  e = TypeError \/ e = CryptoError
  \/ e = Error (str "Tools manifest signature verification failed").

(** The catalog is refused because of its signature. *)
Definition rejected_for_signature (buffer : Buffer) : Prop :=
  exists e, parseAndValidateRemoteManifest buffer = Throw e /\ signature_rejection e.

End Vocabulary.

(** An event carries a number other than NaN, or carries none and
    belongs to the download stage. *)
Definition keeps_mark (ev : TrackSourceProgress) : Prop :=
  match progress ev with
  | Some n => n <> NaN
  | None => stage ev = str "download-audio"
  end.

(** [a <= b] on two numbers, neither of them NaN. *)
Definition num_le (a b : jsnumber) : Prop :=
  a <> NaN /\ b <> NaN /\ num_lt b a = false.

(** The numbers of the events delivered for a request. *)
Definition numbers_for (id : jsstring) (events : list (jsstring * TrackSourceProgress))
  : list jsnumber :=
  omap (fun ev => if streq (fst ev) id then progress (snd ev) else None) events.

(** [v] is the greatest of [p] and the numbers [qs]. *)
Definition greatest (v p : jsnumber) (qs : list jsnumber) : Prop :=
  (v = p \/ v ∈ qs) /\ num_le p v /\ (forall q, q ∈ qs -> num_le q v).

(** ** Vocabulary of the further properties *)

(** A computation leaves a component [f] of the world as it found it,
    whatever it returns. *)
Definition keeps {A X : Type} (f : World -> X) (m : M A) : Prop :=
  forall w, f (snd (m w)) = f w.

(** A component of the world that does not depend on the files, on the
    memory cache, on the clock, on the requests sent, on the processes
    spawned. *)
Definition fs_blind {X : Type} (f : World -> X) : Prop :=
  forall fs w, f (set_fs fs w) = f w.

Definition mem_blind {X : Type} (f : World -> X) : Prop :=
  forall c w, f (set_mem c w) = f w.

Definition tick_blind {X : Type} (f : World -> X) : Prop :=
  forall w, f (tick w) = f w.

Definition request_blind {X : Type} (f : World -> X) : Prop :=
  forall u w, f (log_request u w) = f w.

Definition spawn_blind {X : Type} (f : World -> X) : Prop :=
  forall b args w, f (log_spawn b args w) = f w.

(** A character that is neither a line feed nor a carriage return. *)
Definition no_line_end (s : jsstring) : Prop :=
  forall c, c ∈ s -> c <> 10%N /\ c <> 13%N.

(** A line as the extraction process prints it: not blank, without white
    space at its ends, without a line end inside. *)
Definition printed_line (s : jsstring) : Prop :=
  s <> [] /\ trim s = s /\ no_line_end s.



Section FurtherVocabulary.
Context {P : Platform}.

(** The bytes the signature of a release is over:
    ["<tool>@<version>:<hash>"]. *)
Definition release_payload (tool : ToolName) (release : ToolRelease) : Buffer :=
  utf8_encode (tool_name tool ++ str "@" ++ rel_version release ++ str ":"
               ++ rel_sha256 release).

(** The release carries a signature and a key, both truthy. *)
Definition is_signed (release : ToolRelease) (signature key : json) : Prop :=
  rel_signature release = Some signature /\ rel_publicKeyPem release = Some key
  /\ truthy signature = true /\ truthy key = true.

(** The errors that come out of the signature check of a release. *)
Definition release_signature_error (tool : ToolName) (e : error) : Prop :=
  e = TypeError \/ e = CryptoError
  \/ e = Error (str "Signature verification failed for " ++ tool_name tool).

End FurtherVocabulary.

(** ** Properties *)

Section Strings.

Lemma trimStart_clean (s : jsstring) : clean (trimStart s).
Proof.
  induction s as [|c s IH]; simpl; [exact I|].
  destruct (is_white c) eqn:Hc; [exact IH|exact Hc].
Qed.

Lemma clean_trimStart (s : jsstring) : clean s -> trimStart s = s.
Proof.
  destruct s as [|c s]; simpl; [reflexivity|].
  intros ->. reflexivity.
Qed.

Lemma trimStart_snoc (l : jsstring) (c : N) :
  is_white c = false -> trimStart (l ++ [c]) = trimStart l ++ [c].
Proof.
  intros Hc. induction l as [|d l IH]; simpl.
  - rewrite Hc. reflexivity.
  - destruct (is_white d); [exact IH|reflexivity].
Qed.

Lemma trimEnd_cons (c : N) (t : jsstring) :
  is_white c = false -> trimEnd (c :: t) = c :: trimEnd t.
Proof.
  intros Hc. unfold trimEnd. simpl rev.
  rewrite trimStart_snoc by exact Hc.
  rewrite rev_app_distr. reflexivity.
Qed.

Lemma trimEnd_clean (t : jsstring) : clean t -> clean (trimEnd t).
Proof.
  destruct t as [|c t]; simpl; [intros _; exact I|].
  intros Hc. rewrite trimEnd_cons by exact Hc. exact Hc.
Qed.

Lemma trimEnd_idempotent (t : jsstring) : trimEnd (trimEnd t) = trimEnd t.
Proof.
  unfold trimEnd. rewrite rev_involutive.
  rewrite (clean_trimStart (trimStart (rev t))) by apply trimStart_clean.
  reflexivity.
Qed.

Lemma trim_idempotent (s : jsstring) : trim (trim s) = trim s.
Proof.
  unfold trim.
  rewrite (clean_trimStart (trimEnd (trimStart s))).
  - apply trimEnd_idempotent.
  - apply trimEnd_clean, trimStart_clean.
Qed.

Lemma streq_true (a b : jsstring) : streq a b = true <-> a = b.
Proof. unfold streq. apply bool_decide_eq_true. Qed.

Lemma streq_refl (a : jsstring) : streq a a = true.
Proof. apply streq_true. reflexivity. Qed.

Lemma streq_false (a b : jsstring) : streq a b = false <-> a <> b.
Proof. unfold streq. apply bool_decide_eq_false. Qed.

End Strings.

Section Classification.
Context {P : Platform}.

Lemma isYoutubeURL_spec (source : jsstring) :
  isYoutubeURL (trim source) = true <-> needs_extraction source.
Proof.
  unfold isYoutubeURL, needs_extraction. rewrite trim_idempotent.
  destruct (URL_hostname (trim source)) as [hostname|].
  - rewrite !orb_true_iff, !streq_true. unfold endsWith.
    rewrite bool_decide_eq_true. unfold youtube_host, suffix.
    split.
    + intros H. exists hostname. split; [reflexivity|]. tauto.
    + intros (h & Hh & H). injection Hh as <-. tauto.
  - split; [discriminate|]. intros (h & Hh & _). discriminate.
Qed.

End Classification.

Section RemoteCatalog.
Context {P : Platform}.

Lemma readRemoteManifestDiskCache_run (w : World) :
  readRemoteManifestDiskCache w = (Ok (disk_cache w), w).
Proof.
  unfold disk_cache, readRemoteManifestDiskCache, bind, try_catch, exists_,
    fs_readFile, ret, throw.
  destruct (bool_decide (is_Some (w_fs w !! remoteManifestCachePath))); simpl;
    [|reflexivity].
  destruct (w_fs w !! remoteManifestCachePath) as [f|]; [|reflexivity].
  destruct (JSON_parse (utf8_decode (f_data f))) as [parsed|]; [|reflexivity].
  destruct (negb (truthyv (get parsed (str "manifest")))
            || negb (truthyv (get parsed (str "fetchedAt")))); reflexivity.
Qed.

Lemma disk_cache_fs (w w' : World) : w_fs w' = w_fs w -> disk_cache w' = disk_cache w.
Proof.
  intros H. unfold disk_cache, readRemoteManifestDiskCache, bind, try_catch,
    exists_, fs_readFile, ret, throw. rewrite H.
  destruct (bool_decide (is_Some (w_fs w !! remoteManifestCachePath))); simpl;
    [|reflexivity].
  rewrite H.
  destruct (w_fs w !! remoteManifestCachePath) as [f|]; [|reflexivity].
  destruct (JSON_parse (utf8_decode (f_data f))) as [parsed|]; [|reflexivity].
  destruct (negb (truthyv (get parsed (str "manifest")))
            || negb (truthyv (get parsed (str "fetchedAt")))); reflexivity.
Qed.

(** A request changes nothing but the record of the requests. *)
Lemma httpGetBuffer_hops_frame (hops : nat) :
  forall (target : jsstring) (redirectCount : nat) (w : World),
    let w' := snd (httpGetBuffer_hops hops target redirectCount w) in
    w_fs w' = w_fs w /\ w_mem w' = w_mem w /\ w_tick w' = w_tick w
    /\ w_spawned w' = w_spawned w.
Proof.
  induction hops as [|hops IH]; intros target redirectCount w; simpl;
    destruct (5 <? redirectCount)%nat; simpl; try tauto;
    destruct (https_get_accepts target); simpl; try tauto;
    destruct (net (length (w_requests w)) target) as [|sc loc body]; simpl;
    try tauto;
    destruct (is_redirect sc loc) as [next|]; simpl; try tauto;
    try (destruct (negb (is_200 sc)); simpl; [tauto|];
         destruct body; simpl; tauto).
  specialize (IH next (S redirectCount) (log_request target w)).
  simpl in IH. exact IH.
Qed.

Lemma httpGetBuffer_frame (target : jsstring) (redirectCount : nat) (w : World) :
  let w' := snd (httpGetBuffer target redirectCount w) in
  w_fs w' = w_fs w /\ w_mem w' = w_mem w /\ w_tick w' = w_tick w
  /\ w_spawned w' = w_spawned w.
Proof. apply httpGetBuffer_hops_frame. Qed.

Lemma fetchRemoteManifest_frame (w : World) :
  let w' := snd (fetchRemoteManifest w) in
  w_fs w' = w_fs w /\ w_mem w' = w_mem w.
Proof.
  unfold fetchRemoteManifest, bind, lift.
  pose proof (httpGetBuffer_frame getRemoteManifestURL 0 w) as H.
  destruct (httpGetBuffer getRemoteManifestURL 0 w) as [[response|e] w1];
    simpl in *; tauto.
Qed.

(** The [try] block is the fetch followed by the refresh of both caches. *)
Lemma refreshRemoteManifest_fetch (w : World) :
  refreshRemoteManifest w =
  match fetchRemoteManifest w with
  | (Ok manifest, w1) =>
      (fetchedAt <- now_iso ;;
       let cache := JObj [ (str "fetchedAt", JStr fetchedAt);
                           (str "manifest", manifest) ] in
       put_mem cache ;;
       writeRemoteManifestDiskCache cache ;;
       ret (Some manifest)) w1
  | (Throw e, w1) => (Throw e, w1)
  end.
Proof.
  unfold refreshRemoteManifest, fetchRemoteManifest, bind, lift.
  destruct (httpGetBuffer getRemoteManifestURL 0 w) as [[response|e] w1];
    [|reflexivity].
  destruct (parseAndValidateRemoteManifest response); reflexivity.
Qed.

(** [getRemoteManifest], step by step. *)
Lemma getRemoteManifest_run (w : World) :
  getRemoteManifest w =
  if memory_fresh w then (Ok (get (w_mem w) (str "manifest")), tick w)
  else if disk_fresh w
  then (Ok (get (disk_cache w) (str "manifest")), set_mem (disk_cache w) (tick w))
  else
    match refreshRemoteManifest (tick w) with
    | (Ok manifest, w2) => (Ok manifest, w2)
    | (Throw _, w2) =>
        (Ok (fallback_manifest (disk_cache w)),
         if truthy (disk_cache w) then set_mem (disk_cache w) w2 else w2)
    end.
Proof.
  unfold getRemoteManifest, memory_fresh, disk_fresh, fallback_manifest.
  unfold bind at 1. unfold Date_now at 1. unfold bind at 1. unfold get_mem at 1.
  change (w_mem (tick w)) with (w_mem w).
  destruct (truthy (w_mem w) && is_fresh (clock (w_tick w)) (get (w_mem w) (str "fetchedAt")));
    [reflexivity|].
  unfold bind at 1. rewrite readRemoteManifestDiskCache_run.
  rewrite (disk_cache_fs w (tick w)) by reflexivity.
  destruct (truthy (disk_cache w)
            && is_fresh (clock (w_tick w)) (get (disk_cache w) (str "fetchedAt")));
    [reflexivity|].
  unfold try_catch.
  destruct (refreshRemoteManifest (tick w)) as [[manifest|e] w2]; [reflexivity|].
  destruct (truthy (disk_cache w)); reflexivity.
Qed.

Lemma getRemoteManifest_total (w : World) :
  exists manifest w', getRemoteManifest w = (Ok manifest, w').
Proof.
  rewrite getRemoteManifest_run.
  destruct (memory_fresh w); [eauto|].
  destruct (disk_fresh w); [eauto|].
  destruct (refreshRemoteManifest (tick w)) as [[manifest|e] w2]; eauto.
Qed.

Lemma getRelease_run (tool : ToolName) (w : World) (manifest : jsval) (w' : World) :
  getRemoteManifest w = (Ok manifest, w') ->
  getRelease tool w =
  match toValidToolRelease (remote_entry manifest tool) with
  | Some remoteRelease => (Ok remoteRelease, w')
  | None =>
      match lookup_release getPlatformKey (BUILTIN_TOOL_RELEASES tool) with
      | Some release => (Ok release, w')
      | None => (Throw (unsupported_platform tool), w')
      end
  end.
Proof.
  intros H. unfold getRelease, bind. rewrite H.
  destruct (toValidToolRelease (remote_entry manifest tool)); [reflexivity|].
  destruct (lookup_release getPlatformKey (BUILTIN_TOOL_RELEASES tool)); reflexivity.
Qed.

End RemoteCatalog.

Section CatalogFailures.
Context {P : Platform}.


Lemma failed_fetch_run (w : World) (e : error) (w2 : World) :
  must_fetch w ->
  fetchRemoteManifest (tick w) = (Throw e, w2) ->
  getRemoteManifest w =
  (Ok (fallback_manifest (disk_cache w)),
   if truthy (disk_cache w) then set_mem (disk_cache w) w2 else w2).
Proof.
  intros [Hm Hd] Hfetch. rewrite getRemoteManifest_run, Hm, Hd.
  rewrite refreshRemoteManifest_fetch, Hfetch. reflexivity.
Qed.

(** C3, as the code has it.  When the network fetch, the JSON parse, the
    structural validation or the signature check of the catalog fails, the
    files are left exactly as they were, the cache file among them; the
    in-memory cache field is set to the catalog cached on disk when there
    is one, and is left as it was when there is none. *)
Theorem C3_failed_fetch_keeps_disk_cache (w : World) (e : error) (w2 : World) :
  must_fetch w ->
  fetchRemoteManifest (tick w) = (Throw e, w2) ->
  let w' := snd (getRemoteManifest w) in
  w_fs w' = w_fs w
  /\ w_mem w' = (if truthy (disk_cache w) then disk_cache w else w_mem w).
Proof.
  intros Hmust Hfetch. rewrite (failed_fetch_run w e w2 Hmust Hfetch).
  pose proof (fetchRemoteManifest_frame (tick w)) as Hframe.
  rewrite Hfetch in Hframe. simpl in Hframe. destruct Hframe as [Hfs Hmem].
  destruct (truthy (disk_cache w)); simpl; auto.
Qed.


Lemma toValidToolRelease_undefined : toValidToolRelease None = None.
Proof. reflexivity. Qed.

Lemma remote_entry_null (tool : ToolName) : remote_entry (Some JNull) tool = None.
Proof. reflexivity. Qed.

(** C10.  The built-in table has no release of ffmpeg for any platform
    key.  So when the remote catalog is unavailable, has no ffmpeg entry
    for the platform key, or has one that is not a valid release,
    [getRelease] fails for ffmpeg with the unsupported-platform error, and
    so does [ensureToolInstalled]. *)
Theorem C10_ffmpeg_unsupported_without_catalog
  (w : World) (manifest : jsval) (w' : World) :
  getRemoteManifest w = (Ok manifest, w') ->
  manifest = Some JNull
  \/ remote_entry manifest Ffmpeg = None
  \/ toValidToolRelease (remote_entry manifest Ffmpeg) = None ->
  (forall key, lookup_release key (BUILTIN_TOOL_RELEASES Ffmpeg) = None)
  /\ getRelease Ffmpeg w = (Throw (unsupported_platform Ffmpeg), w')
  /\ ensureToolInstalled Ffmpeg w = (Throw (unsupported_platform Ffmpeg), w').
Proof.
  intros Hm Hcase.
  assert (toValidToolRelease (remote_entry manifest Ffmpeg) = None) as Hnone.
  { destruct Hcase as [-> | [-> | H]]; [reflexivity | reflexivity | exact H]. }
  assert (getRelease Ffmpeg w = (Throw (unsupported_platform Ffmpeg), w')) as Hrel.
  { rewrite (getRelease_run Ffmpeg w manifest w' Hm), Hnone. reflexivity. }
  split; [reflexivity|]. split; [exact Hrel|].
  unfold ensureToolInstalled, bind. rewrite Hrel. reflexivity.
Qed.

End CatalogFailures.

(** The memory cache held one stale catalog and the disk another: after
    the failed fetch the memory cache holds the one of the disk.  The same
    happens to a memory cache that held nothing, as after a start of the
    application. *)
Lemma C3_counterexample :
  let P := Sample.platform Sample.outage in
  let w := Sample.stale_caches in
  let w' := snd (getRemoteManifest w) in
  let fresh_start := set_mem JNull w in
  (must_fetch w
   /\ fst (fetchRemoteManifest (tick w)) = Throw NetworkError
   /\ w_fs w' = w_fs w
   /\ w_mem w = Sample.memory_entry
   /\ w_mem w' = Sample.disk_entry
   /\ w_mem w' <> w_mem w)
  /\ (must_fetch fresh_start
      /\ fst (fetchRemoteManifest (tick fresh_start)) = Throw NetworkError
      /\ w_mem fresh_start = JNull
      /\ w_mem (snd (getRemoteManifest fresh_start)) = Sample.disk_entry).
Proof.
  repeat split; try vm_refl.
  vm_compute. discriminate.
Qed.

Lemma C3_witness :
  let P := Sample.platform Sample.outage in
  let w := Sample.stale_caches in
  w_fs (snd (getRemoteManifest w)) = w_fs w
  /\ w_mem (snd (getRemoteManifest w)) = Sample.disk_entry.
Proof.
  intros P w.
  assert (must_fetch w) as Hmust by (split; vm_refl).
  assert (fetchRemoteManifest (tick w)
          = (Throw NetworkError, log_request Sample.manifest_url (tick w)))
    as Hfetch by vm_refl.
  pose proof (C3_failed_fetch_keeps_disk_cache w NetworkError _ Hmust Hfetch) as H.
  vm_exact H.
Defined.


Lemma C10_witness :
  let P := Sample.platform Sample.outage in
  ensureToolInstalled Ffmpeg Sample.start
  = (Throw (Error (str "Unsupported platform for ffmpeg: linux-x64")),
     log_request Sample.manifest_url (tick Sample.start)).
Proof.
  intros P.
  refine (proj2 (proj2 (C10_ffmpeg_unsupported_without_catalog
                          Sample.start (Some JNull) _ _ _))).
  - vm_refl.
  - left. reflexivity.
Defined.

Section Fetch.
Context {P : Platform}.

(** The method as the source writes it: the recursion on [redirectCount]. *)
Lemma httpGetBuffer_unfold (u : jsstring) (redirectCount : nat) (w : World) :
  httpGetBuffer u redirectCount w =
  if (5 <? redirectCount)%nat then (Throw too_many_redirects, w)
  else if negb (https_get_accepts u) then (Throw TypeError, log_request u w)
  else
    match net (length (w_requests w)) u with
    | Response statusCode location body =>
        match is_redirect statusCode location with
        | Some target => httpGetBuffer target (S redirectCount) (log_request u w)
        | None =>
            (terminal_result (Response statusCode location body), log_request u w)
        end
    | RequestFailed => (Throw NetworkError, log_request u w)
    end.
Proof.
  unfold httpGetBuffer.
  destruct (5 <? redirectCount)%nat eqn:E.
  - destruct (6 - redirectCount)%nat; simpl; rewrite E; reflexivity.
  - apply Nat.ltb_ge in E.
    replace (6 - redirectCount)%nat with (S (6 - S redirectCount)) by lia.
    simpl. rewrite (proj2 (Nat.ltb_ge 5 redirectCount) E).
    destruct (https_get_accepts u); [|reflexivity]. simpl.
    destruct (net (length (w_requests w)) u) as [|sc loc body]; [reflexivity|].
    destruct (is_redirect sc loc); [reflexivity|].
    destruct (is_200 sc); simpl; [destruct body|]; reflexivity.
Qed.

Lemma is_redirect_spec (statusCode : option Z) (location : option jsstring)
  (target : jsstring) :
  is_redirect statusCode location = Some target <->
  exists c, statusCode = Some c /\ 300 <= c < 400
            /\ location = Some target /\ target <> [].
Proof.
  unfold is_redirect. split.
  - destruct statusCode as [c|]; [|discriminate].
    destruct location as [l|]; [|discriminate].
    destruct (negb (c =? 0) && (300 <=? c) && (c <? 400) && nonempty l) eqn:E;
      [|discriminate].
    intros [= <-]. apply andb_prop in E as [E Hl].
    apply andb_prop in E as [E H4]. apply andb_prop in E as [_ H3].
    exists c. repeat split; try lia. destruct l; [discriminate|discriminate].
  - intros (c & -> & Hc & -> & Ht).
    replace (negb (c =? 0)) with true by (symmetry; apply negb_true_iff; lia).
    replace (300 <=? c) with true by lia.
    replace (c <? 400) with true by lia.
    destruct target; [contradiction|reflexivity].
Qed.

Lemma follows_run (k : nat) (u : jsstring) (w : World) (u' : jsstring) (w' : World) :
  follows k u w u' w' ->
  forall redirectCount, (redirectCount + k <= 6)%nat ->
    httpGetBuffer u redirectCount w = httpGetBuffer u' (redirectCount + k) w'.
Proof.
  induction 1 as [u w | k u w sc loc body target u' w' Htakes Hnet Hred _ IH];
    intros redirectCount Hk.
  - rewrite Nat.add_0_r. reflexivity.
  - rewrite httpGetBuffer_unfold.
    replace (5 <? redirectCount)%nat with false by (symmetry; apply Nat.ltb_ge; lia).
    rewrite Htakes, Hnet, Hred. simpl.
    rewrite (IH (S redirectCount)) by lia.
    f_equal. lia.
Qed.

(** C7, as the code has it.  After [k] redirects followed from the first
    call (each a URL that [https.get] takes, answered by a 3xx reply with a
    [Location] header): when [k] is at most 5 and [https.get] takes the last
    URL, a transport error fails the call, a reply whose status is not 200
    fails it with that status, and a reply with status 200 gives the whole
    body; when [k] is at most 5 and [https.get] does not take the last URL,
    the initial one or a [Location], the call fails with the [TypeError] of
    [https.get]; when [k] is 6 the call fails with the too-many-redirects
    error, whatever the sixth target is. *)
Theorem C7_httpGetBuffer_follows_five_redirects
  (k : nat) (u : jsstring) (w : World) (u' : jsstring) (w' : World) :
  follows k u w u' w' ->
  ((k <= 5)%nat ->
   https_get_accepts u' = true ->
   is_terminal (net (length (w_requests w')) u') ->
   httpGetBuffer u 0 w
   = (terminal_result (net (length (w_requests w')) u'), log_request u' w'))
  /\ ((k <= 5)%nat ->
      https_get_accepts u' = false ->
      httpGetBuffer u 0 w = (Throw TypeError, log_request u' w'))
  /\ (k = 6%nat -> httpGetBuffer u 0 w = (Throw too_many_redirects, w')).
Proof.
  intros Hf. split; [|split].
  - intros Hk Htakes Hterm. rewrite (follows_run k u w u' w' Hf 0%nat) by lia.
    rewrite httpGetBuffer_unfold. simpl Nat.add.
    replace (5 <? k)%nat with false by (symmetry; apply Nat.ltb_ge; lia).
    rewrite Htakes. simpl.
    destruct (net (length (w_requests w')) u') as [|sc loc body]; [reflexivity|].
    simpl in Hterm. rewrite Hterm. reflexivity.
  - intros Hk Hrefuses. rewrite (follows_run k u w u' w' Hf 0%nat) by lia.
    rewrite httpGetBuffer_unfold. simpl Nat.add.
    replace (5 <? k)%nat with false by (symmetry; apply Nat.ltb_ge; lia).
    rewrite Hrefuses. reflexivity.
  - intros ->. rewrite (follows_run 6 u w u' w' Hf 0%nat) by lia.
    rewrite httpGetBuffer_unfold. reflexivity.
Qed.

End Fetch.

(** A reply with status 203 and a body fails the call.  A reply with
    status 302 and the [Location] ["/other"] is not followed: [https.get]
    does not take a relative URL, and the call fails with its [TypeError]
    although the next reply would carry the body. *)
Lemma C7_counterexample :
  (let P := Sample.platform Sample.non_authoritative in
   net 0 (str "https://example.com/tool") = Response (Some 203) None (Some (str "abc"))
   /\ 200 <= 203 < 300
   /\ fst (httpGetBuffer (str "https://example.com/tool") 0 Sample.start)
      = Throw (Error (str "Failed to download tool: 203")))
  /\ (let P := Sample.platform Sample.relative_redirect in
      net 0 (str "https://example.com/tool")
      = Response (Some 302) (Some (str "/other")) None
      /\ is_redirect (Some 302) (Some (str "/other")) = Some (str "/other")
      /\ https_get_accepts (str "/other") = false
      /\ net 1 (str "/other") = Response (Some 200) None (Some (str "abc"))
      /\ fst (httpGetBuffer (str "https://example.com/tool") 0 Sample.start)
         = Throw TypeError).
Proof.
  repeat split; try lia; vm_refl.
Qed.

Lemma C7_witness :
  let P := Sample.platform Sample.two_hops in
  fst (httpGetBuffer (str "https://example.com/tool") 0 Sample.start)
  = Ok (str "abc").
Proof.
  intros P.
  assert (follows 2 (str "https://example.com/tool") Sample.start
            (str "https://cdn.example/b")
            (log_request (str "https://cdn.example/a")
               (log_request (str "https://example.com/tool") Sample.start))) as Hf.
  { eapply follows_hop; [vm_refl | reflexivity | reflexivity |].
    eapply follows_hop; [vm_refl | reflexivity | reflexivity |].
    apply follows_none. }
  destruct (C7_httpGetBuffer_follows_five_redirects _ _ _ _ _ Hf) as [Hok _].
  rewrite Hok; [reflexivity | lia | vm_refl | reflexivity].
Defined.

(** Six redirects in a row: the seventh request is never sent. *)
Lemma httpGetBuffer_redirect_loop :
  let P := Sample.platform Sample.redirect_loop in
  let r := httpGetBuffer (str "https://example.com/tool") 0 Sample.start in
  fst r = Throw too_many_redirects /\ length (w_requests (snd r)) = 6%nat.
Proof.
  split; vm_refl.
Qed.

Section Progress.

Lemma num_lt_true (a b : jsnumber) : num_lt a b = true -> num_le a b.
Proof.
  unfold num_le. destruct a as [x| | |], b as [y| | |]; simpl; try discriminate;
    intros H; repeat split; try discriminate.
  apply negb_false_iff, Qle_bool_iff. apply negb_true_iff in H.
  apply Qlt_le_weak, Qnot_le_lt. intros Hle.
  apply Qle_bool_iff in Hle. congruence.
Qed.

Lemma num_lt_false (a b : jsnumber) :
  a <> NaN -> b <> NaN -> num_lt a b = false -> num_le b a.
Proof. unfold num_le. auto. Qed.

Lemma num_le_refl (a : jsnumber) : a <> NaN -> num_le a a.
Proof.
  intros H. unfold num_le. repeat split; try exact H.
  destruct a; simpl; try reflexivity.
  apply negb_false_iff, Qle_bool_iff, Qle_refl.
Qed.

Lemma num_le_trans (a b c : jsnumber) : num_le a b -> num_le b c -> num_le a c.
Proof.
  unfold num_le. intros (Ha & Hb & Hab) (_ & Hc & Hbc). repeat split; try assumption.
  destruct a as [x| | |], b as [y| | |], c as [z| | |]; simpl in *;
    try reflexivity; try discriminate; try contradiction.
  apply negb_false_iff, Qle_bool_iff in Hab. apply negb_false_iff, Qle_bool_iff in Hbc.
  apply negb_false_iff, Qle_bool_iff. eapply Qle_trans; eassumption.
Qed.

(** One event for the request shown: the number shown afterwards is the
    greater of the two, and the stage and the message are the event's. *)
Lemma handleProgress_step (id : jsstring) (st : TrackAddState) (p : jsnumber)
  (incoming : TrackSourceProgress) :
  id <> [] ->
  st_requestId st = Some id ->
  visible st = Some p ->
  keeps_mark incoming ->
  exists shown,
    handleProgress st id incoming
    = {| st_requestId := Some id; st_progress := Some shown |}
    /\ stage shown = stage incoming
    /\ message shown = message incoming
    /\ match progress incoming with
       | Some q => progress shown = Some (if num_lt q p then p else q)
       | None => progress shown = Some p
       end.
Proof.
  intros Hid Hreq Hvis Hkeep. unfold handleProgress.
  rewrite Hreq. rewrite bool_decide_eq_true_2 by reflexivity.
  replace (nonempty id) with true by (destruct id; [contradiction|reflexivity]).
  simpl. unfold visible in Hvis.
  destruct (st_progress st) as [prev|]; [|discriminate].
  unfold mergeProgress. rewrite Hvis.
  destruct incoming as [stg msg [q|]]; simpl.
  - destruct (num_lt q p); eexists; repeat split; reflexivity.
  - unfold keeps_mark in Hkeep. simpl in Hkeep. rewrite Hkeep, streq_refl.
    eexists; repeat split; reflexivity.
Qed.

Lemma handleProgress_other (id other : jsstring) (st : TrackAddState)
  (incoming : TrackSourceProgress) :
  st_requestId st = Some id -> other <> id ->
  handleProgress st other incoming = st.
Proof.
  intros Hreq Hne. unfold handleProgress. rewrite Hreq.
  rewrite bool_decide_eq_false_2 by (intros [= H]; congruence).
  rewrite andb_false_r. reflexivity.
Qed.

(** C9, as the code has it.  For the request the dialog shows, as long
    as every event delivered for it carries a number other than NaN, or
    carries none and belongs to the download stage, the number shown is the
    greatest of the number shown at first and of the numbers delivered
    since: a lower later number keeps the higher one.  Each such event gives
    the dialog its stage and its message.  (Any other event, one with NaN or
    one without a number in another stage, puts what it carries, NaN or
    nothing, in the place of the number shown, and the next event that
    carries a number then shows that number: the mark starts again.) *)
Theorem C9_progress_high_water_mark (id : jsstring) (st : TrackAddState)
  (p : jsnumber) (events : list (jsstring * TrackSourceProgress)) :
  id <> [] ->
  st_requestId st = Some id ->
  visible st = Some p ->
  p <> NaN ->
  (forall ev, ev ∈ events -> fst ev = id -> keeps_mark (snd ev)) ->
  (exists v, visible (deliver st events) = Some v
             /\ greatest v p (numbers_for id events))
  /\ (forall incoming, keeps_mark incoming ->
        exists shown,
          st_progress (handleProgress st id incoming) = Some shown
          /\ stage shown = stage incoming /\ message shown = message incoming)
  /\ (forall incoming, ~ keeps_mark incoming ->
        visible (handleProgress st id incoming) = progress incoming
        /\ (progress incoming = None \/ progress incoming = Some NaN))
  /\ (forall st' incoming q,
        st_requestId st' = Some id ->
        visible st' = None \/ visible st' = Some NaN ->
        progress incoming = Some q ->
        visible (handleProgress st' id incoming) = Some q).
Proof.
  intros Hid Hreq Hvis Hp Hall.
  assert (forall s, st_requestId s = Some id ->
            handleProgress s id
            = fun incoming =>
                {| st_requestId := Some id;
                   st_progress := Some (mergeProgress (st_progress s) incoming) |})
    as Hhandle.
  { intros s Hs. unfold handleProgress. rewrite Hs.
    rewrite bool_decide_eq_true_2 by reflexivity.
    replace (nonempty id) with true by (destruct id; [contradiction|reflexivity]).
    reflexivity. }
  split; [|split; [|split]]; cycle 2.
  { intros incoming Hno. rewrite (Hhandle st Hreq). unfold visible in *. simpl.
    destruct (st_progress st) as [prev|]; [|discriminate Hvis].
    unfold mergeProgress, keeps_mark in *. rewrite Hvis.
    destruct (progress incoming) as [q|] eqn:Hq.
    - assert (q = NaN) as -> by (destruct q; try reflexivity; exfalso; apply Hno; discriminate).
      simpl. rewrite Hq. auto.
    - destruct (streq (stage incoming) (str "download-audio")) eqn:E.
      + exfalso. apply Hno. apply streq_true, E.
      + rewrite Hq. auto. }
  { intros st' incoming q Hreq' Hnone Hq. rewrite (Hhandle st' Hreq').
    unfold visible in *. simpl.
    destruct (st_progress st') as [prev|]; [|exact Hq].
    unfold mergeProgress. rewrite Hq.
    destruct Hnone as [-> | ->]; [exact Hq|].
    destruct q; exact Hq. }
  - revert st p Hreq Hvis Hp Hall.
    induction events as [|[rid ev] events IH]; intros st p Hreq Hvis Hp Hall.
    + exists p. split; [exact Hvis|]. unfold greatest. simpl.
      split; [left; reflexivity|]. split; [apply num_le_refl, Hp|].
      intros q Hq. inversion Hq.
    + unfold deliver. simpl fold_left. fold (deliver (handleProgress st rid ev) events).
      unfold numbers_for. simpl omap. fold (numbers_for id events).
      destruct (decide (rid = id)) as [-> | Hne].
      * rewrite streq_refl.
        assert (keeps_mark ev) as Hkeep
            by (apply (Hall (id, ev)); [left | reflexivity]).
        destruct (handleProgress_step id st p ev Hid Hreq Hvis Hkeep)
          as (shown & Hst & _ & _ & Hnum).
        assert (forall p', progress shown = Some p' -> p' <> NaN ->
                  exists v, visible (deliver (handleProgress st id ev) events) = Some v
                            /\ greatest v p' (numbers_for id events)) as Hnext.
        { intros p' Hp' Hnan. apply IH.
          - rewrite Hst. reflexivity.
          - rewrite Hst. exact Hp'.
          - exact Hnan.
          - intros e He. apply Hall. right. exact He. }
        unfold keeps_mark in Hkeep.
        destruct (progress ev) as [q|].
        -- destruct (num_lt q p) eqn:E.
           ++ destruct (Hnext _ Hnum Hp) as (v & Hv & Hin & Hle & Hmax).
              exists v. split; [exact Hv|]. unfold greatest.
              apply num_lt_true in E. split; [|split].
              ** destruct Hin as [-> | Hin]; [left; reflexivity|].
                 right. right. exact Hin.
              ** exact Hle.
              ** intros q' Hq'. apply elem_of_cons in Hq' as [-> | Hq'].
                 --- eapply num_le_trans; eassumption.
                 --- apply Hmax, Hq'.
           ++ destruct (Hnext _ Hnum Hkeep) as (v & Hv & Hin & Hle & Hmax).
              exists v. split; [exact Hv|]. unfold greatest.
              apply (num_lt_false q p Hkeep Hp) in E. split; [|split].
              ** destruct Hin as [-> | Hin]; [right; left|right; right; exact Hin].
              ** eapply num_le_trans; eassumption.
              ** intros q' Hq'. apply elem_of_cons in Hq' as [-> | Hq'].
                 --- exact Hle.
                 --- apply Hmax, Hq'.
        -- apply (Hnext _ Hnum Hp).
      * rewrite (handleProgress_other id rid st ev Hreq Hne).
        replace (streq rid id) with false
          by (symmetry; apply streq_false; exact Hne).
        apply IH; [exact Hreq | exact Hvis | exact Hp |].
        intros e He. apply Hall. right. exact He.
  - intros incoming Hkeep.
    destruct (handleProgress_step id st p incoming Hid Hreq Hvis Hkeep)
      as (shown & Hst & Hstage & Hmsg & _).
    exists shown. rewrite Hst. auto.
Qed.

End Progress.

(** Two runs of events for the request r1 after which the dialog shows
    30 although 40 has been shown: 40, an event without a number in the
    finalize stage, 30; and 40, NaN, 30, all three in the download stage. *)
Lemma C9_counterexample :
  let events := [ Sample.event "r1" "download-audio" "Downloading audio..." (Some 40);
                  Sample.event "r1" "finalize" "Finalizing..." None;
                  Sample.event "r1" "download-audio" "Downloading audio..." (Some 30) ] in
  let numeric :=
    [ Sample.event "r1" "download-audio" "Downloading audio..." (Some 40);
      (str "r1", {| stage := str "download-audio";
                    message := str "Downloading audio...";
                    progress := Some NaN |});
      Sample.event "r1" "download-audio" "Downloading audio..." (Some 30) ] in
  (numbers_for (str "r1") events = [Finite (inject_Z 40); Finite (inject_Z 30)]
   /\ visible (deliver (submitted (str "r1")) events) = Some (Finite (inject_Z 30))
   /\ num_lt (Finite (inject_Z 30)) (Finite (inject_Z 40)) = true)
  /\ (numbers_for (str "r1") numeric
      = [Finite (inject_Z 40); NaN; Finite (inject_Z 30)]
      /\ visible (deliver (submitted (str "r1")) numeric) = Some (Finite (inject_Z 30))).
Proof.
  repeat split.
Qed.

(** 40 then 30: the dialog shows 40, with the stage of the later event. *)
Lemma C9_witness :
  let events := [ Sample.event "r1" "download-audio" "Downloading audio..." (Some 40);
                  Sample.event "r1" "install-tool" "Installing..." (Some 30) ] in
  exists v, visible (deliver (submitted (str "r1")) events) = Some v
            /\ greatest v (Finite (inject_Z 5))
                 [Finite (inject_Z 40); Finite (inject_Z 30)].
Proof.
  intros events.
  refine (proj1 (C9_progress_high_water_mark (str "r1") (submitted (str "r1"))
                   (Finite (inject_Z 5)) events _ _ _ _ _)).
  - discriminate.
  - reflexivity.
  - reflexivity.
  - discriminate.
  - intros ev Hev _.
    apply elem_of_cons in Hev as [-> | Hev]; [discriminate|].
    apply elem_of_cons in Hev as [-> | Hev]; [discriminate|].
    inversion Hev.
Defined.

Lemma progress_40_then_30 :
  visible (deliver (submitted (str "r1"))
             [ Sample.event "r1" "download-audio" "Downloading audio..." (Some 40);
               Sample.event "r1" "download-audio" "Downloading audio..." (Some 30) ])
  = Some (Finite (inject_Z 40)).
Proof. reflexivity. Qed.

Section CatalogSignature.
Context {P : Platform}.

Lemma check_signature_ok (signature key : json) (payload : Buffer) (failure : jsstring) :
  check_signature signature key payload failure = Ok tt
  <-> verifies signature key payload.
Proof.
  unfold check_signature, verifies. split.
  - destruct (Buffer_from_base64 signature) as [sig|]; [|discriminate].
    destruct (crypto_verify payload key sig) as [[|]|] eqn:E; try discriminate.
    intros _. exists sig. auto.
  - intros (sig & -> & ->). reflexivity.
Qed.

Lemma check_signature_throw (signature key : json) (payload : Buffer) (e : error) :
  check_signature signature key payload
    (str "Tools manifest signature verification failed") = Throw e ->
  signature_rejection e.
Proof.
  unfold check_signature, signature_rejection.
  destruct (Buffer_from_base64 signature) as [sig|]; [|intros [= <-]; auto].
  destruct (crypto_verify payload key sig) as [[|]|];
    [discriminate | intros [= <-]; auto | intros [= <-]; auto].
Qed.

Lemma structural_error_not_signature (message : string) :
  message = "Invalid tools manifest"%string
  \/ message = "Invalid tools manifest payload"%string ->
  ~ signature_rejection (Error (str message)).
Proof.
  intros [-> | ->] [H | [H | H]]; try discriminate H;
    vm_compute in H; discriminate H.
Qed.

(** C4, as the code has it.  A fetched catalog is refused because of its
    signature exactly when it parses, is well shaped, has a [signature]
    property that is truthy (present and, for a string, not empty), a
    non-empty verification key is configured, and the signature does not
    verify over the payload [{version, generatedAt, tools}].  A well-shaped
    catalog without the property is accepted whether a key is configured
    or not.  A catalog refused because of its signature makes the fetch of
    [getRemoteManifest] fail. *)
Theorem C4_signature_rejection (buffer : Buffer) :
  (rejected_for_signature buffer <->
   exists parsed signature key,
     JSON_parse (utf8_decode buffer) = Some parsed
     /\ well_shaped parsed = true
     /\ get parsed (str "signature") = Some signature
     /\ truthy signature = true
     /\ REMOTE_MANIFEST_PUBLIC_KEY_PEM = Some key
     /\ key <> []
     /\ ~ verifies signature (JStr key) (catalog_payload parsed))
  /\ (forall parsed,
        JSON_parse (utf8_decode buffer) = Some parsed ->
        well_shaped parsed = true ->
        get parsed (str "signature") = None ->
        parseAndValidateRemoteManifest buffer = Ok parsed)
  /\ (forall w w1,
        rejected_for_signature buffer ->
        httpGetBuffer getRemoteManifestURL 0 w = (Ok buffer, w1) ->
        exists e, fetchRemoteManifest w = (Throw e, w1)).
Proof.
  assert (forall w w1,
            rejected_for_signature buffer ->
            httpGetBuffer getRemoteManifestURL 0 w = (Ok buffer, w1) ->
            exists e, fetchRemoteManifest w = (Throw e, w1)) as Hfetch.
  { intros w w1 (e & He & _) Hget. exists e.
    unfold fetchRemoteManifest, bind, lift. rewrite Hget, He. reflexivity. }
  revert Hfetch.
  match goal with
  | |- ?F -> ?A /\ ?B /\ ?F =>
      intros Hfetch; enough (A /\ B) as [HA HB]
        by (split; [exact HA | split; [exact HB | exact Hfetch]]);
      clear Hfetch
  end.
  unfold rejected_for_signature, parseAndValidateRemoteManifest, well_shaped.
  destruct (JSON_parse (utf8_decode buffer)) as [parsed|].
  2:{ split.
      - split.
        + intros (e & [= <-] & [H | [H | H]]); discriminate H.
        + intros (parsed & s & k & H & _). discriminate H.
      - intros parsed H. discriminate H. }
  destruct (truthy parsed && is_object (Some parsed)
            && is_number (get parsed (str "version"))) eqn:E1.
  2:{ assert (negb (truthy parsed) || negb (is_object (Some parsed))
              || negb (is_number (get parsed (str "version"))) = true) as ->.
      { destruct (truthy parsed), (is_object (Some parsed)),
          (is_number (get parsed (str "version"))); simpl in *; congruence. }
      split.
      - split.
        + intros (e & [= <-] & H).
          exfalso. revert H. apply structural_error_not_signature. auto.
        + intros (p' & s & k & [= <-] & H & _).
          rewrite E1 in H. discriminate H.
      - intros p' [= <-] H. rewrite E1 in H. discriminate H. }
  assert (negb (truthy parsed) || negb (is_object (Some parsed))
          || negb (is_number (get parsed (str "version"))) = false) as ->.
  { destruct (truthy parsed), (is_object (Some parsed)),
      (is_number (get parsed (str "version"))); simpl in *; congruence. }
  destruct (truthyv (get parsed (str "tools"))
            && is_object (get parsed (str "tools"))) eqn:E2.
  2:{ assert (negb (truthyv (get parsed (str "tools")))
              || negb (is_object (get parsed (str "tools"))) = true) as ->.
      { destruct (truthyv (get parsed (str "tools"))),
          (is_object (get parsed (str "tools"))); simpl in *; congruence. }
      split.
      - split.
        + intros (e & [= <-] & H).
          exfalso. revert H. apply structural_error_not_signature. auto.
        + intros (p' & s & k & [= <-] & H & _).
          rewrite <- andb_assoc, E2, andb_false_r in H. discriminate H.
      - intros p' [= <-] H. rewrite <- andb_assoc, E2, andb_false_r in H.
        discriminate H. }
  assert (negb (truthyv (get parsed (str "tools")))
          || negb (is_object (get parsed (str "tools"))) = false) as ->.
  { destruct (truthyv (get parsed (str "tools"))),
      (is_object (get parsed (str "tools"))); simpl in *; congruence. }
  split.
  2:{ intros p' [= <-] _ ->. reflexivity. }
  destruct (get parsed (str "signature")) as [signature|] eqn:Esig.
  2:{ split.
      - intros (e & H & _). discriminate H.
      - intros (p' & s & k & [= <-] & _ & H & _). congruence. }
  destruct REMOTE_MANIFEST_PUBLIC_KEY_PEM as [key|].
  2:{ split.
      - intros (e & H & _). discriminate H.
      - intros (p' & s & k & _ & _ & _ & _ & H & _). discriminate H. }
  destruct (truthy signature) eqn:Hs; simpl.
  2:{ split.
      - intros (e & H & _). discriminate H.
      - intros (p' & s & k & [= <-] & _ & H & Ht & _). congruence. }
  destruct key as [|c key]; simpl.
  { split.
    - intros (e & H & _). discriminate H.
    - intros (p' & s & k & _ & _ & _ & _ & [= <-] & H & _). contradiction. }
  pose proof (check_signature_ok signature (JStr (c :: key)) (catalog_payload parsed)
                (str "Tools manifest signature verification failed")) as Hok.
  pose proof (check_signature_throw signature (JStr (c :: key)) (catalog_payload parsed))
    as Hthrow.
  destruct (check_signature signature (JStr (c :: key)) (catalog_payload parsed)
              (str "Tools manifest signature verification failed")) as [[]|e].
  - split.
    + intros (e & H & _). discriminate H.
    + intros (p' & s & k & [= <-] & _ & H & _ & [= <-] & _ & Hno).
      rewrite Esig in H. injection H as <-.
      exfalso. apply Hno, Hok. reflexivity.
  - split.
    + intros _. exists parsed, signature, (c :: key).
      repeat split; try reflexivity; try assumption; try discriminate.
      * change (well_shaped parsed = true). unfold well_shaped.
        rewrite E1, <- andb_assoc, E2. reflexivity.
      * intros Hv. apply Hok in Hv. discriminate Hv.
    + intros _. exists e. split; [reflexivity|]. apply Hthrow. reflexivity.
Qed.

End CatalogSignature.

(** A catalog whose signature is the empty string, with a key configured:
    the property is there and does not verify, and the catalog is
    accepted. *)
Lemma C4_counterexample :
  let P := Sample.platform Sample.keyed in
  let text := Sample.stringify 0 0 (Sample.catalog_signed "") in
  JSON_parse (utf8_decode text) = Some (Sample.catalog_signed "")
  /\ get (Sample.catalog_signed "") (str "signature") = Some (JStr [])
  /\ REMOTE_MANIFEST_PUBLIC_KEY_PEM = Some Sample.pem
  /\ ~ verifies (JStr []) (JStr Sample.pem) (catalog_payload (Sample.catalog_signed ""))
  /\ parseAndValidateRemoteManifest text = Ok (Sample.catalog_signed "").
Proof.
  repeat split; try vm_refl.
  intros (sig & Hsig & Hv). vm_compute in Hsig. injection Hsig as <-.
  vm_compute in Hv. discriminate Hv.
Qed.

(** A signature that does not verify makes the parse fail; a catalog
    without a signature is accepted with the key configured. *)
Lemma C4_witness :
  let P := Sample.platform Sample.keyed in
  rejected_for_signature (Sample.stringify 0 0 (Sample.catalog_signed "YmFk"))
  /\ parseAndValidateRemoteManifest (Sample.stringify 0 0 (Sample.catalog 1))
     = Ok (Sample.catalog 1).
Proof.
  intros P. split.
  - apply (proj1 (C4_signature_rejection _)).
    exists (Sample.catalog_signed "YmFk"), (JStr (str "YmFk")), Sample.pem.
    repeat split; try vm_refl; try discriminate.
    intros (sig & Hsig & Hv). vm_compute in Hsig. injection Hsig as <-.
    vm_compute in Hv. discriminate Hv.
  - apply (proj1 (proj2 (C4_signature_rejection _))); vm_refl.
Defined.

Section Extraction.
Context {P : Platform}.

Lemma output_lines_trimmed (out line : jsstring) :
  line ∈ output_lines out -> line <> [] /\ trim line = line.
Proof.
  unfold output_lines. intros H.
  apply list_elem_of_filter in H as [Hne H].
  apply list_elem_of_In, in_map_iff in H as (raw & <- & _).
  split.
  - intros E. rewrite E in Hne. discriminate Hne.
  - apply trim_idempotent.
Qed.

Lemma output_lines_nonempty (out line : jsstring) :
  line ∈ output_lines out -> nonempty line = true.
Proof.
  intros H. apply output_lines_trimmed in H as [H _].
  destruct line; [contradiction|reflexivity].
Qed.

(** C8, as the code has it.  When the process closes with an exit code
    other than 0 (or with none), the call fails, with the process's error
    stream as the message when that stream is not empty and with the
    message "Failed to download YouTube audio" when it is.  When it closes
    with 0, the output is split on line ends into trimmed lines, the blank
    ones dropped; the file path is the last of them, and the call fails
    when there is none or when no file is at that path; the title is the
    first of them. *)
Theorem C8_downloadYoutubeAudio_outcome
  (ytDlpPath sourceUrl playlistId : jsstring) (w : World)
  (c : option Z) (out err : jsstring) (files : gmap jsstring File) :
  let args := downloadArgs (path_join mediaDir (safePlaylistId playlistId)) sourceUrl in
  proc ytDlpPath args (w_fs w) = Closed c out err files ->
  let w' := set_fs files (log_spawn ytDlpPath args w) in
  let lines := output_lines out in
  let missing := Error (str "Unable to locate downloaded track file") in
  (forall line, line ∈ lines -> line <> [] /\ trim line = line)
  /\ (c <> Some 0 ->
      downloadYoutubeAudio ytDlpPath sourceUrl playlistId w
      = (Throw (Error (if nonempty err then err
                       else str "Failed to download YouTube audio")), w'))
  /\ (c = Some 0 ->
      match last lines, head lines with
      | Some filePath, Some first =>
          downloadYoutubeAudio ytDlpPath sourceUrl playlistId w
          = if bool_decide (is_Some (files !! filePath))
            then (Ok (first, filePath), w')
            else (Throw missing, w')
      | _, _ =>
          downloadYoutubeAudio ytDlpPath sourceUrl playlistId w = (Throw missing, w')
      end).
Proof.
  intros args Hproc w' lines missing.
  split; [intros line; apply output_lines_trimmed|].
  unfold downloadYoutubeAudio, bind, fs_mkdir, ret, execBinary.
  fold args. rewrite Hproc. simpl. fold w'. split.
  - intros Hc.
    assert ((match c with Some n => n | None => 1 end =? 0) = false) as ->.
    { destruct c as [n|]; [|reflexivity]. apply Z.eqb_neq. congruence. }
    reflexivity.
  - intros ->. simpl. fold lines.
    destruct (last lines) as [filePath|] eqn:Hlast.
    + rewrite (output_lines_nonempty out filePath)
        by (apply last_Some_elem_of, Hlast).
      destruct (head lines) as [first|] eqn:Hhead.
      * rewrite (output_lines_nonempty out first)
          by (apply head_Some_elem_of, Hhead).
        unfold exists_. simpl.
        destruct (bool_decide (is_Some (files !! filePath))); reflexivity.
      * apply head_None in Hhead. rewrite Hhead in Hlast. discriminate Hlast.
    + destruct (head lines); reflexivity.
Qed.

End Extraction.

(** The process exits with code 1 and an empty error stream: the message
    of the failure is not that stream.  The process exits with code 0 after
    an empty title line and the path of the file: the title returned is the
    path, not the base name of the file without its extension. *)
Lemma C8_counterexample :
  let binary := str "/home/user/.config/kenku/optional-tools/bin/yt-dlp" in
  let source := str "https://youtu.be/abc123" in
  (let P := Sample.platform Sample.silent_failure in
   proc binary (downloadArgs (path_join mediaDir (safePlaylistId (str "p1"))) source) ∅
   = Closed (Some 1) [] [] ∅
   /\ fst (downloadYoutubeAudio binary source (str "p1") Sample.start)
      = Throw (Error (str "Failed to download YouTube audio"))
   /\ Error (str "Failed to download YouTube audio") <> Error [])
  /\ (let P := Sample.platform Sample.blank_title in
      proc binary (downloadArgs (path_join mediaDir (safePlaylistId (str "p1"))) source) ∅
      = Closed (Some 0) ([10%N] ++ Sample.track_path ++ [10%N]) []
          (<[ Sample.track_path := Sample.file (str "audio") ]> ∅)
      /\ fst (downloadYoutubeAudio binary source (str "p1") Sample.start)
         = Ok (Sample.track_path, Sample.track_path)
      /\ path_basename Sample.track_path (path_extname Sample.track_path)
         = str "Song-abc123"
      /\ Sample.track_path <> str "Song-abc123").
Proof.
  repeat split; try vm_refl; vm_compute; discriminate.
Qed.

Lemma C8_witness :
  let P := Sample.platform Sample.extraction in
  let binary := str "/home/user/.config/kenku/optional-tools/bin/yt-dlp" in
  let source := str "https://youtu.be/abc123" in
  let args := downloadArgs (path_join mediaDir (safePlaylistId (str "p 1"))) source in
  downloadYoutubeAudio binary source (str "p 1") Sample.start
  = (Ok (str "Song", Sample.track_path),
     set_fs (<[ Sample.track_path := Sample.file (str "audio") ]> ∅)
       (log_spawn binary args Sample.start)).
Proof.
  intros P binary source args.
  exact (proj2 (proj2 (C8_downloadYoutubeAudio_outcome binary source
                         (str "p 1") Sample.start (Some 0)
                         (str "Song" ++ [13%N; 10%N] ++ Sample.track_path ++ [10%N]) []
                         (<[ Sample.track_path := Sample.file (str "audio") ]> ∅)
                         eq_refl)) eq_refl).
Defined.

Section Install.
Context {P : Platform}.

Lemma bind_Ok_inv {A B} (m : M A) (k : A -> M B) (w w' : World) (b : B) :
  bind m k w = (Ok b, w') ->
  exists a w1, m w = (Ok a, w1) /\ k a w1 = (Ok b, w').
Proof.
  unfold bind. destruct (m w) as [[a|e] w1]; [eauto|discriminate].
Qed.

Lemma assoc_set_eq (k : jsstring) (x : json) (props : list (jsstring * json)) :
  assoc k (assoc_set k x props) = Some x.
Proof.
  induction props as [|[k' v] props IH]; simpl.
  - rewrite streq_refl. reflexivity.
  - destruct (streq k' k) eqn:E; simpl; rewrite E; [reflexivity|exact IH].
Qed.

Lemma assoc_set_ne (k k' : jsstring) (x : json) (props : list (jsstring * json)) :
  k' <> k -> assoc k' (assoc_set k x props) = assoc k' props.
Proof.
  intros Hne. induction props as [|[k0 v] props IH]; simpl.
  - replace (streq k k') with false; [reflexivity|].
    symmetry. apply streq_false. congruence.
  - destruct (streq k0 k) eqn:E; simpl.
    + apply streq_true in E as ->.
      replace (streq k k') with false; [reflexivity|].
      symmetry. apply streq_false. congruence.
    + destruct (streq k0 k'); [reflexivity|exact IH].
Qed.

Lemma readManifest_run (w : World) : readManifest w = (Ok (local_manifest w), w).
Proof.
  unfold local_manifest, readManifest, bind, try_catch, exists_, fs_readFile,
    ret, throw.
  destruct (bool_decide (is_Some (w_fs w !! manifestPath))); simpl; [|reflexivity].
  destruct (w_fs w !! manifestPath) as [f|]; [|reflexivity].
  destruct (JSON_parse (utf8_decode (f_data f))) as [parsed|]; [|reflexivity].
  destruct parsed; reflexivity.
Qed.

(** [ensureToolInstalled] once the release is resolved: the Verified
    branch, or the download under its [catch]. *)
Lemma ensureToolInstalled_run (tool : ToolName) (w : World)
  (release : ToolRelease) (w1 : World) :
  getRelease tool w = (Ok release, w1) ->
  ensureToolInstalled tool w =
  let binaryPath := path_join binDir (rel_binaryName release) in
  let tempPath := tempPathFor release (clock (w_tick w1)) in
  if verified_install tool release binaryPath w1
  then refreshVerified tool binaryPath (local_manifest w1) w1
  else
    try_catch (installRelease tool release binaryPath tempPath (local_manifest w1))
      (fun error => fs_rm_force tempPath ;; throw error) (tick w1).
Proof.
  intros Hrel. unfold ensureToolInstalled.
  unfold bind at 1. rewrite Hrel.
  unfold bind at 1. rewrite readManifest_run.
  unfold verified_install, validExistingInstall, intact, currentHashMatches, sha256.
  destruct (recordMatches tool release
              (path_join binDir (rel_binaryName release)) (local_manifest w1));
    simpl; [|reflexivity].
  unfold bind, exists_, ret. simpl.
  destruct (w_fs w1 !! path_join binDir (rel_binaryName release)) as [f|] eqn:E.
  - rewrite bool_decide_eq_true_2 by eauto. rewrite E.
    destruct (streq (sha256_hex (f_data f)) (rel_sha256 release)); reflexivity.
  - rewrite bool_decide_eq_false_2 by (intros [x Hx]; discriminate Hx).
    reflexivity.
Qed.

Lemma installRelease_mismatch (tool : ToolName) (release : ToolRelease)
  (binaryPath tempPath : jsstring) (manifest : ToolManifest)
  (w : World) (body : Buffer) (w3 : World) :
  httpGetBuffer (rel_url release) 0 w = (Ok body, w3) ->
  sha256_hex body <> rel_sha256 release ->
  exists mode,
    installRelease tool release binaryPath tempPath manifest w
    = (Throw (checksum_mismatch tool),
       set_fs (<[tempPath := {| f_data := body; f_mode := mode |}]> (w_fs w3)) w3).
Proof.
  intros Hget Hne. eexists.
  unfold installRelease, downloadToFile.
  unfold bind at 1. unfold bind at 1. rewrite Hget.
  unfold fs_writeFile. unfold bind at 1.
  unfold verifyReleaseIntegrity. unfold bind at 1. unfold sha256.
  simpl w_fs. rewrite lookup_insert_eq. simpl f_data.
  replace (streq (sha256_hex body) (rel_sha256 release)) with false
    by (symmetry; apply streq_false; exact Hne).
  reflexivity.
Qed.

(** C2.  In an install attempt (the existing install is not verified) in
    which the download succeeds and the hash of the bytes written to the
    temporary file differs from the hash the release declares, the call
    fails with the checksum-mismatch error; when it has finished no file is
    at the temporary path, and every other path, the final binary path
    among them, holds what it held before the attempt. *)
Theorem C2_checksum_mismatch_leaves_nothing (tool : ToolName) (w w1 w3 : World)
  (release : ToolRelease) (body : Buffer) :
  let binaryPath := path_join binDir (rel_binaryName release) in
  let tempPath := tempPathFor release (clock (w_tick w1)) in
  getRelease tool w = (Ok release, w1) ->
  verified_install tool release binaryPath w1 = false ->
  httpGetBuffer (rel_url release) 0 (tick w1) = (Ok body, w3) ->
  sha256_hex body <> rel_sha256 release ->
  exists w',
    ensureToolInstalled tool w = (Throw (checksum_mismatch tool), w')
    /\ w_fs w' !! tempPath = None
    /\ (forall p, p <> tempPath -> w_fs w' !! p = w_fs w1 !! p)
    /\ (binaryPath <> tempPath -> w_fs w' !! binaryPath = w_fs w1 !! binaryPath).
Proof.
  intros binaryPath tempPath Hrel Hnot Hget Hne.
  rewrite (ensureToolInstalled_run tool w release w1 Hrel).
  fold binaryPath tempPath. simpl. rewrite Hnot.
  destruct (installRelease_mismatch tool release binaryPath tempPath
              (local_manifest w1) (tick w1) body w3 Hget Hne) as [mode Hinst].
  unfold try_catch. rewrite Hinst.
  unfold bind, fs_rm_force, throw. simpl.
  eexists. split; [reflexivity|]. simpl.
  pose proof (httpGetBuffer_frame (rel_url release) 0 (tick w1)) as Hframe.
  rewrite Hget in Hframe. simpl in Hframe. destruct Hframe as [Hfs _].
  assert (forall p, p <> tempPath ->
            delete tempPath (<[tempPath := {| f_data := body; f_mode := mode |}]> (w_fs w3))
            !! p = w_fs w1 !! p) as Hother.
  { intros p Hp. rewrite lookup_delete_ne by congruence.
    rewrite lookup_insert_ne by congruence. rewrite Hfs. reflexivity. }
  split; [apply lookup_delete_eq|]. split; [exact Hother|].
  intros Hp. apply Hother. exact Hp.
Qed.

Lemma recordMatches_entry (tool : ToolName) (release : ToolRelease)
  (binaryPath : jsstring) (manifest : ToolManifest) :
  recordMatches tool release binaryPath manifest = true ->
  exists props tprops,
    tools manifest = JObj tprops
    /\ assoc (tool_name tool) tprops = Some (JObj props)
    /\ assoc (str "binaryPath") props = Some (JStr binaryPath)
    /\ assoc (str "version") props = Some (JStr (rel_version release))
    /\ assoc (str "sha256") props = Some (JStr (rel_sha256 release)).
Proof.
  unfold recordMatches. intros H.
  apply andb_prop in H as [H H3]. apply andb_prop in H as [H1 H2].
  destruct (tools manifest) as [| | | | |tprops]; try discriminate H1.
  simpl in *.
  destruct (assoc (tool_name tool) tprops) as [entry|] eqn:Hent;
    [|discriminate H1].
  destruct entry as [| | | | |props]; try discriminate H1.
  simpl in *. exists props, tprops.
  assert (forall k s, is_str (assoc k props) s = true -> assoc k props = Some (JStr s))
    as Hstr.
  { intros k s. unfold is_str.
    destruct (assoc k props) as [[| | |s'| |]|]; try discriminate.
    intros E. apply streq_true in E as ->. reflexivity. }
  repeat split; auto.
Qed.

Lemma refreshVerified_run (tool : ToolName) (binaryPath : jsstring)
  (manifest : ToolManifest) (props tprops : list (jsstring * json))
  (w : World) (f : File) :
  tools manifest = JObj tprops ->
  assoc (tool_name tool) tprops = Some (JObj props) ->
  w_fs w !! binaryPath = Some f ->
  let lastVerifiedAt := Date_toISOString (clock (w_tick w)) in
  let written :=
    utf8_encode
      (JSON_stringify (Some 2%nat)
         (JObj [ (str "tools",
                  JObj (assoc_set (tool_name tool)
                          (JObj (assoc_set (str "lastVerifiedAt")
                                   (JStr lastVerifiedAt) props))
                          tprops)) ])) in
  exists w',
    refreshVerified tool binaryPath manifest w = (Ok binaryPath, w')
    /\ w_requests w' = w_requests w
    /\ w_spawned w' = w_spawned w
    /\ w_mem w' = w_mem w
    /\ exists written_file,
         w_fs w' !! manifestPath = Some written_file
         /\ f_data written_file = written.
Proof.
  intros Htools Hentry Hfile lastVerifiedAt written.
  unfold refreshVerified. unfold bind at 1. unfold fs_chmod. rewrite Hfile.
  unfold bind at 1. unfold now_iso, bind at 1. unfold Date_now at 1.
  unfold ret at 1. simpl w_tick. fold lastVerifiedAt.
  unfold bind at 1. unfold lift, set_tool. rewrite Htools. simpl get.
  rewrite Hentry. simpl spread.
  unfold writeManifest, fs_mkdir. unfold bind, ret, fs_writeFile, fs_rename.
  simpl. rewrite lookup_insert_eq.
  eexists. split; [reflexivity|]. simpl.
  repeat split. eexists. split; [apply lookup_insert_eq|reflexivity].
Qed.

Lemma refreshVerified_path (tool : ToolName) (binaryPath : jsstring)
  (manifest : ToolManifest) (w w' : World) (p : jsstring) :
  refreshVerified tool binaryPath manifest w = (Ok p, w') -> p = binaryPath.
Proof.
  unfold refreshVerified. intros H.
  repeat (apply bind_Ok_inv in H as (? & ? & _ & H)).
  injection H as <- _. reflexivity.
Qed.

Lemma installRelease_path (tool : ToolName) (release : ToolRelease)
  (binaryPath tempPath : jsstring) (manifest : ToolManifest)
  (w w' : World) (p : jsstring) :
  installRelease tool release binaryPath tempPath manifest w = (Ok p, w') ->
  p = binaryPath.
Proof.
  unfold installRelease. intros H.
  repeat (apply bind_Ok_inv in H as (? & ? & _ & H)).
  injection H as <- _. reflexivity.
Qed.

(** A successful call returns the path of the release's binary. *)
Lemma ensureToolInstalled_path (tool : ToolName) (w w1 w' : World)
  (release : ToolRelease) (p : jsstring) :
  getRelease tool w = (Ok release, w1) ->
  ensureToolInstalled tool w = (Ok p, w') ->
  p = path_join binDir (rel_binaryName release).
Proof.
  intros Hrel H. rewrite (ensureToolInstalled_run tool w release w1 Hrel) in H.
  simpl in H.
  destruct (verified_install tool release
              (path_join binDir (rel_binaryName release)) w1).
  - eapply refreshVerified_path, H.
  - unfold try_catch in H.
    destruct (installRelease tool release
                (path_join binDir (rel_binaryName release))
                (tempPathFor release (clock (w_tick w1)))
                (local_manifest w1) (tick w1)) as [[p'|e] w2] eqn:E.
    + injection H as <- _. eapply installRelease_path, E.
    + discriminate H.
Qed.

Lemma replaced_lookup (fs : gmap jsstring File) (tempPath target p : jsstring)
  (written moved : File) :
  p <> target -> p <> tempPath ->
  (<[target := moved]> (delete tempPath (<[tempPath := written]> fs))) !! p = fs !! p.
Proof.
  intros Ht Hp.
  rewrite lookup_insert_ne by congruence.
  rewrite lookup_delete_ne by congruence.
  apply lookup_insert_ne. congruence.
Qed.

(** Resolving the release writes the catalog cache and its temporary
    file, and no other file. *)
Lemma getRemoteManifest_files (w : World) (p : jsstring) :
  p <> remoteManifestCachePath ->
  p <> remoteManifestCachePath ++ str ".tmp" ->
  w_fs (snd (getRemoteManifest w)) !! p = w_fs w !! p.
Proof.
  intros Hp Htmp. rewrite getRemoteManifest_run.
  destruct (memory_fresh w); [reflexivity|].
  destruct (disk_fresh w); [reflexivity|].
  assert (w_fs (snd (refreshRemoteManifest (tick w))) !! p = w_fs w !! p) as Hrefresh.
  { rewrite refreshRemoteManifest_fetch.
    pose proof (fetchRemoteManifest_frame (tick w)) as Hframe.
    destruct (fetchRemoteManifest (tick w)) as [[manifest|e] w1]; simpl in Hframe;
      destruct Hframe as [Hfs _].
    - unfold now_iso, writeRemoteManifestDiskCache.
      unfold bind, Date_now, ret, put_mem, fs_mkdir, fs_writeFile, fs_rename. simpl.
      rewrite lookup_insert_eq. simpl.
      rewrite replaced_lookup by assumption. rewrite Hfs. reflexivity.
    - simpl. rewrite Hfs. reflexivity. }
  destruct (refreshRemoteManifest (tick w)) as [[manifest|e] w2]; simpl in *;
    [exact Hrefresh|].
  destruct (truthy (disk_cache w)); exact Hrefresh.
Qed.

Lemma getRelease_files (tool : ToolName) (w w' : World) (release : ToolRelease)
  (p : jsstring) :
  getRelease tool w = (Ok release, w') ->
  p <> remoteManifestCachePath ->
  p <> remoteManifestCachePath ++ str ".tmp" ->
  w_fs w' !! p = w_fs w !! p.
Proof.
  intros H Hp Htmp.
  destruct (getRemoteManifest_total w) as (manifest & w1 & Hm).
  rewrite (getRelease_run tool w manifest w1 Hm) in H.
  pose proof (getRemoteManifest_files w p Hp Htmp) as Hfiles.
  rewrite Hm in Hfiles. simpl in Hfiles.
  destruct (toValidToolRelease (remote_entry manifest tool)).
  - injection H as _ <-. exact Hfiles.
  - destruct (lookup_release getPlatformKey (BUILTIN_TOOL_RELEASES tool));
      [|discriminate H].
    injection H as _ <-. exact Hfiles.
Qed.

(** The manifest read from a file that holds a tool table. *)
Lemma local_manifest_of_file (w : World) (written : File)
  (tprops : list (jsstring * json)) :
  w_fs w !! manifestPath = Some written ->
  JSON_parse (utf8_decode (f_data written)) = Some (JObj [ (str "tools", JObj tprops) ]) ->
  local_manifest w = {| tools := JObj tprops |}.
Proof.
  intros Hfile Hparse.
  unfold local_manifest, readManifest, bind, try_catch, exists_, fs_readFile,
    ret, throw.
  rewrite bool_decide_eq_true_2 by eauto. simpl.
  rewrite Hfile, Hparse. reflexivity.
Qed.

Lemma fresh_record_matches (v h b u t1 t2 : jsstring) :
  let props := [ (str "version", JStr v); (str "sha256", JStr h);
                 (str "binaryPath", JStr b); (str "sourceUrl", JStr u);
                 (str "installedAt", JStr t1); (str "lastVerifiedAt", JStr t2) ] in
  assoc (str "binaryPath") props = Some (JStr b)
  /\ assoc (str "version") props = Some (JStr v)
  /\ assoc (str "sha256") props = Some (JStr h).
Proof. repeat split. Qed.

Lemma lastVerifiedAt_other (k : string) :
  k = "binaryPath"%string \/ k = "version"%string \/ k = "sha256"%string ->
  str k <> str "lastVerifiedAt".
Proof. intros [-> | [-> | ->]]; discriminate. Qed.

(** The record a successful call writes matches the release. *)
Lemma recorded_entry_matches (tool : ToolName) (release : ToolRelease)
  (binaryPath : jsstring) (w : World) (tprops : list (jsstring * json)) :
  recordMatches tool release binaryPath
    {| tools := JObj (assoc_set (tool_name tool)
                        (JObj (recorded_entry tool release binaryPath w)) tprops) |}
  = true.
Proof.
  assert (forall props,
            assoc (str "binaryPath") props = Some (JStr binaryPath) ->
            assoc (str "version") props = Some (JStr (rel_version release)) ->
            assoc (str "sha256") props = Some (JStr (rel_sha256 release)) ->
            recordMatches tool release binaryPath
              {| tools := JObj (assoc_set (tool_name tool) (JObj props) tprops) |}
            = true) as Hfields.
  { intros props H1 H2 H3. unfold recordMatches. simpl.
    rewrite assoc_set_eq. simpl. rewrite H1, H2, H3. simpl.
    rewrite !streq_refl. reflexivity. }
  unfold recorded_entry.
  destruct (verified_install tool release binaryPath w) eqn:Hv.
  - unfold verified_install in Hv. apply andb_prop in Hv as [Hrec _].
    destruct (recordMatches_entry tool release binaryPath (local_manifest w) Hrec)
      as (props & tprops1 & Htools & Hentry & H1 & H2 & H3).
    rewrite Htools. simpl. rewrite Hentry. simpl.
    apply Hfields; rewrite assoc_set_ne; auto using lastVerifiedAt_other.
  - apply Hfields; apply fresh_record_matches.
Qed.

Lemma installRelease_records (tool : ToolName) (release : ToolRelease)
  (binaryPath tempPath : jsstring) (manifest : ToolManifest)
  (tprops : list (jsstring * json)) (w w' : World) (p : jsstring) :
  tools manifest = JObj tprops ->
  installRelease tool release binaryPath tempPath manifest w = (Ok p, w') ->
  exists written,
    w_fs w' !! manifestPath = Some written
    /\ f_data written
       = utf8_encode
           (JSON_stringify (Some 2%nat)
              (JObj [ (str "tools",
                       JObj (assoc_set (tool_name tool)
                               (JObj [ (str "version", JStr (rel_version release));
                                       (str "sha256", JStr (rel_sha256 release));
                                       (str "binaryPath", JStr binaryPath);
                                       (str "sourceUrl", JStr (rel_url release));
                                       (str "installedAt",
                                        JStr (Date_toISOString (clock (w_tick w))));
                                       (str "lastVerifiedAt",
                                        JStr (Date_toISOString (clock (S (w_tick w))))) ])
                               tprops)) ])).
Proof.
  intros Htools H. unfold installRelease in H.
  apply bind_Ok_inv in H as ([] & wa & Hdownload & H).
  apply bind_Ok_inv in H as ([] & wb & Hverify & H).
  apply bind_Ok_inv in H as ([] & wc & Hchmod & H).
  apply bind_Ok_inv in H as ([] & wd & Hrename & H).
  assert (w_tick wd = w_tick w) as Htick.
  { unfold downloadToFile in Hdownload.
    apply bind_Ok_inv in Hdownload as (body & w0 & Hget & Hwrite).
    pose proof (httpGetBuffer_frame (rel_url release) 0 w) as Hframe.
    rewrite Hget in Hframe. simpl in Hframe. destruct Hframe as (_ & _ & Ht & _).
    unfold fs_writeFile in Hwrite. apply (f_equal snd) in Hwrite. simpl in Hwrite.
    subst wa.
    assert (w_tick wb = w_tick w) as Hb.
    { unfold verifyReleaseIntegrity, bind, sha256, throw, ret, lift in Hverify.
      simpl in Hverify. rewrite lookup_insert_eq in Hverify. simpl in Hverify.
      destruct (negb (streq (sha256_hex body) (rel_sha256 release)));
        [discriminate Hverify|].
      destruct (rel_signature release) as [sig|];
        [destruct (rel_publicKeyPem release) as [key|]|];
        try (apply (f_equal snd) in Hverify; simpl in Hverify; subst wb; exact Ht).
      destruct (truthy sig && truthy key);
        [|apply (f_equal snd) in Hverify; simpl in Hverify; subst wb; exact Ht].
      destruct (check_signature sig key _ _); [|discriminate Hverify].
      apply (f_equal snd) in Hverify. simpl in Hverify. subst wb. exact Ht. }
    unfold fs_chmod in Hchmod.
    destruct (w_fs wb !! tempPath); [|discriminate Hchmod].
    apply (f_equal snd) in Hchmod. simpl in Hchmod. subst wc.
    unfold fs_rename_binary in Hrename. simpl in Hrename.
    destruct (<[tempPath:=_]> (w_fs wb) !! tempPath); [|discriminate Hrename].
    destruct (bool_decide (binaryPath ∈ made_directories)); [discriminate Hrename|].
    apply (f_equal snd) in Hrename. simpl in Hrename. subst wd. exact Hb. }
  unfold now_iso in H.
  unfold bind at 1 2 in H. unfold Date_now at 1 in H. unfold ret at 1 in H.
  unfold bind at 1 2 in H. unfold Date_now at 1 in H. unfold ret at 1 in H.
  simpl w_tick in H. rewrite Htick in H.
  unfold bind at 1 in H. unfold lift, set_tool in H. rewrite Htools in H.
  unfold writeManifest, fs_mkdir in H.
  unfold bind, ret, fs_writeFile, fs_rename in H. simpl in H.
  rewrite lookup_insert_eq in H. injection H as _ <-. simpl.
  eexists. split; [apply lookup_insert_eq|reflexivity].
Qed.

(** What a successful call leaves in the manifest file. *)
Lemma ensureToolInstalled_records (tool : ToolName) (release : ToolRelease)
  (binaryPath : jsstring) (w w1 w' : World) (tprops : list (jsstring * json)) :
  getRelease tool w = (Ok release, w1) ->
  ensureToolInstalled tool w = (Ok binaryPath, w') ->
  tools (local_manifest w1) = JObj tprops ->
  exists written,
    w_fs w' !! manifestPath = Some written
    /\ f_data written
       = utf8_encode
           (JSON_stringify (Some 2%nat)
              (recorded_manifest tool release binaryPath w1 tprops)).
Proof.
  intros Hrel Hrun Htools.
  pose proof (ensureToolInstalled_path tool w w1 w' release binaryPath Hrel Hrun)
    as Hpath.
  rewrite (ensureToolInstalled_run tool w release w1 Hrel) in Hrun.
  simpl in Hrun. rewrite <- Hpath in Hrun.
  unfold recorded_manifest, recorded_entry.
  destruct (verified_install tool release binaryPath w1) eqn:Hv.
  - unfold verified_install in Hv. apply andb_prop in Hv as [Hrec Hintact].
    destruct (recordMatches_entry tool release binaryPath (local_manifest w1) Hrec)
      as (props & tprops1 & Htools1 & Hentry & _).
    rewrite Htools in Htools1. injection Htools1 as <-.
    assert (exists f, w_fs w1 !! binaryPath = Some f) as [f Hfile].
    { unfold intact in Hintact. destruct (w_fs w1 !! binaryPath); [eauto|discriminate]. }
    destruct (refreshVerified_run tool binaryPath (local_manifest w1) props tprops w1 f
                Htools Hentry Hfile)
      as (w3 & Hrefresh & _ & _ & _ & written & Hlookup & Hdata).
    rewrite Hrefresh in Hrun. injection Hrun as <-.
    exists written. split; [exact Hlookup|].
    rewrite Hdata, Htools. simpl. rewrite Hentry. reflexivity.
  - unfold try_catch in Hrun.
    destruct (installRelease tool release binaryPath
                (tempPathFor release (clock (w_tick w1)))
                (local_manifest w1) (tick w1)) as [[p|e] w2] eqn:E;
      [|discriminate Hrun].
    injection Hrun as _ <-.
    apply (installRelease_records tool release binaryPath _ _ tprops _ _ _ Htools E).
Qed.

(** C5.  A call installs or verifies [release] at [binaryPath] and writes
    the manifest.  When a second call follows, for which the release
    resolves to the same [release] and the file at [binaryPath] still hashes
    to the recorded hash, that call returns [binaryPath], sends no request
    once the release is resolved (it downloads nothing), and writes the
    manifest with, in the record of the tool, the property [lastVerifiedAt]
    set to the time of the call and every other property, and every other
    tool's record, as the first call left them.  The tool table read by the
    first call is an object, as in every manifest the module writes; the
    manifest the first call wrote parses back to what was written; the
    manifest file is not the catalog cache file or its temporary file. *)
Theorem C5_second_call_only_refreshes_lastVerifiedAt (tool : ToolName)
  (release : ToolRelease) (binaryPath : jsstring) (w0 w0' w1 w2 : World)
  (tprops0 : list (jsstring * json)) :
  getRelease tool w0 = (Ok release, w0') ->
  ensureToolInstalled tool w0 = (Ok binaryPath, w1) ->
  tools (local_manifest w0') = JObj tprops0 ->
  reads_back (recorded_manifest tool release binaryPath w0' tprops0) ->
  manifestPath <> remoteManifestCachePath ->
  manifestPath <> remoteManifestCachePath ++ str ".tmp" ->
  getRelease tool w1 = (Ok release, w2) ->
  intact release binaryPath w2 = true ->
  let props := recorded_entry tool release binaryPath w0' in
  let tprops := assoc_set (tool_name tool) (JObj props) tprops0 in
  let lastVerifiedAt := JStr (Date_toISOString (clock (w_tick w2))) in
  let props' := assoc_set (str "lastVerifiedAt") lastVerifiedAt props in
  let tprops' := assoc_set (tool_name tool) (JObj props') tprops in
  exists w3 written,
    ensureToolInstalled tool w1 = (Ok binaryPath, w3)
    /\ w_requests w3 = w_requests w2
    /\ tools (local_manifest w2) = JObj tprops
    /\ w_fs w3 !! manifestPath = Some written
    /\ f_data written
       = utf8_encode (JSON_stringify (Some 2%nat) (JObj [ (str "tools", JObj tprops') ]))
    /\ assoc (tool_name tool) tprops = Some (JObj props)
    /\ assoc (tool_name tool) tprops' = Some (JObj props')
    /\ assoc (str "lastVerifiedAt") props' = Some lastVerifiedAt
    /\ (forall k, k <> str "lastVerifiedAt" -> assoc k props' = assoc k props)
    /\ (forall k, k <> tool_name tool -> assoc k tprops' = assoc k tprops).
Proof.
  intros Hrel0 Hfirst Htools0 Hback Hcache Htmp Hrel Hintact
    props tprops lastVerifiedAt props' tprops'.
  pose proof (ensureToolInstalled_path tool w0 w0' w1 release binaryPath Hrel0 Hfirst)
    as Hpath.
  destruct (ensureToolInstalled_records tool release binaryPath w0 w0' w1 tprops0
              Hrel0 Hfirst Htools0) as (recorded & Hrecorded & Hdata).
  assert (local_manifest w2 = {| tools := JObj tprops |}) as Hmanifest.
  { apply (local_manifest_of_file w2 recorded).
    - rewrite (getRelease_files tool w1 w2 release manifestPath Hrel Hcache Htmp).
      exact Hrecorded.
    - rewrite Hdata. exact Hback. }
  assert (recordMatches tool release binaryPath (local_manifest w2) = true) as Hrec.
  { rewrite Hmanifest. apply recorded_entry_matches. }
  assert (assoc (tool_name tool) tprops = Some (JObj props)) as Hentry
    by apply assoc_set_eq.
  assert (exists f, w_fs w2 !! binaryPath = Some f) as [f Hfile].
  { unfold intact in Hintact. destruct (w_fs w2 !! binaryPath); [eauto|discriminate]. }
  assert (tools (local_manifest w2) = JObj tprops) as Htools
    by (rewrite Hmanifest; reflexivity).
  destruct (refreshVerified_run tool binaryPath (local_manifest w2) props tprops w2 f
              Htools Hentry Hfile)
    as (w3 & Hrun & Hreq & _ & _ & written & Hlookup & Hwritten).
  exists w3, written.
  split.
  { rewrite (ensureToolInstalled_run tool w1 release w2 Hrel). simpl.
    rewrite <- Hpath. unfold verified_install. rewrite Hrec, Hintact. exact Hrun. }
  split; [exact Hreq|]. split; [exact Htools|]. split; [exact Hlookup|].
  split; [exact Hwritten|]. split; [exact Hentry|].
  split; [apply assoc_set_eq|]. split; [apply assoc_set_eq|].
  split; intros k Hk; apply assoc_set_ne, Hk.
Qed.

End Install.

(** The artifact arrives empty: its hash is not the declared one. *)
Lemma C2_witness :
  let P := Sample.platform Sample.corrupt_download in
  exists w',
    ensureToolInstalled YtDlp Sample.start
    = (Throw (Error (str "Checksum mismatch while installing yt-dlp")), w')
    /\ w_fs w' !! Sample.temp_path = None
    /\ w_fs w' !! Sample.binary_path = None.
Proof.
  intros P.
  pose (w1 := log_request Sample.manifest_url (tick Sample.start)).
  pose (w3 := log_request (rel_url Sample.linux_release) (tick w1)).
  assert (getRelease YtDlp Sample.start = (Ok Sample.linux_release, w1)) as H1
    by vm_refl.
  assert (verified_install YtDlp Sample.linux_release Sample.binary_path w1 = false)
    as H2 by vm_refl.
  assert (httpGetBuffer (rel_url Sample.linux_release) 0 (tick w1) = (Ok [], w3))
    as H3 by vm_refl.
  assert (sha256_hex [] <> rel_sha256 Sample.linux_release) as H4.
  { intros H. vm_compute in H. discriminate H. }
  destruct (C2_checksum_mismatch_leaves_nothing YtDlp Sample.start w1 w3
              Sample.linux_release [] H1 H2 H3 H4)
    as (w' & Hrun & Htemp & _ & Hbinary).
  exists w'. split; [exact Hrun|]. split; [exact Htemp|].
  transitivity (w_fs w1 !! Sample.binary_path); [|vm_refl].
  apply Hbinary. intros H. vm_compute in H. discriminate H.
Defined.

(** An install from the catalog at 10:00, and a second call at 11:00. *)
Lemma C5_witness :
  let P := Sample.platform Sample.install in
  ensureToolInstalled YtDlp Sample.start = (Ok Sample.binary_path, Sample.installed)
  /\ exists w3,
       ensureToolInstalled YtDlp Sample.installed = (Ok Sample.binary_path, w3)
       /\ w_requests w3 = w_requests Sample.installed.
Proof.
  intros P.
  pose (resolved :=
          set_fs (<[ Sample.cache_path :=
                       Sample.file (Sample.stringify 2 0
                                      (Sample.cached "2026-01-01T10:00:00.000Z"
                                         Sample.small_catalog)) ]> ∅)
            (set_mem (Sample.cached "2026-01-01T10:00:00.000Z" Sample.small_catalog)
               (tick (log_request Sample.manifest_url (tick Sample.start))))).
  assert (getRelease YtDlp Sample.start = (Ok Sample.small_release, resolved)) as H0
    by vm_refl.
  assert (ensureToolInstalled YtDlp Sample.start
          = (Ok Sample.binary_path, Sample.installed)) as H1 by vm_refl.
  assert (tools (local_manifest resolved) = JObj []) as H2 by vm_refl.
  assert (reads_back (recorded_manifest YtDlp Sample.small_release Sample.binary_path
                        resolved [])) as H3 by (unfold reads_back; vm_refl).
  assert (manifestPath <> remoteManifestCachePath) as H4.
  { intros H. vm_compute in H. discriminate H. }
  assert (manifestPath <> remoteManifestCachePath ++ str ".tmp") as H5.
  { intros H. vm_compute in H. discriminate H. }
  assert (getRelease YtDlp Sample.installed
          = (Ok Sample.small_release, tick Sample.installed)) as H6 by vm_refl.
  assert (intact Sample.small_release Sample.binary_path (tick Sample.installed) = true)
    as H7 by vm_refl.
  split; [exact H1|].
  destruct (C5_second_call_only_refreshes_lastVerifiedAt YtDlp Sample.small_release
              Sample.binary_path Sample.start resolved Sample.installed
              (tick Sample.installed) [] H0 H1 H2 H3 H4 H5 H6 H7)
    as (w3 & written & Hrun & Hreq & _).
  exists w3. split; [exact Hrun|exact Hreq].
Defined.

(** The manifest file holds an array as its tool table.  The first call
    installs the binary and sets the record on the array, which the JSON
    text of the manifest does not carry; the second call, with the same
    release and the binary as the first call left it, finds no record and
    downloads the artifact again. *)
Lemma C5_counterexample :
  let P := Sample.platform Sample.array_table in
  let w1 :=
    set_fs (<[ Sample.manifest_path :=
                 Sample.file (Sample.stringify 2 0 Sample.array_manifest) ]>
              (w_fs Sample.installed)) Sample.installed in
  let w2 :=
    {| w_fs := w_fs w1; w_mem := w_mem w1; w_tick := 9;
       w_requests := rel_url Sample.small_release :: w_requests w1;
       w_spawned := [] |} in
  tools (local_manifest Sample.array_start) = JArr []
  /\ fst (getRelease YtDlp Sample.array_start) = Ok Sample.small_release
  /\ ensureToolInstalled YtDlp Sample.array_start = (Ok Sample.binary_path, w1)
  /\ getRelease YtDlp w1 = (Ok Sample.small_release, tick w1)
  /\ intact Sample.small_release Sample.binary_path (tick w1) = true
  /\ ensureToolInstalled YtDlp w1 = (Ok Sample.binary_path, w2)
  /\ w_requests w2 = rel_url Sample.small_release :: w_requests (tick w1)
  /\ w_requests w2 <> w_requests (tick w1).
Proof.
  repeat split; try vm_refl.
  vm_compute. discriminate.
Qed.

(** ** Further properties of the manager *)

Section Frames.
Context {P : Platform}.
Context {X : Type} (f : World -> X).

Lemma keeps_ret {A} (a : A) : keeps f (ret a).
Proof. intros w. reflexivity. Qed.

Lemma keeps_throw {A} (e : error) : keeps f (throw (A := A) e).
Proof. intros w. reflexivity. Qed.

Lemma keeps_lift {A} (r : result A) : keeps f (lift r).
Proof. intros w. reflexivity. Qed.

Lemma keeps_bind {A B} (m : M A) (k : A -> M B) :
  keeps f m -> (forall a, keeps f (k a)) -> keeps f (bind m k).
Proof.
  intros Hm Hk w. unfold bind. specialize (Hm w).
  destruct (m w) as [[a|e] w1]; simpl in *; [|exact Hm].
  rewrite (Hk a w1). exact Hm.
Qed.

Lemma keeps_try_catch {A} (m : M A) (h : error -> M A) :
  keeps f m -> (forall e, keeps f (h e)) -> keeps f (try_catch m h).
Proof.
  intros Hm Hh w. unfold try_catch. specialize (Hm w).
  destruct (m w) as [[a|e] w1]; simpl in *; [exact Hm|].
  rewrite (Hh e w1). exact Hm.
Qed.

Lemma keeps_exists (filePath : jsstring) : keeps f (exists_ filePath).
Proof. intros w. reflexivity. Qed.

Lemma keeps_get_mem : keeps f get_mem.
Proof. intros w. reflexivity. Qed.

Lemma keeps_sha256 (filePath : jsstring) : keeps f (sha256 filePath).
Proof. intros w. unfold sha256. destruct (w_fs w !! filePath); reflexivity. Qed.

Lemma keeps_fs_readFile (filePath : jsstring) : keeps f (fs_readFile filePath).
Proof. intros w. unfold fs_readFile. destruct (w_fs w !! filePath); reflexivity. Qed.

Lemma keeps_fs_mkdir (dir : jsstring) : keeps f (fs_mkdir dir).
Proof. intros w. reflexivity. Qed.

Lemma keeps_fs_writeFile (filePath : jsstring) (data : Buffer) :
  fs_blind f -> keeps f (fs_writeFile filePath data).
Proof. intros Hf w. apply Hf. Qed.

Lemma keeps_fs_rm_force (filePath : jsstring) :
  fs_blind f -> keeps f (fs_rm_force filePath).
Proof. intros Hf w. apply Hf. Qed.

Lemma keeps_fs_rename (oldPath newPath : jsstring) :
  fs_blind f -> keeps f (fs_rename oldPath newPath).
Proof.
  intros Hf w. unfold fs_rename.
  destruct (w_fs w !! oldPath); [apply Hf|reflexivity].
Qed.

Lemma keeps_fs_rename_binary (oldPath newPath : jsstring) :
  fs_blind f -> keeps f (fs_rename_binary oldPath newPath).
Proof.
  intros Hf w. unfold fs_rename_binary.
  destruct (w_fs w !! oldPath); [|reflexivity].
  destruct (bool_decide (newPath ∈ made_directories)); [reflexivity|apply Hf].
Qed.

Lemma keeps_fs_chmod (filePath : jsstring) (mode : Z) :
  fs_blind f -> keeps f (fs_chmod filePath mode).
Proof.
  intros Hf w. unfold fs_chmod.
  destruct (w_fs w !! filePath); [apply Hf|reflexivity].
Qed.

Lemma keeps_put_mem (c : json) : mem_blind f -> keeps f (put_mem c).
Proof. intros Hf w. apply Hf. Qed.

Lemma keeps_Date_now : tick_blind f -> keeps f Date_now.
Proof. intros Hf w. apply Hf. Qed.

Lemma keeps_httpGetBuffer (target : jsstring) (redirectCount : nat) :
  request_blind f -> keeps f (httpGetBuffer target redirectCount).
Proof.
  intros Hf. unfold httpGetBuffer.
  generalize (6 - redirectCount)%nat as hops. intros hops.
  revert target redirectCount.
  induction hops as [|hops IH]; intros target redirectCount w; simpl;
    destruct (5 <? redirectCount)%nat; simpl; try reflexivity;
    destruct (https_get_accepts target); simpl; try apply Hf;
    destruct (net (length (w_requests w)) target) as [|sc loc body]; simpl;
    try apply Hf;
    destruct (is_redirect sc loc) as [next|]; simpl; try apply Hf;
    try (destruct (negb (is_200 sc)); simpl; [apply Hf|];
         destruct body; simpl; apply Hf).
  rewrite IH. apply Hf.
Qed.

Lemma keeps_execBinary (binaryPath : jsstring) (args : list jsstring) :
  fs_blind f -> spawn_blind f -> keeps f (execBinary binaryPath args).
Proof.
  intros Hfs Hsp w. unfold execBinary.
  destruct (proc binaryPath args (w_fs w)); simpl; [apply Hsp|].
  rewrite Hfs. apply Hsp.
Qed.

End Frames.

(** The composition of the frames of the parts. *)
Ltac blind := hnf; intros; reflexivity.

Ltac frame :=
  repeat first
    [ apply keeps_ret | apply keeps_throw | apply keeps_lift
    | apply keeps_exists | apply keeps_get_mem | apply keeps_sha256
    | apply keeps_fs_readFile | apply keeps_fs_mkdir
    | apply keeps_fs_writeFile; blind | apply keeps_fs_rm_force; blind
    | apply keeps_fs_rename; blind | apply keeps_fs_rename_binary; blind
    | apply keeps_fs_chmod; blind
    | apply keeps_put_mem; blind | apply keeps_Date_now; blind
    | apply keeps_httpGetBuffer; blind
    | apply keeps_execBinary; blind
    | apply keeps_bind; [|intros ?]
    | apply keeps_try_catch; [|intros ?]
    | assumption
    | case_match ].

Section NeverDoes.
Context {P : Platform}.

Lemma getRemoteManifest_keeps_spawned : keeps w_spawned getRemoteManifest.
Proof.
  unfold getRemoteManifest, readRemoteManifestDiskCache, refreshRemoteManifest,
    writeRemoteManifestDiskCache, now_iso.
  frame.
Qed.

Lemma ensureToolInstalled_keeps_spawned (tool : ToolName) :
  keeps w_spawned (ensureToolInstalled tool).
Proof.
  pose proof getRemoteManifest_keeps_spawned as Hcatalog.
  unfold ensureToolInstalled, getRelease, readManifest, validExistingInstall,
    currentHashMatches, refreshVerified, installRelease, downloadToFile,
    verifyReleaseIntegrity, writeManifest, now_iso.
  frame.
Qed.

Lemma downloadYoutubeAudio_keeps (ytDlpPath sourceUrl playlistId : jsstring) :
  keeps w_requests (downloadYoutubeAudio ytDlpPath sourceUrl playlistId)
  /\ keeps w_mem (downloadYoutubeAudio ytDlpPath sourceUrl playlistId)
  /\ keeps w_tick (downloadYoutubeAudio ytDlpPath sourceUrl playlistId).
Proof.
  unfold downloadYoutubeAudio. repeat split; frame.
Qed.

End NeverDoes.

Section Releases.
Context {P : Platform}.

Lemma toValidToolRelease_safe (value : jsval) (release : ToolRelease) :
  toValidToolRelease value = Some release ->
  includes (rel_binaryName release) 47%N = false
  /\ includes (rel_binaryName release) 92%N = false
  /\ trim (rel_binaryName release) <> [].
Proof.
  unfold toValidToolRelease.
  destruct value as [v|]; [|discriminate].
  destruct (negb (truthy v) || negb (is_object (Some v))); [discriminate|].
  destruct (as_string (get v (str "version"))); [|discriminate].
  destruct (as_string (get v (str "url"))); [|discriminate].
  destruct (as_string (get v (str "sha256"))); [|discriminate].
  destruct (as_string (get v (str "binaryName"))) as [name|]; [|discriminate].
  destruct (includes name 47%N) eqn:H1; [discriminate|].
  destruct (includes name 92%N) eqn:H2; [discriminate|].
  destruct (length (trim name) =? 0)%nat eqn:H3; [discriminate|].
  simpl. intros [= <-]. simpl. repeat split; try assumption.
  intros E. rewrite E in H3. discriminate H3.
Qed.

Lemma builtin_release_safe (tool : ToolName) (key : jsstring) (release : ToolRelease) :
  lookup_release key (BUILTIN_TOOL_RELEASES tool) = Some release ->
  includes (rel_binaryName release) 47%N = false
  /\ includes (rel_binaryName release) 92%N = false
  /\ trim (rel_binaryName release) <> [].
Proof.
  destruct tool; simpl; [|discriminate].
  repeat (destruct (streq _ key);
          [intros [= <-]; repeat split; try vm_refl;
           intros H; vm_compute in H; discriminate H|]).
  discriminate.
Qed.

(** X1.  A release that [getRelease] returns is the valid entry of the
    remote catalog for the tool and the platform key, or, when there is no
    such entry, the one of the built-in table; either way its binary name
    contains no slash and no backslash and is not blank. *)
Theorem X1_getRelease_binaryName_is_a_file_name
  (tool : ToolName) (w w' : World) (release : ToolRelease) :
  getRelease tool w = (Ok release, w') ->
  (exists manifest,
     getRemoteManifest w = (Ok manifest, w')
     /\ (toValidToolRelease (remote_entry manifest tool) = Some release
         \/ (toValidToolRelease (remote_entry manifest tool) = None
             /\ lookup_release getPlatformKey (BUILTIN_TOOL_RELEASES tool)
                = Some release)))
  /\ includes (rel_binaryName release) 47%N = false
  /\ includes (rel_binaryName release) 92%N = false
  /\ trim (rel_binaryName release) <> [].
Proof.
  intros H.
  destruct (getRemoteManifest_total w) as (manifest & w1 & Hm).
  rewrite (getRelease_run tool w manifest w1 Hm) in H.
  destruct (toValidToolRelease (remote_entry manifest tool)) as [remote|] eqn:Hremote.
  - injection H as <- <-. split; [eauto|].
    apply (toValidToolRelease_safe _ _ Hremote).
  - destruct (lookup_release getPlatformKey (BUILTIN_TOOL_RELEASES tool))
      as [builtin|] eqn:Hbuiltin; [|discriminate H].
    injection H as <- <-. split; [eauto|].
    apply (builtin_release_safe _ _ _ Hbuiltin).
Qed.

Lemma tmp_suffix_differs (path : jsstring) : path ++ str ".tmp" <> path.
Proof.
  intros H. apply (f_equal length) in H. rewrite length_app in H.
  change (length (str ".tmp")) with 4%nat in H. lia.
Qed.

Lemma successful_fetch_run (w : World) (manifest : json) (w1 : World) :
  must_fetch w ->
  fetchRemoteManifest (tick w) = (Ok manifest, w1) ->
  let cache := JObj [ (str "fetchedAt",
                       JStr (Date_toISOString (clock (S (w_tick w)))));
                      (str "manifest", manifest) ] in
  let tempPath := remoteManifestCachePath ++ str ".tmp" in
  exists mode,
    let written :=
      {| f_data := utf8_encode (JSON_stringify (Some 2%nat) cache);
         f_mode := mode |} in
    getRemoteManifest w
    = (Ok (Some manifest),
       set_fs (<[remoteManifestCachePath := written]>
                 (delete tempPath (<[tempPath := written]> (w_fs w))))
         (set_mem cache (tick w1))).
Proof.
  intros [Hm Hd] Hfetch cache tempPath.
  pose proof (fetchRemoteManifest_frame (tick w)) as Hframe.
  pose proof (httpGetBuffer_frame getRemoteManifestURL 0 (tick w)) as Htick.
  assert (w_tick w1 = S (w_tick w)) as Hclock.
  { unfold fetchRemoteManifest, bind, lift in Hfetch.
    destruct (httpGetBuffer getRemoteManifestURL 0 (tick w)) as [[r|e] w0];
      [|discriminate Hfetch].
    simpl in Htick. destruct Htick as (_ & _ & Ht & _).
    destruct (parseAndValidateRemoteManifest r); [|discriminate Hfetch].
    injection Hfetch as _ <-. exact Ht. }
  rewrite Hfetch in Hframe. simpl in Hframe. destruct Hframe as [Hfs _].
  rewrite getRemoteManifest_run, Hm, Hd, refreshRemoteManifest_fetch, Hfetch.
  unfold now_iso, writeRemoteManifestDiskCache.
  unfold bind, Date_now, ret, put_mem, fs_mkdir, fs_writeFile, fs_rename. simpl.
  rewrite lookup_insert_eq. simpl. rewrite Hclock, Hfs. fold cache tempPath.
  eexists. reflexivity.
Qed.

(** X2.  A fetch of the catalog that succeeds refreshes both caches with
    the same entry, stamped with the time read after the fetch: the memory
    cache holds it, the cache file holds its JSON text, no temporary file
    is left, no other file is touched, and the catalog fetched is
    returned. *)
Theorem X2_successful_fetch_refreshes_both_caches
  (w : World) (manifest : json) (w1 : World) :
  must_fetch w ->
  fetchRemoteManifest (tick w) = (Ok manifest, w1) ->
  let cache := JObj [ (str "fetchedAt",
                       JStr (Date_toISOString (clock (S (w_tick w)))));
                      (str "manifest", manifest) ] in
  exists w',
    getRemoteManifest w = (Ok (Some manifest), w')
    /\ w_mem w' = cache
    /\ (exists written,
          w_fs w' !! remoteManifestCachePath = Some written
          /\ f_data written = utf8_encode (JSON_stringify (Some 2%nat) cache))
    /\ w_fs w' !! (remoteManifestCachePath ++ str ".tmp") = None
    /\ (forall p, p <> remoteManifestCachePath ->
                  p <> remoteManifestCachePath ++ str ".tmp" ->
                  w_fs w' !! p = w_fs w !! p).
Proof.
  intros Hmust Hfetch cache.
  destruct (successful_fetch_run w manifest w1 Hmust Hfetch) as [mode Hrun].
  eexists. split; [exact Hrun|]. simpl. split; [reflexivity|]. split; [|split].
  - eexists. split; [apply lookup_insert_eq|reflexivity].
  - rewrite lookup_insert_ne by (symmetry; apply tmp_suffix_differs).
    apply lookup_delete_eq.
  - intros p Hp Htmp. apply replaced_lookup; assumption.
Qed.

(** X3.  While a cache is fresh, [getRemoteManifest] sends no request and
    writes no file: it returns the catalog of the memory cache when that
    one is fresh, and otherwise the catalog of the disk cache, which it
    also puts into the memory cache. *)
Theorem X3_fresh_cache_answers_without_network (w : World) :
  memory_fresh w = true \/ disk_fresh w = true ->
  let r := getRemoteManifest w in
  w_requests (snd r) = w_requests w
  /\ w_fs (snd r) = w_fs w
  /\ (memory_fresh w = true ->
      fst r = Ok (get (w_mem w) (str "manifest")) /\ w_mem (snd r) = w_mem w)
  /\ (memory_fresh w = false ->
      fst r = Ok (get (disk_cache w) (str "manifest"))
      /\ w_mem (snd r) = disk_cache w).
Proof.
  intros H. rewrite getRemoteManifest_run.
  destruct (memory_fresh w) eqn:Hm; simpl.
  - repeat split; intros; try reflexivity; discriminate.
  - destruct H as [H | H]; [discriminate H|]. rewrite H. simpl.
    repeat split; intros; try reflexivity; discriminate.
Qed.

(** X4.  After a fetch that succeeded, a second call made less than six
    hours (by the clock) after the stamp of the entry is answered from the
    memory cache: same catalog, no request, nothing changed but the count
    of clock readings.  The platform is assumed to parse the date it has
    just printed. *)
Theorem X4_second_lookup_within_ttl_is_cached
  (w : World) (manifest : json) (w1 w' : World) :
  must_fetch w ->
  fetchRemoteManifest (tick w) = (Ok manifest, w1) ->
  getRemoteManifest w = (Ok (Some manifest), w') ->
  let stamp := clock (S (w_tick w)) in
  Date_parse (Some (JStr (Date_toISOString stamp))) = Some stamp ->
  clock (w_tick w') - stamp < REMOTE_MANIFEST_CACHE_TTL_MS ->
  getRemoteManifest w' = (Ok (Some manifest), tick w').
Proof.
  intros Hmust Hfetch Hrun stamp Hparse Hage.
  destruct (successful_fetch_run w manifest w1 Hmust Hfetch) as [mode Hrun2].
  rewrite Hrun in Hrun2.
  assert (w_mem w' = JObj [ (str "fetchedAt", JStr (Date_toISOString stamp));
                            (str "manifest", manifest) ]) as Hmem.
  { injection Hrun2 as ->. reflexivity. }
  clear Hrun2. rewrite getRemoteManifest_run.
  assert (memory_fresh w' = true) as ->.
  { unfold memory_fresh, is_fresh. rewrite Hmem. simpl.
    rewrite Hparse. apply Z.ltb_lt. exact Hage. }
  rewrite Hmem. reflexivity.
Qed.

End Releases.

Section Stores.
Context {P : Platform}.

(** X5.  [readManifest] never fails and changes nothing.  The manifest it
    returns has a truthy tool table, and is the empty manifest when the
    file is missing, when it does not parse, when it parses to null and
    when it has no truthy [tools] property. *)
Theorem X5_readManifest_never_fails (w : World) :
  (exists manifest, readManifest w = (Ok manifest, w)
                    /\ truthy (tools manifest) = true)
  /\ (w_fs w !! manifestPath = None -> readManifest w = (Ok empty_manifest, w))
  /\ (forall f,
        w_fs w !! manifestPath = Some f ->
        match JSON_parse (utf8_decode (f_data f)) with
        | None | Some JNull => readManifest w = (Ok empty_manifest, w)
        | Some parsed =>
            readManifest w
            = (Ok (if truthyv (get parsed (str "tools"))
                   then {| tools := default JNull (get parsed (str "tools")) |}
                   else empty_manifest), w)
        end).
Proof.
  unfold readManifest, bind, try_catch, exists_, fs_readFile, ret, throw.
  destruct (w_fs w !! manifestPath) as [f|] eqn:Hf.
  - rewrite bool_decide_eq_true_2 by eauto. simpl. rewrite Hf.
    assert (forall parsed,
              truthy (match get parsed (str "tools") with
                      | Some t => if truthy t then t else JObj []
                      | None => JObj []
                      end) = true) as Htruthy.
    { intros parsed. destruct (get parsed (str "tools")) as [t|]; [|reflexivity].
      destruct (truthy t) eqn:E; [exact E|reflexivity]. }
    split; [|split; [discriminate|]].
    + destruct (JSON_parse (utf8_decode (f_data f))) as [parsed|];
        [|eexists; split; reflexivity].
      destruct parsed; eexists; (split; [reflexivity|]);
        first [reflexivity | apply Htruthy].
    + intros f' [= <-].
      destruct (JSON_parse (utf8_decode (f_data f))) as [parsed|]; [|reflexivity].
      destruct parsed; try reflexivity;
        simpl; destruct (assoc (str "tools") props) as [t|]; simpl;
        try reflexivity; destruct (truthy t); reflexivity.
  - rewrite bool_decide_eq_false_2 by (intros [x Hx]; discriminate Hx). simpl.
    split; [eexists; split; reflexivity|]. split; [reflexivity|].
    intros f Hx. discriminate Hx.
Qed.

(** X6.  [writeManifest] writes the JSON text of the manifest to the
    manifest path through a temporary file that it does not leave behind,
    and touches no other file; when that text parses back, [readManifest]
    then returns the manifest written. *)
Theorem X6_writeManifest_then_readManifest (manifest : ToolManifest) (w : World) :
  truthy (tools manifest) = true ->
  reads_back (JObj [ (str "tools", tools manifest) ]) ->
  exists w',
    writeManifest manifest w = (Ok tt, w')
    /\ readManifest w' = (Ok manifest, w')
    /\ w_fs w' !! (manifestPath ++ str ".tmp") = None
    /\ (forall p, p <> manifestPath -> p <> manifestPath ++ str ".tmp" ->
                  w_fs w' !! p = w_fs w !! p)
    /\ w_requests w' = w_requests w /\ w_mem w' = w_mem w.
Proof.
  intros Htruthy Hback.
  unfold writeManifest, fs_mkdir.
  unfold bind, ret, fs_writeFile, fs_rename. simpl.
  rewrite lookup_insert_eq.
  eexists. split; [reflexivity|]. split; [|split; [|split]].
  - unfold readManifest, bind, try_catch, exists_, fs_readFile, ret, throw. simpl.
    rewrite lookup_insert_eq.
    rewrite bool_decide_eq_true_2 by eauto. simpl.
    rewrite lookup_insert_eq. simpl.
    unfold reads_back in Hback. rewrite Hback. simpl.
    rewrite Htruthy. destruct manifest. reflexivity.
  - simpl. rewrite lookup_insert_ne by (symmetry; apply tmp_suffix_differs).
    apply lookup_delete_eq.
  - simpl. intros p Hp Htmp. apply replaced_lookup; assumption.
  - split; reflexivity.
Qed.

(** X7.  [readRemoteManifestDiskCache] never fails and changes nothing.
    It returns null when the cache file is missing or does not parse, and
    what it returns otherwise has a truthy [manifest] and a truthy
    [fetchedAt]. *)
Theorem X7_readRemoteManifestDiskCache_never_fails (w : World) :
  (exists cache,
     readRemoteManifestDiskCache w = (Ok cache, w)
     /\ (cache = JNull
         \/ (truthyv (get cache (str "manifest")) = true
             /\ truthyv (get cache (str "fetchedAt")) = true)))
  /\ (w_fs w !! remoteManifestCachePath = None ->
      readRemoteManifestDiskCache w = (Ok JNull, w))
  /\ (forall f,
        w_fs w !! remoteManifestCachePath = Some f ->
        JSON_parse (utf8_decode (f_data f)) = None ->
        readRemoteManifestDiskCache w = (Ok JNull, w)).
Proof.
  unfold readRemoteManifestDiskCache, bind, try_catch, exists_, fs_readFile,
    ret, throw.
  destruct (w_fs w !! remoteManifestCachePath) as [f|] eqn:Hf.
  - rewrite bool_decide_eq_true_2 by eauto. simpl. rewrite Hf.
    split; [|split; [discriminate|]].
    + destruct (JSON_parse (utf8_decode (f_data f))) as [parsed|];
        [|eexists; split; [reflexivity|left; reflexivity]].
      destruct (truthyv (get parsed (str "manifest"))) eqn:E1; simpl;
        [|eexists; split; [reflexivity|left; reflexivity]].
      destruct (truthyv (get parsed (str "fetchedAt"))) eqn:E2; simpl;
        eexists; (split; [reflexivity|]); [right; split; assumption|left; reflexivity].
    + intros f' [= <-] ->. reflexivity.
  - rewrite bool_decide_eq_false_2 by (intros [x Hx]; discriminate Hx). simpl.
    split; [eexists; split; [reflexivity|left; reflexivity]|].
    split; [reflexivity|]. intros f Hx. discriminate Hx.
Qed.




End Stores.

Section InstallOutcomes.
Context {P : Platform}.


(** The install attempt, when its verification step throws. *)
Lemma installRelease_verify_fails (tool : ToolName) (release : ToolRelease)
  (binaryPath tempPath : jsstring) (manifest : ToolManifest)
  (w : World) (body : Buffer) (w3 : World) (e : error) :
  httpGetBuffer (rel_url release) 0 w = (Ok body, w3) ->
  (forall w4 f, w_fs w4 !! tempPath = Some f -> f_data f = body ->
                verifyReleaseIntegrity tool tempPath release w4 = (Throw e, w4)) ->
  exists mode,
    installRelease tool release binaryPath tempPath manifest w
    = (Throw e,
       set_fs (<[tempPath := {| f_data := body; f_mode := mode |}]> (w_fs w3)) w3).
Proof.
  intros Hget Hverify. eexists.
  unfold installRelease, downloadToFile.
  unfold bind at 1. unfold bind at 1. rewrite Hget.
  unfold fs_writeFile. unfold bind at 1.
  erewrite Hverify; [reflexivity | apply lookup_insert_eq | reflexivity].
Qed.

(** The [catch] of [ensureToolInstalled] after a failure that left the
    temporary file behind. *)
Lemma failed_attempt_cleaned (tool : ToolName) (w w1 w3 : World)
  (release : ToolRelease) (body : Buffer) (e : error) (mode : Z) :
  let binaryPath := path_join binDir (rel_binaryName release) in
  let tempPath := tempPathFor release (clock (w_tick w1)) in
  getRelease tool w = (Ok release, w1) ->
  verified_install tool release binaryPath w1 = false ->
  httpGetBuffer (rel_url release) 0 (tick w1) = (Ok body, w3) ->
  installRelease tool release binaryPath tempPath (local_manifest w1) (tick w1)
  = (Throw e,
     set_fs (<[tempPath := {| f_data := body; f_mode := mode |}]> (w_fs w3)) w3) ->
  exists w',
    ensureToolInstalled tool w = (Throw e, w')
    /\ w_fs w' !! tempPath = None
    /\ (forall p, p <> tempPath -> w_fs w' !! p = w_fs w1 !! p).
Proof.
  intros binaryPath tempPath Hrel Hnot Hget Hinst.
  rewrite (ensureToolInstalled_run tool w release w1 Hrel).
  fold binaryPath tempPath. simpl. rewrite Hnot.
  unfold try_catch. rewrite Hinst.
  unfold bind, fs_rm_force, throw. simpl.
  eexists. split; [reflexivity|]. simpl.
  pose proof (httpGetBuffer_frame (rel_url release) 0 (tick w1)) as Hframe.
  rewrite Hget in Hframe. simpl in Hframe. destruct Hframe as [Hfs _].
  split; [apply lookup_delete_eq|].
  intros p Hp. rewrite lookup_delete_ne by congruence.
  rewrite lookup_insert_ne by congruence. rewrite Hfs. reflexivity.
Qed.

(** X9.  In an install attempt whose download succeeds with the declared
    hash, for a release that carries a signature and a key, a signature that
    does not verify over ["<tool>@<version>:<hash>"] fails the call with an
    error of the signature check; no file is left at the temporary path and
    every other path, the final binary path among them, holds what it held
    before the attempt. *)
Theorem X9_invalid_release_signature_fails_the_install
  (tool : ToolName) (w w1 w3 : World) (release : ToolRelease) (body : Buffer)
  (signature key : json) :
  let binaryPath := path_join binDir (rel_binaryName release) in
  let tempPath := tempPathFor release (clock (w_tick w1)) in
  getRelease tool w = (Ok release, w1) ->
  verified_install tool release binaryPath w1 = false ->
  httpGetBuffer (rel_url release) 0 (tick w1) = (Ok body, w3) ->
  sha256_hex body = rel_sha256 release ->
  is_signed release signature key ->
  ~ verifies signature key (release_payload tool release) ->
  exists e w',
    ensureToolInstalled tool w = (Throw e, w')
    /\ release_signature_error tool e
    /\ w_fs w' !! tempPath = None
    /\ (forall p, p <> tempPath -> w_fs w' !! p = w_fs w1 !! p).
Proof.
  intros binaryPath tempPath Hrel Hnot Hget Hhash Hsigned Hno.
  assert (exists e,
            release_signature_error tool e
            /\ forall w4 f, w_fs w4 !! tempPath = Some f -> f_data f = body ->
                 verifyReleaseIntegrity tool tempPath release w4 = (Throw e, w4))
    as (e & He & Hverify).
  { pose proof (check_signature_ok signature key (release_payload tool release)
                  (str "Signature verification failed for " ++ tool_name tool)) as Hok.
    destruct (check_signature signature key (release_payload tool release)
                (str "Signature verification failed for " ++ tool_name tool))
      as [[]|e] eqn:Hcheck.
    - exfalso. apply Hno, Hok. reflexivity.
    - exists e. split.
      + unfold check_signature, release_signature_error in *.
        destruct (Buffer_from_base64 signature) as [sig|];
          [|injection Hcheck as <-; auto].
        destruct (crypto_verify (release_payload tool release) key sig) as [[|]|];
          [discriminate Hcheck | injection Hcheck as <-; auto
          | injection Hcheck as <-; auto].
      + intros w4 f Hfile Hdata.
        destruct Hsigned as (Hs & Hk & Hts & Htk).
        unfold verifyReleaseIntegrity, bind, sha256.
        rewrite Hfile, Hdata, Hhash, streq_refl. cbn [negb].
        rewrite Hs, Hk, Hts, Htk. cbn [andb]. unfold lift.
        unfold release_payload in Hcheck. rewrite Hcheck. reflexivity. }
  destruct (installRelease_verify_fails tool release binaryPath tempPath
              (local_manifest w1) (tick w1) body w3 e Hget Hverify) as [mode Hinst].
  destruct (failed_attempt_cleaned tool w w1 w3 release body e mode
              Hrel Hnot Hget Hinst) as (w' & Hrun & Htemp & Hother).
  exists e, w'. auto.
Qed.


End InstallOutcomes.

Section Requests.
Context {P : Platform}.

Lemma keeps_tail_bind {A B X} (f : World -> X) (m : M A) (k : A -> M B) (w : World) :
  (forall a, keeps f (k a)) -> f (snd (bind m k w)) = f (snd (m w)).
Proof.
  intros Hk. unfold bind. destruct (m w) as [[a|e] w1]; simpl; [apply Hk|reflexivity].
Qed.

Lemma keeps_tail_try_catch {A X} (f : World -> X) (m : M A) (h : error -> M A)
  (w : World) :
  (forall e, keeps f (h e)) -> f (snd (try_catch m h w)) = f (snd (m w)).
Proof.
  intros Hh. unfold try_catch.
  destruct (m w) as [[a|e] w1]; simpl; [reflexivity|apply Hh].
Qed.

Lemma httpGetBuffer_hops_requests (hops : nat) :
  forall (target : jsstring) (redirectCount : nat) (w : World),
  exists sent,
    w_requests (snd (httpGetBuffer_hops hops target redirectCount w))
    = sent ++ w_requests w
    /\ (length sent <= 6 - redirectCount)%nat
    /\ ((redirectCount <= 5)%nat -> last sent = Some target).
Proof.
  induction hops as [|hops IH]; intros target redirectCount w; simpl;
    (destruct (5 <? redirectCount)%nat eqn:E; simpl;
     [apply Nat.ltb_lt in E; exists []; split; [reflexivity|split; [simpl; lia|lia]]|]);
    apply Nat.ltb_ge in E;
    (assert (exists sent, target :: w_requests w = sent ++ w_requests w
                         /\ (length sent <= 6 - redirectCount)%nat
                         /\ ((redirectCount <= 5)%nat -> last sent = Some target))
      as Hone by (exists [target]; split; [reflexivity|split; [simpl; lia|reflexivity]]));
    destruct (https_get_accepts target); simpl; try exact Hone;
    destruct (net (length (w_requests w)) target) as [|sc loc body]; simpl;
    try exact Hone;
    destruct (is_redirect sc loc) as [next|]; simpl; try exact Hone;
    try (destruct (negb (is_200 sc)); simpl; [exact Hone|];
         destruct body; simpl; exact Hone).
  destruct (IH next (S redirectCount) (log_request target w))
    as (sent & Hsent & Hlen & _).
  exists (sent ++ [target]). rewrite Hsent. simpl.
  rewrite <- app_assoc. split; [reflexivity|]. split.
  - rewrite length_app. simpl. lia.
  - intros _. apply last_snoc.
Qed.

(** X11.  One call of [httpGetBuffer] calls [https.get] at least once
    and at most six times, the first time on the address it is given, after
    the calls already recorded; it changes no file, not the memory cache,
    and reads no clock. *)
Theorem X11_httpGetBuffer_calls_https_get_at_most_six_times
  (target : jsstring) (w : World) :
  let w' := snd (httpGetBuffer target 0 w) in
  (exists sent,
     w_requests w' = sent ++ w_requests w
     /\ (1 <= length sent <= 6)%nat
     /\ last sent = Some target)
  /\ w_fs w' = w_fs w /\ w_mem w' = w_mem w /\ w_tick w' = w_tick w
  /\ w_spawned w' = w_spawned w.
Proof.
  split; [|apply httpGetBuffer_frame].
  destruct (httpGetBuffer_hops_requests 6 target 0 w) as (sent & Hsent & Hlen & Hlast).
  exists sent. split; [exact Hsent|].
  specialize (Hlast ltac:(lia)). split; [|exact Hlast].
  split; [|simpl in Hlen; lia].
  destruct sent; [discriminate Hlast|simpl; lia].
Qed.

(** X12.  When the manifest records the resolved release at the binary
    path but the file there no longer hashes to the recorded hash, the
    call does not trust the record: it requests the artifact of the release
    again, right after resolving the release. *)
Theorem X12_tampered_binary_is_downloaded_again
  (tool : ToolName) (w w1 : World) (release : ToolRelease) (f : File) :
  let binaryPath := path_join binDir (rel_binaryName release) in
  getRelease tool w = (Ok release, w1) ->
  recordMatches tool release binaryPath (local_manifest w1) = true ->
  w_fs w1 !! binaryPath = Some f ->
  sha256_hex (f_data f) <> rel_sha256 release ->
  verified_install tool release binaryPath w1 = false
  /\ exists later,
       w_requests (snd (ensureToolInstalled tool w))
       = later ++ rel_url release :: w_requests w1.
Proof.
  intros binaryPath Hrel Hrec Hfile Hhash.
  assert (verified_install tool release binaryPath w1 = false) as Hnot.
  { unfold verified_install, intact. rewrite Hrec, Hfile. simpl.
    apply streq_false. exact Hhash. }
  split; [exact Hnot|].
  rewrite (ensureToolInstalled_run tool w release w1 Hrel).
  fold binaryPath. simpl. rewrite Hnot.
  rewrite keeps_tail_try_catch by (intros e; frame).
  unfold installRelease. rewrite keeps_tail_bind.
  2:{ intros []. unfold verifyReleaseIntegrity, writeManifest, now_iso. frame. }
  unfold downloadToFile. rewrite keeps_tail_bind by (intros body; frame).
  destruct (httpGetBuffer_hops_requests 6 (rel_url release) 0 (tick w1))
    as (sent & Hsent & _ & Hlast).
  specialize (Hlast ltac:(lia)).
  apply last_Some in Hlast as [later ->].
  exists later. unfold httpGetBuffer. simpl Nat.sub. rewrite Hsent.
  rewrite <- app_assoc. reflexivity.
Qed.

(** X13.  [ensureToolInstalled] never spawns a process, and
    [downloadYoutubeAudio] sends no request, reads no clock and leaves the
    memory cache alone, whatever they return. *)
Theorem X13_install_spawns_nothing_and_extraction_requests_nothing
  (tool : ToolName) (ytDlpPath sourceUrl playlistId : jsstring) :
  keeps w_spawned (ensureToolInstalled tool)
  /\ keeps w_requests (downloadYoutubeAudio ytDlpPath sourceUrl playlistId)
  /\ keeps w_mem (downloadYoutubeAudio ytDlpPath sourceUrl playlistId)
  /\ keeps w_tick (downloadYoutubeAudio ytDlpPath sourceUrl playlistId).
Proof.
  split; [apply ensureToolInstalled_keeps_spawned|apply downloadYoutubeAudio_keeps].
Qed.

End Requests.

Section InstallSuccess.
Context {P : Platform}.




(** The Verified branch: the world it leaves. *)
Lemma refreshVerified_files (tool : ToolName) (binaryPath : jsstring)
  (manifest : ToolManifest) (props tprops : list (jsstring * json))
  (w : World) (f : File) :
  tools manifest = JObj tprops ->
  assoc (tool_name tool) tprops = Some (JObj props) ->
  w_fs w !! binaryPath = Some f ->
  exists text mode,
    refreshVerified tool binaryPath manifest w
    = (Ok binaryPath,
       set_fs (<[manifestPath := {| f_data := text; f_mode := mode |}]>
                 (delete (manifestPath ++ str ".tmp")
                    (<[manifestPath ++ str ".tmp" := {| f_data := text; f_mode := mode |}]>
                       (<[binaryPath := {| f_data := f_data f; f_mode := 493 |}]>
                          (w_fs w)))))
         (tick w)).
Proof.
  intros Htools Hentry Hfile.
  unfold refreshVerified. unfold bind at 1. unfold fs_chmod. rewrite Hfile.
  unfold bind at 1. unfold now_iso, bind at 1. unfold Date_now at 1.
  unfold ret at 1.
  unfold bind at 1. unfold lift, set_tool. rewrite Htools. simpl get.
  rewrite Hentry. simpl spread.
  unfold writeManifest, fs_mkdir. unfold bind, ret, fs_writeFile, fs_rename.
  simpl. rewrite lookup_insert_eq.
  eexists. eexists. reflexivity.
Qed.

(** X15.  When the manifest records the resolved release at the binary
    path and the file there hashes to the recorded hash, the call returns
    the binary path without a request after the release is resolved: the
    binary keeps its bytes and gets mode 0o755, and no file changes but the
    binary, the manifest and the temporary file of the manifest, which is
    not left behind. *)
Theorem X15_verified_install_keeps_the_binary
  (tool : ToolName) (w w1 : World) (release : ToolRelease) :
  let binaryPath := path_join binDir (rel_binaryName release) in
  getRelease tool w = (Ok release, w1) ->
  verified_install tool release binaryPath w1 = true ->
  binaryPath <> manifestPath -> binaryPath <> manifestPath ++ str ".tmp" ->
  exists w' f,
    ensureToolInstalled tool w = (Ok binaryPath, w')
    /\ w_fs w1 !! binaryPath = Some f
    /\ w_fs w' !! binaryPath = Some {| f_data := f_data f; f_mode := 493 |}
    /\ sha256_hex (f_data f) = rel_sha256 release
    /\ w_requests w' = w_requests w1
    /\ w_fs w' !! (manifestPath ++ str ".tmp") = None
    /\ (forall p, p <> binaryPath -> p <> manifestPath ->
                  p <> manifestPath ++ str ".tmp" ->
                  w_fs w' !! p = w_fs w1 !! p).
Proof.
  intros binaryPath Hrel Hv Hbm Hbt.
  rewrite (ensureToolInstalled_run tool w release w1 Hrel).
  fold binaryPath. simpl. rewrite Hv.
  unfold verified_install in Hv. apply andb_prop in Hv as [Hrec Hintact].
  destruct (recordMatches_entry tool release binaryPath (local_manifest w1) Hrec)
    as (props & tprops & Htools & Hentry & _).
  unfold intact in Hintact.
  destruct (w_fs w1 !! binaryPath) as [f|] eqn:Hfile; [|discriminate Hintact].
  apply streq_true in Hintact.
  destruct (refreshVerified_files tool binaryPath (local_manifest w1) props tprops
              w1 f Htools Hentry Hfile) as (text & mode & Hrun).
  rewrite Hrun. eexists. exists f. split; [reflexivity|]. simpl.
  split; [reflexivity|]. split; [|split; [exact Hintact|split; [reflexivity|split]]].
  - rewrite lookup_insert_ne by congruence.
    rewrite lookup_delete_ne by congruence.
    rewrite lookup_insert_ne by congruence.
    apply lookup_insert_eq.
  - rewrite lookup_insert_ne by (symmetry; apply tmp_suffix_differs).
    apply lookup_delete_eq.
  - intros p Hpb Hpm Hpt. rewrite replaced_lookup by assumption.
    apply lookup_insert_ne. congruence.
Qed.

End InstallSuccess.

Section ExtractionContract.
Context {P : Platform}.

Lemma filter_all (keep : N -> bool) (s : jsstring) :
  (forall c, c ∈ s -> keep c = true) -> filter (fun c => keep c = true) s = s.
Proof.
  unfold jsstring in *.
  induction s as [|c s IH]; intros H; [reflexivity|].
  rewrite filter_cons_True by (apply H; left).
  f_equal. apply IH. intros d Hd. apply H. right. exact Hd.
Qed.

(** X16.  The directory name made from a playlist id is never empty, has
    only characters of [[a-zA-Z0-9-_]], so no path separator and no dot,
    and is the id itself when the id is already such a name; cleaning a
    cleaned id changes nothing. *)
Theorem X16_safePlaylistId_is_a_safe_directory_name (playlistId : jsstring) :
  let safe := safePlaylistId playlistId in
  safe <> []
  /\ (forall c, c ∈ safe -> is_safe_id_char c = true)
  /\ includes safe 47 = false /\ includes safe 92 = false /\ includes safe 46 = false
  /\ safePlaylistId safe = safe
  /\ (playlistId <> [] -> (forall c, c ∈ playlistId -> is_safe_id_char c = true) ->
      safe = playlistId)
  /\ ((forall c, c ∈ playlistId -> is_safe_id_char c = false) -> safe = str "default").
Proof.
  intros safe.
  assert (safe <> []) as Hne.
  { unfold safe, safePlaylistId.
    destruct (filter (fun c => is_safe_id_char c = true) playlistId); discriminate. }
  assert (forall c, c ∈ safe -> is_safe_id_char c = true) as Hall.
  { unfold safe, safePlaylistId. intros c.
    destruct (filter (fun c => is_safe_id_char c = true) playlistId) as [|d kept] eqn:E;
      simpl.
    - intros H. repeat (apply elem_of_cons in H as [-> | H]; [reflexivity|]).
      inversion H.
    - rewrite <- E. intros H. apply list_elem_of_filter in H as [H _]. exact H. }
  assert (forall c, is_safe_id_char c = false -> includes safe c = false) as Hout.
  { intros c Hc. unfold includes. apply bool_decide_eq_false_2.
    intros H. apply Hall in H. congruence. }
  assert (forall s, s <> [] -> (forall c, c ∈ s -> is_safe_id_char c = true) ->
            safePlaylistId s = s) as Hid.
  { intros s Hs H. unfold safePlaylistId. rewrite filter_all by exact H.
    destruct s; [contradiction|reflexivity]. }
  split; [exact Hne|]. split; [exact Hall|].
  split; [apply Hout; reflexivity|]. split; [apply Hout; reflexivity|].
  split; [apply Hout; reflexivity|]. split; [apply Hid; assumption|].
  split; [intros Hs H; apply Hid; assumption|].
  intros Hnone. unfold safe, safePlaylistId.
  replace (filter (fun c => is_safe_id_char c = true) playlistId) with (@nil N);
    [reflexivity|].
  symmetry. clear -Hnone. unfold jsstring in *.
  induction playlistId as [|c s IH]; [reflexivity|].
  rewrite filter_cons_False.
  - apply IH. intros d Hd. apply Hnone. right. exact Hd.
  - rewrite (Hnone c) by left. discriminate.
Qed.

Lemma split_lines_from_step (c : N) (tail cur : jsstring) :
  c <> 10%N -> c <> 13%N ->
  split_lines_from cur (c :: tail) = split_lines_from (c :: cur) tail.
Proof.
  intros H10 H13. simpl.
  apply N.eqb_neq in H10. apply N.eqb_neq in H13. rewrite H10.
  destruct tail; [reflexivity|]. rewrite H13. reflexivity.
Qed.

Lemma split_lines_from_line (s : jsstring) :
  no_line_end s ->
  forall cur rest,
    split_lines_from cur (s ++ 10%N :: rest) = (rev cur ++ s) :: split_lines_from [] rest
    /\ split_lines_from cur (s ++ 13%N :: 10%N :: rest)
       = (rev cur ++ s) :: split_lines_from [] rest.
Proof.
  induction s as [|c s IH]; intros Hs cur rest.
  - rewrite app_nil_r. split; reflexivity.
  - destruct (Hs c ltac:(left)) as [H10 H13].
    assert (no_line_end s) as Hs' by (intros d Hd; apply Hs; right; exact Hd).
    destruct (IH Hs' (c :: cur) rest) as [IH1 IH2].
    simpl app. rewrite !split_lines_from_step by assumption.
    rewrite IH1, IH2. simpl rev. rewrite <- app_assoc. split; reflexivity.
Qed.

Lemma split_lines_from_last (s : jsstring) :
  no_line_end s -> forall cur, split_lines_from cur s = [rev cur ++ s].
Proof.
  induction s as [|c s IH]; intros Hs cur.
  - rewrite app_nil_r. reflexivity.
  - destruct (Hs c ltac:(left)) as [H10 H13].
    rewrite split_lines_from_step by assumption.
    rewrite IH by (intros d Hd; apply Hs; right; exact Hd).
    simpl rev. rewrite <- app_assoc. reflexivity.
Qed.

Lemma no_line_end_check (s : jsstring) :
  forallb (fun c => negb ((c =? 10) || (c =? 13))%N) s = true -> no_line_end s.
Proof.
  intros H c Hc. apply list_elem_of_In in Hc.
  rewrite forallb_forall in H. specialize (H c Hc).
  apply negb_true_iff, orb_false_elim in H as [H10 H13].
  apply N.eqb_neq in H10. apply N.eqb_neq in H13. auto.
Qed.

(** The lines of an output of two printed lines, each with its line end. *)
Lemma output_lines_two (first second eol1 eol2 : jsstring) :
  printed_line first -> printed_line second ->
  eol1 = [10%N] \/ eol1 = [13%N; 10%N] ->
  eol2 = [] \/ eol2 = [10%N] \/ eol2 = [13%N; 10%N] ->
  output_lines (first ++ eol1 ++ second ++ eol2) = [first; second].
Proof.
  intros (Hne1 & Htrim1 & Hend1) (Hne2 & Htrim2 & Hend2) Heol1 Heol2.
  assert (split_lines_from [] (second ++ eol2) = [second]
          \/ split_lines_from [] (second ++ eol2) = [second; []]) as Htail.
  { destruct Heol2 as [-> | [-> | ->]].
    - left. rewrite app_nil_r. apply (split_lines_from_last second Hend2 []).
    - right. apply (proj1 (split_lines_from_line second Hend2 [] [])).
    - right. apply (proj2 (split_lines_from_line second Hend2 [] [])). }
  assert (split_lines (first ++ eol1 ++ second ++ eol2)
          = first :: split_lines_from [] (second ++ eol2)) as Hsplit.
  { unfold split_lines. destruct Heol1 as [-> | ->].
    - apply (proj1 (split_lines_from_line first Hend1 [] _)).
    - apply (proj2 (split_lines_from_line first Hend1 [] _)). }
  assert (nonempty first = true) as Hn1 by (destruct first; [contradiction|reflexivity]).
  assert (nonempty second = true) as Hn2 by (destruct second; [contradiction|reflexivity]).
  unfold output_lines. rewrite Hsplit.
  destruct Htail as [-> | ->]; simpl map; rewrite Htrim1, Htrim2;
    rewrite filter_cons_True by exact Hn1;
    rewrite filter_cons_True by exact Hn2; [reflexivity|].
  rewrite filter_cons_False by (simpl; discriminate). reflexivity.
Qed.

(** X17.  When the extraction process exits with 0 after printing a title
    and then the path of a file that is there, each on its line (ended by a
    line feed or by a carriage return and a line feed; the last line end may
    miss), [downloadYoutubeAudio] returns that title and that path. *)
Theorem X17_printed_title_and_path_are_returned
  (ytDlpPath sourceUrl playlistId : jsstring) (w : World)
  (printedTitle filePath eol1 eol2 err : jsstring) (files : gmap jsstring File) :
  let args := downloadArgs (path_join mediaDir (safePlaylistId playlistId)) sourceUrl in
  printed_line printedTitle -> printed_line filePath ->
  eol1 = [10%N] \/ eol1 = [13%N; 10%N] ->
  eol2 = [] \/ eol2 = [10%N] \/ eol2 = [13%N; 10%N] ->
  proc ytDlpPath args (w_fs w)
  = Closed (Some 0) (printedTitle ++ eol1 ++ filePath ++ eol2) err files ->
  is_Some (files !! filePath) ->
  downloadYoutubeAudio ytDlpPath sourceUrl playlistId w
  = (Ok (printedTitle, filePath), set_fs files (log_spawn ytDlpPath args w)).
Proof.
  intros args Htitle Hpath Heol1 Heol2 Hproc Hfile.
  pose proof (output_lines_two printedTitle filePath eol1 eol2 Htitle Hpath Heol1 Heol2)
    as Hlines.
  destruct Htitle as (Hne1 & _). destruct Hpath as (Hne2 & _).
  unfold downloadYoutubeAudio, bind, fs_mkdir, ret, execBinary.
  fold args. rewrite Hproc. simpl. rewrite Hlines. simpl.
  destruct filePath as [|c p]; [contradiction|]. simpl.
  unfold exists_. simpl. rewrite bool_decide_eq_true_2 by exact Hfile. simpl.
  destruct printedTitle; [contradiction|reflexivity].
Qed.

(** What a successful extraction has gone through. *)
Lemma downloadYoutubeAudio_Ok_inv (ytDlpPath sourceUrl playlistId : jsstring)
  (w w' : World) (t p : jsstring) :
  let args := downloadArgs (path_join mediaDir (safePlaylistId playlistId)) sourceUrl in
  downloadYoutubeAudio ytDlpPath sourceUrl playlistId w = (Ok (t, p), w') ->
  exists out err files,
    proc ytDlpPath args (w_fs w) = Closed (Some 0) out err files
    /\ w' = set_fs files (log_spawn ytDlpPath args w)
    /\ head (output_lines out) = Some t
    /\ last (output_lines out) = Some p
    /\ is_Some (files !! p).
Proof.
  intros args H.
  unfold downloadYoutubeAudio, bind, fs_mkdir, ret, execBinary in H.
  fold args in H.
  destruct (proc ytDlpPath args (w_fs w)) as [|c out err files] eqn:Hproc;
    [discriminate H|].
  simpl in H.
  destruct c as [n|]; [|discriminate H].
  destruct (n =? 0) eqn:Hn; [|discriminate H].
  apply Z.eqb_eq in Hn as ->. simpl in H.
  exists out, err, files. split; [reflexivity|].
  destruct (last (output_lines out)) as [filePath|] eqn:Hlast; [|discriminate H].
  rewrite (output_lines_nonempty out filePath) in H
    by (apply last_Some_elem_of, Hlast).
  unfold exists_ in H. simpl in H.
  destruct (bool_decide (is_Some (files !! filePath))) eqn:Hthere;
    [|discriminate H].
  simpl in H. apply bool_decide_eq_true in Hthere.
  destruct (head (output_lines out)) as [first|] eqn:Hhead.
  - rewrite (output_lines_nonempty out first) in H
      by (apply head_Some_elem_of, Hhead).
    injection H as <- <- <-. auto.
  - apply head_None in Hhead. rewrite Hhead in Hlast. discriminate Hlast.
Qed.

(** X18.  What a successful [resolveTrackSource] returns.  Either the
    source needs no extraction: the result is the direct one and the world
    is untouched.  Or it does: the tool was installed, exactly one process
    was spawned, the tool with the arguments of the download, the result has
    type "youtube", a title that is not blank and a local path at which a
    file is present, and its url is the file URL of that path. *)
Theorem X18_resolved_source_shape (source playlistId : jsstring) (w w' : World)
  (r : ResolvedTrackSource) :
  resolveTrackSource source playlistId w = (Ok r, w') ->
  (~ needs_extraction source /\ r = direct_source source /\ w' = w)
  \/ (needs_extraction source
      /\ exists ytDlpPath w1 t p,
           ensureToolInstalled YtDlp w = (Ok ytDlpPath, w1)
           /\ r = {| sourceType := youtube; title := Some t; localPath := Some p;
                     url := pathToFileURL p |}
           /\ t <> [] /\ p <> [] /\ trim p = p
           /\ is_Some (w_fs w' !! p)
           /\ w_spawned w'
              = (ytDlpPath,
                 downloadArgs (path_join mediaDir (safePlaylistId playlistId))
                   (trim source)) :: w_spawned w
           /\ w_requests w' = w_requests w1).
Proof.
  intros H. unfold resolveTrackSource in H.
  pose proof (isYoutubeURL_spec source) as Hspec.
  destruct (isYoutubeURL (trim source)) eqn:E; simpl in H.
  - right. split; [apply Hspec; reflexivity|].
    unfold extractTrack in H.
    apply bind_Ok_inv in H as (ytDlpPath & w1 & Hinstall & H).
    apply bind_Ok_inv in H as ([t p] & w2 & Hdownload & H).
    injection H as <- <-.
    pose proof (ensureToolInstalled_keeps_spawned YtDlp w) as Hspawn.
    rewrite Hinstall in Hspawn. simpl in Hspawn.
    apply downloadYoutubeAudio_Ok_inv in Hdownload
      as (out & err & files & Hproc & -> & Hhead & Hlast & Hthere).
    exists ytDlpPath, w1, t, p. simpl.
    destruct (output_lines_trimmed out t (head_Some_elem_of _ _ Hhead)) as [Ht _].
    destruct (output_lines_trimmed out p (last_Some_elem_of _ _ Hlast)) as [Hp Htrim].
    rewrite Hspawn. repeat split; auto.
  - left. injection H as <- <-. split; [|split; reflexivity].
    intros Hn. apply Hspec in Hn. discriminate Hn.
Qed.

(** X19.  For a source that needs extraction, an error of the install or
    of the download is the error of [resolveTrackSource]; when the install
    fails no process is spawned. *)
Theorem X19_resolveTrackSource_propagates_errors (source playlistId : jsstring)
  (w : World) :
  needs_extraction source ->
  (forall e w',
     ensureToolInstalled YtDlp w = (Throw e, w') ->
     resolveTrackSource source playlistId w = (Throw e, w')
     /\ w_spawned w' = w_spawned w)
  /\ (forall ytDlpPath w1 e w',
        ensureToolInstalled YtDlp w = (Ok ytDlpPath, w1) ->
        downloadYoutubeAudio ytDlpPath (trim source) playlistId w1 = (Throw e, w') ->
        resolveTrackSource source playlistId w = (Throw e, w')).
Proof.
  intros Hneeds. apply isYoutubeURL_spec in Hneeds.
  unfold resolveTrackSource. rewrite Hneeds. simpl. unfold extractTrack. split.
  - intros e w' Hinstall.
    pose proof (ensureToolInstalled_keeps_spawned YtDlp w) as Hspawn.
    rewrite Hinstall in Hspawn. unfold bind. rewrite Hinstall. auto.
  - intros ytDlpPath w1 e w' Hinstall Hdownload.
    unfold bind. rewrite Hinstall, Hdownload. reflexivity.
Qed.

End ExtractionContract.

Section ClassificationOutcome.
Context {P : Platform}.

(** C1.  [resolveTrackSource] takes a source as needing extraction
    exactly when the trimmed source parses as an absolute URL whose
    lowercased host name is youtube.com, www.youtube.com, m.youtube.com or
    youtu.be, or ends with ".youtube.com".  Every other source, one that
    does not parse included, gives the result of type "direct" whose url is
    the trimmed source, and leaves the world as it was: no request, no file
    written, no process spawned.  A source that needs extraction never gets
    that result: the call installs yt-dlp and runs the download, fails with
    the error of the one that fails, and otherwise spawns a process and
    returns a result of type "youtube" made of what the download returns. *)
Theorem C1_resolveTrackSource_classification (source playlistId : jsstring) (w : World) :
  (isYoutubeURL (trim source) = true <-> needs_extraction source)
  /\ (~ needs_extraction source ->
      resolveTrackSource source playlistId w = (Ok (direct_source source), w))
  /\ (needs_extraction source ->
      (forall e w',
         ensureToolInstalled YtDlp w = (Throw e, w') ->
         resolveTrackSource source playlistId w = (Throw e, w'))
      /\ (forall ytDlpPath w1 e w',
            ensureToolInstalled YtDlp w = (Ok ytDlpPath, w1) ->
            downloadYoutubeAudio ytDlpPath (trim source) playlistId w1 = (Throw e, w') ->
            resolveTrackSource source playlistId w = (Throw e, w'))
      /\ (forall ytDlpPath w1 t p w',
            ensureToolInstalled YtDlp w = (Ok ytDlpPath, w1) ->
            downloadYoutubeAudio ytDlpPath (trim source) playlistId w1
            = (Ok (t, p), w') ->
            resolveTrackSource source playlistId w
            = (Ok {| sourceType := youtube; title := Some t; localPath := Some p;
                     url := pathToFileURL p |}, w'))
      /\ (forall r w',
            resolveTrackSource source playlistId w = (Ok r, w') ->
            sourceType r = youtube
            /\ exists spawned, w_spawned w' = spawned :: w_spawned w)).
Proof.
  pose proof (isYoutubeURL_spec source) as Hspec.
  split; [exact Hspec|]. unfold resolveTrackSource. split.
  - intros H. destruct (isYoutubeURL (trim source)) eqn:E; [|reflexivity].
    exfalso. apply H, Hspec. reflexivity.
  - intros H. apply Hspec in H. rewrite H. simpl. unfold extractTrack.
    split; [|split; [|split]].
    + intros e w' Hinstall. unfold bind. rewrite Hinstall. reflexivity.
    + intros ytDlpPath w1 e w' Hinstall Hdownload.
      unfold bind. rewrite Hinstall, Hdownload. reflexivity.
    + intros ytDlpPath w1 t p w' Hinstall Hdownload.
      unfold bind. rewrite Hinstall, Hdownload. reflexivity.
    + intros r w' Hrun.
      apply bind_Ok_inv in Hrun as (ytDlpPath & w1 & Hinstall & Hrun).
      apply bind_Ok_inv in Hrun as ([t p] & w2 & Hdownload & Hrun).
      injection Hrun as <- <-. split; [reflexivity|].
      pose proof (ensureToolInstalled_keeps_spawned YtDlp w) as Hspawn.
      rewrite Hinstall in Hspawn. simpl in Hspawn.
      apply downloadYoutubeAudio_Ok_inv in Hdownload
        as (out & err & files & _ & -> & _).
      eexists. simpl. rewrite Hspawn. reflexivity.
Qed.

End ClassificationOutcome.

(** The two direct sources and the two video URLs of the specification,
    and the extraction of the first of these. *)
Lemma C1_witness :
  let P := Sample.platform Sample.import_track in
  resolveTrackSource (str "  /local/path/song.wav ") (str "p1") Sample.start
  = (Ok {| sourceType := direct; url := str "/local/path/song.wav";
           title := None; localPath := None |}, Sample.start)
  /\ resolveTrackSource (str "https://example.com/song.mp3") (str "p1") Sample.start
     = (Ok {| sourceType := direct; url := str "https://example.com/song.mp3";
              title := None; localPath := None |}, Sample.start)
  /\ needs_extraction (str "https://youtu.be/abc123")
  /\ needs_extraction (str "https://m.youtube.com/watch?v=abc123")
  /\ fst (resolveTrackSource (str "https://youtu.be/abc123") (str "p1") Sample.start)
     = Ok {| sourceType := youtube; title := Some (str "Song");
             localPath := Some Sample.track_path;
             url := pathToFileURL Sample.track_path |}.
Proof.
  intros P.
  assert (forall s, isYoutubeURL (trim s) = false ->
            resolveTrackSource s (str "p1") Sample.start
            = (Ok (direct_source s), Sample.start)) as Hdirect.
  { intros s Hs.
    destruct (C1_resolveTrackSource_classification s (str "p1") Sample.start)
      as (Hiff & Hdir & _).
    apply Hdir. intros Hn. apply Hiff in Hn. congruence. }
  assert (forall s, isYoutubeURL (trim s) = true -> needs_extraction s) as Hextract.
  { intros s Hs.
    apply (proj1 (C1_resolveTrackSource_classification s (str "p1") Sample.start)).
    exact Hs. }
  split; [|split; [|split; [|split]]].
  - vm_exact (Hdirect (str "  /local/path/song.wav ") ltac:(vm_refl)).
  - vm_exact (Hdirect (str "https://example.com/song.mp3") ltac:(vm_refl)).
  - apply Hextract. vm_refl.
  - apply Hextract. vm_refl.
  - pose (source := str "https://youtu.be/abc123").
    pose (args := downloadArgs (path_join mediaDir (safePlaylistId (str "p1")))
                    (trim source)).
    assert (ensureToolInstalled YtDlp Sample.start
            = (Ok Sample.binary_path, Sample.installed)) as Hinstall by vm_refl.
    assert (downloadYoutubeAudio Sample.binary_path (trim source) (str "p1")
              Sample.installed
            = (Ok (str "Song", Sample.track_path),
               set_fs (<[ Sample.track_path := Sample.file (str "audio") ]>
                         (w_fs Sample.installed))
                 (log_spawn Sample.binary_path args Sample.installed)))
      as Hdownload by vm_refl.
    destruct (C1_resolveTrackSource_classification source (str "p1") Sample.start)
      as (_ & _ & Hyoutube).
    destruct (Hyoutube (Hextract source ltac:(vm_refl))) as (_ & _ & Hok & _).
    exact (f_equal fst (Hok _ _ _ _ _ Hinstall Hdownload)).
Defined.

Section Dialog.
Context {P : Platform}.

Lemma handleProgress_requestId (st : TrackAddState) (rid : jsstring)
  (ev : TrackSourceProgress) :
  st_requestId (handleProgress st rid ev) = st_requestId st.
Proof.
  unfold handleProgress.
  destruct (nonempty rid && bool_decide (st_requestId st = Some rid)); reflexivity.
Qed.

(** X20.  The listener of the dialog never changes the request it waits
    for, and what it shows after a run of events is what it shows after the
    events of that request alone: events of other requests, in any
    position, change nothing. *)
Theorem X20_events_of_other_requests_are_ignored (id : jsstring)
  (st : TrackAddState) (events : list (jsstring * TrackSourceProgress)) :
  st_requestId st = Some id ->
  st_requestId (deliver st events) = Some id
  /\ deliver st events = deliver st (filter (fun ev => fst ev = id) events).
Proof.
  revert st. induction events as [|[rid ev] events IH]; intros st Hreq.
  - split; [exact Hreq|reflexivity].
  - unfold deliver. simpl fold_left.
    fold (deliver (handleProgress st rid ev) events).
    assert (st_requestId (handleProgress st rid ev) = Some id) as Hnext
        by (rewrite handleProgress_requestId; exact Hreq).
    destruct (IH _ Hnext) as [IH1 IH2]. split; [exact IH1|].
    destruct (decide (rid = id)) as [-> | Hne].
    + rewrite filter_cons_True by reflexivity.
      rewrite IH2. reflexivity.
    + rewrite filter_cons_False by exact Hne.
      rewrite (handleProgress_other id rid st ev Hreq Hne) in *.
      exact IH2.
Qed.

Lemma mergeProgress_twice (prev : option TrackSourceProgress)
  (ev : TrackSourceProgress) :
  mergeProgress (Some (mergeProgress prev ev)) ev = mergeProgress prev ev.
Proof.
  assert (forall q, num_lt q q = false) as Hirrefl.
  { intros q. destruct q; simpl; try reflexivity.
    apply negb_false_iff, Qle_bool_iff, Qle_refl. }
  destruct ev as [stg msg [i|]]; destruct prev as [[stg0 msg0 [p|]]|];
    unfold mergeProgress; simpl; rewrite ?Hirrefl; try reflexivity.
  - destruct (num_lt i p) eqn:E; simpl; rewrite ?E, ?Hirrefl; reflexivity.
  - destruct (streq stg (str "download-audio")) eqn:E; simpl; rewrite ?E; reflexivity.
Qed.

(** X21.  An event delivered twice in a row shows what it shows delivered
    once.  An event of the request the dialog waits for always gives the
    dialog its stage and its message, and the number shown is the number of
    the event or the number shown before. *)
Theorem X21_duplicate_event_changes_nothing (st : TrackAddState) (rid : jsstring)
  (ev : TrackSourceProgress) :
  handleProgress (handleProgress st rid ev) rid ev = handleProgress st rid ev
  /\ (rid <> [] -> st_requestId st = Some rid ->
      exists shown,
        handleProgress st rid ev
        = {| st_requestId := Some rid; st_progress := Some shown |}
        /\ stage shown = stage ev /\ message shown = message ev
        /\ (progress shown = progress ev \/ progress shown = visible st)).
Proof.
  split.
  - destruct (nonempty rid && bool_decide (st_requestId st = Some rid)) eqn:E.
    + unfold handleProgress. rewrite E. cbn [st_requestId st_progress].
      rewrite E, mergeProgress_twice. reflexivity.
    + unfold handleProgress. rewrite !E. reflexivity.
  - intros Hne Hreq. unfold handleProgress. rewrite Hreq.
    rewrite bool_decide_eq_true_2 by reflexivity.
    replace (nonempty rid) with true by (destruct rid; [contradiction|reflexivity]).
    simpl. eexists. split; [reflexivity|].
    unfold visible, mergeProgress.
    destruct (st_progress st) as [[stg0 msg0 [p|]]|]; simpl; auto.
    destruct (progress ev) as [i|] eqn:Hi.
    + destruct (num_lt i p); simpl; auto.
    + destruct (streq (stage ev) (str "download-audio")); simpl; auto.
Qed.

Lemma selector_isYoutubeURL (value : jsstring) :
  AudioSelector.isYoutubeURL value = isYoutubeURL (trim value).
Proof.
  unfold AudioSelector.isYoutubeURL, isYoutubeURL. rewrite trim_idempotent.
  reflexivity.
Qed.

(** X22.  The source field of the dialog and the resolver agree.  The
    download notice is shown exactly for a source that is not empty and that
    the resolver sends to extraction.  The format warning is shown exactly
    for a source that is not empty, that the resolver takes as direct, and
    whose lowercased text ends with none of the known formats; a source with
    the warning resolves to the direct result. *)
Theorem X22_source_field_agrees_with_resolver (value playlistId : jsstring)
  (w : World) :
  (AudioSelector.youtube value = true <-> value <> [] /\ needs_extraction value)
  /\ (AudioSelector.warning value = true <->
      value <> [] /\ ~ needs_extraction value
      /\ forall format, format ∈ AudioSelector.formats ->
                        ~ format `suffix_of` toLowerCase value)
  /\ (AudioSelector.youtube value = true ->
      resolveTrackSource value playlistId w = extractTrack (trim value) playlistId w)
  /\ (AudioSelector.warning value = true ->
      resolveTrackSource value playlistId w = (Ok (direct_source value), w)).
Proof.
  pose proof (isYoutubeURL_spec value) as Hspec.
  assert (nonempty value = true <-> value <> []) as Hvalue.
  { destruct value; simpl; split; congruence. }
  assert (AudioSelector.youtube value = true <-> value <> [] /\ needs_extraction value)
    as Hyoutube.
  { unfold AudioSelector.youtube. rewrite andb_true_iff, selector_isYoutubeURL.
    rewrite Hvalue, Hspec. reflexivity. }
  assert (AudioSelector.warning value = true <->
          value <> [] /\ ~ needs_extraction value
          /\ forall format, format ∈ AudioSelector.formats ->
                            ~ format `suffix_of` toLowerCase value) as Hwarning.
  { unfold AudioSelector.warning. rewrite !andb_true_iff, !negb_true_iff.
    rewrite Hvalue.
    assert (AudioSelector.youtube value = false <->
            (value <> [] -> ~ needs_extraction value)) as ->.
    { rewrite <- not_true_iff_false, Hyoutube. tauto. }
    assert (existsb (fun format => endsWith (toLowerCase value) format)
              AudioSelector.formats = false
            <-> forall format, format ∈ AudioSelector.formats ->
                               ~ format `suffix_of` toLowerCase value) as ->.
    { rewrite <- not_true_iff_false, existsb_exists. split.
      - intros H format Hin Hsuffix. apply H. exists format.
        split; [apply list_elem_of_In, Hin|].
        unfold endsWith. apply bool_decide_eq_true_2, Hsuffix.
      - intros H (format & Hin & Hends). apply (H format).
        + apply list_elem_of_In, Hin.
        + unfold endsWith in Hends. apply bool_decide_eq_true in Hends. exact Hends. }
    tauto. }
  split; [exact Hyoutube|]. split; [exact Hwarning|].
  unfold resolveTrackSource. split.
  - intros H. apply Hyoutube in H as [_ H]. apply Hspec in H. rewrite H. reflexivity.
  - intros H. apply Hwarning in H as (_ & H & _).
    destruct (isYoutubeURL (trim value)) eqn:E; [|reflexivity].
    exfalso. apply H, Hspec. reflexivity.
Qed.

(** The title of a resolved source: none for a direct one, one that is
    not blank for an extracted one. *)
Lemma resolved_title (source playlistId : jsstring) (w w' : World)
  (r : ResolvedTrackSource) :
  resolveTrackSource source playlistId w = (Ok r, w') ->
  (~ needs_extraction source /\ title r = None)
  \/ (needs_extraction source /\ exists t, title r = Some t /\ t <> []).
Proof.
  intros H. unfold resolveTrackSource in H.
  pose proof (isYoutubeURL_spec source) as Hspec.
  destruct (isYoutubeURL (trim source)) eqn:E; simpl in H.
  - right. split; [apply Hspec; reflexivity|].
    unfold extractTrack in H.
    apply bind_Ok_inv in H as (ytDlpPath & w1 & _ & H).
    apply bind_Ok_inv in H as ([t p] & w2 & Hdownload & H).
    injection H as <- _.
    apply downloadYoutubeAudio_Ok_inv in Hdownload
      as (out & err & files & _ & _ & Hhead & _).
    exists t. split; [reflexivity|].
    apply (output_lines_trimmed out t), head_Some_elem_of, Hhead.
  - left. injection H as <- _. split; [|reflexivity].
    intros Hn. apply Hspec in Hn. discriminate Hn.
Qed.

(** X23.  The title the dialog gives the track it adds is never empty.
    It is the title the user typed when there is one; otherwise it is the
    title the extraction printed for a source that needed extraction, and
    "Track" for a direct source. *)
Theorem X23_added_track_title (userTitle source playlistId : jsstring)
  (w w' : World) (r : ResolvedTrackSource) :
  resolveTrackSource source playlistId w = (Ok r, w') ->
  trackTitle userTitle r <> []
  /\ (userTitle <> [] -> trackTitle userTitle r = userTitle)
  /\ (userTitle = [] -> needs_extraction source ->
      title r = Some (trackTitle userTitle r))
  /\ (userTitle = [] -> ~ needs_extraction source ->
      trackTitle userTitle r = str "Track").
Proof.
  intros H. apply resolved_title in H.
  unfold trackTitle.
  destruct userTitle as [|c s]; simpl.
  - destruct H as [[Hno ->] | (Hyes & t & -> & Ht)].
    + repeat split; try discriminate; try tauto.
    + destruct t as [|d t]; [contradiction|]. simpl.
      repeat split; try discriminate; try tauto.
  - repeat split; try discriminate; congruence.
Qed.

End Dialog.

Section CatalogShape.
Context {P : Platform}.

(** X24.  A catalog that [parseAndValidateRemoteManifest] accepts is the
    document the bytes parse to, with a numeric version and an object-shaped
    tool table.  Bytes that do not parse fail with the error of the parser,
    and a document of another shape with one of the two "Invalid tools
    manifest" errors, whatever its signature; a document of the right shape
    without a signature, or with no key configured, is accepted. *)
Theorem X24_accepted_catalog_is_well_shaped (buffer : Buffer) :
  (forall manifest,
     parseAndValidateRemoteManifest buffer = Ok manifest ->
     JSON_parse (utf8_decode buffer) = Some manifest /\ well_shaped manifest = true)
  /\ (JSON_parse (utf8_decode buffer) = None ->
      parseAndValidateRemoteManifest buffer = Throw SyntaxError)
  /\ (forall parsed,
        JSON_parse (utf8_decode buffer) = Some parsed ->
        well_shaped parsed = false ->
        parseAndValidateRemoteManifest buffer
        = Throw (Error (str "Invalid tools manifest"))
        \/ parseAndValidateRemoteManifest buffer
           = Throw (Error (str "Invalid tools manifest payload")))
  /\ (forall parsed,
        JSON_parse (utf8_decode buffer) = Some parsed ->
        well_shaped parsed = true ->
        get parsed (str "signature") = None \/ REMOTE_MANIFEST_PUBLIC_KEY_PEM = None ->
        parseAndValidateRemoteManifest buffer = Ok parsed).
Proof.
  destruct (JSON_parse (utf8_decode buffer)) as [parsed|] eqn:Hparse.
  2:{ unfold parseAndValidateRemoteManifest. rewrite Hparse.
      repeat split; intros; discriminate. }
  assert (well_shaped parsed = true <->
          negb (truthy parsed) || negb (is_object (Some parsed))
          || negb (is_number (get parsed (str "version"))) = false
          /\ negb (truthyv (get parsed (str "tools")))
             || negb (is_object (get parsed (str "tools"))) = false) as Hguards.
  { unfold well_shaped.
    destruct (truthy parsed), (is_object (Some parsed)),
      (is_number (get parsed (str "version"))),
      (truthyv (get parsed (str "tools"))),
      (is_object (get parsed (str "tools"))); cbn; intuition congruence. }
  unfold parseAndValidateRemoteManifest. rewrite Hparse.
  destruct (well_shaped parsed) eqn:Hw.
  - destruct (proj1 Hguards eq_refl) as [-> ->].
    split; [|split; [discriminate|split]].
    + intros manifest H.
      assert (manifest = parsed) as ->; [|split; [reflexivity|exact Hw]].
      destruct (get parsed (str "signature")) as [sig|];
        [destruct REMOTE_MANIFEST_PUBLIC_KEY_PEM as [key|]|];
        try (injection H as <-; reflexivity).
      destruct (truthy sig && nonempty key); [|injection H as <-; reflexivity].
      destruct (check_signature sig (JStr key) _ _); [|discriminate H].
      injection H as <-. reflexivity.
    + intros parsed' [= <-] H. congruence.
    + intros parsed' [= <-] _ [-> | Hkey]; [reflexivity|].
      rewrite Hkey. destruct (get parsed (str "signature")); reflexivity.
  - destruct (negb (truthy parsed) || negb (is_object (Some parsed))
              || negb (is_number (get parsed (str "version")))) eqn:G1.
    + split; [discriminate|]. split; [discriminate|]. split.
      * intros parsed' _ _. left. reflexivity.
      * intros parsed' [= <-] H. congruence.
    + destruct (negb (truthyv (get parsed (str "tools")))
                || negb (is_object (get parsed (str "tools")))) eqn:G2.
      * split; [discriminate|]. split; [discriminate|]. split.
        -- intros parsed' _ _. right. reflexivity.
        -- intros parsed' [= <-] H. congruence.
      * discriminate (proj2 Hguards (conj eq_refl eq_refl)).
Qed.

End CatalogShape.

(** ** Examples of the further properties *)

(** Without a catalog the release of yt-dlp is the built-in one. *)
Lemma X1_witness :
  let P := Sample.platform Sample.corrupt_download in
  includes (rel_binaryName Sample.linux_release) 47%N = false
  /\ trim (rel_binaryName Sample.linux_release) <> [].
Proof.
  intros P.
  assert (getRelease YtDlp Sample.start
          = (Ok Sample.linux_release, log_request Sample.manifest_url (tick Sample.start)))
    as H by vm_refl.
  destruct (X1_getRelease_binaryName_is_a_file_name YtDlp Sample.start _
              Sample.linux_release H) as (_ & H1 & _ & H2).
  split; [exact H1|exact H2].
Defined.

(** The first lookup of the catalog at 10:00. *)
Lemma X2_witness :
  let P := Sample.platform Sample.install in
  exists w',
    getRemoteManifest Sample.start = (Ok (Some Sample.small_catalog), w')
    /\ w_fs w' !! (remoteManifestCachePath ++ str ".tmp") = None.
Proof.
  intros P.
  assert (must_fetch Sample.start) as Hmust by (split; vm_refl).
  assert (fetchRemoteManifest (tick Sample.start)
          = (Ok Sample.small_catalog,
             log_request Sample.manifest_url (tick Sample.start))) as Hfetch by vm_refl.
  destruct (X2_successful_fetch_refreshes_both_caches Sample.start
              Sample.small_catalog _ Hmust Hfetch) as (w' & H1 & _ & _ & H2 & _).
  exists w'. split; [exact H1|exact H2].
Defined.

(** At 11:00 the memory cache of 10:00 is fresh. *)
Lemma X3_witness :
  let P := Sample.platform Sample.install in
  w_requests (snd (getRemoteManifest Sample.installed)) = w_requests Sample.installed.
Proof.
  intros P.
  assert (memory_fresh Sample.installed = true) as H by vm_refl.
  exact (proj1 (X3_fresh_cache_answers_without_network Sample.installed (or_introl H))).
Defined.

(** A second lookup right after the first. *)
Lemma X4_witness :
  let P := Sample.platform Sample.install in
  let w' := Sample.looked_up Sample.small_catalog in
  getRemoteManifest w' = (Ok (Some Sample.small_catalog), tick w').
Proof.
  intros P w'.
  assert (must_fetch Sample.start) as Hmust by (split; vm_refl).
  assert (fetchRemoteManifest (tick Sample.start)
          = (Ok Sample.small_catalog,
             log_request Sample.manifest_url (tick Sample.start))) as Hfetch by vm_refl.
  assert (getRemoteManifest Sample.start = (Ok (Some Sample.small_catalog), w'))
    as Hrun by vm_refl.
  assert (Date_parse (Some (JStr (Date_toISOString (clock (S (w_tick Sample.start))))))
          = Some (clock (S (w_tick Sample.start)))) as Hparse by vm_refl.
  assert (clock (w_tick w') - clock (S (w_tick Sample.start))
          < REMOTE_MANIFEST_CACHE_TTL_MS) as Hage by (unfold Z.lt; vm_refl).
  exact (X4_second_lookup_within_ttl_is_cached Sample.start Sample.small_catalog _ w'
           Hmust Hfetch Hrun Hparse Hage).
Defined.

(** The manifest of an installed yt-dlp, written and read back. *)
Lemma X6_witness :
  let P := Sample.platform Sample.install in
  let manifest :=
    {| tools := JObj [ (str "yt-dlp",
                        JObj (Sample.installed_record "2026-01-01T10:00:00.000Z")) ] |} in
  exists w',
    writeManifest manifest Sample.start = (Ok tt, w')
    /\ readManifest w' = (Ok manifest, w').
Proof.
  intros P manifest.
  assert (truthy (tools manifest) = true) as H1 by reflexivity.
  assert (reads_back (JObj [ (str "tools", tools manifest) ])) as H2
    by (unfold reads_back; vm_refl).
  destruct (X6_writeManifest_then_readManifest manifest Sample.start H1 H2)
    as (w' & Hwrite & Hread & _).
  exists w'. split; [exact Hwrite|exact Hread].
Defined.


(** The catalog lists a release whose signature decodes to ["bad"]. *)
Lemma X9_witness :
  let P := Sample.platform Sample.forged in
  exists e w',
    ensureToolInstalled YtDlp Sample.start = (Throw e, w')
    /\ release_signature_error YtDlp e.
Proof.
  intros P.
  pose (w1 := Sample.looked_up Sample.forged_catalog).
  pose (w3 := log_request (rel_url Sample.forged_release) (tick w1)).
  assert (getRelease YtDlp Sample.start = (Ok Sample.forged_release, w1)) as H1
    by vm_refl.
  assert (verified_install YtDlp Sample.forged_release Sample.binary_path w1 = false)
    as H2 by vm_refl.
  assert (httpGetBuffer (rel_url Sample.forged_release) 0 (tick w1)
          = (Ok (str "abc"), w3)) as H3 by vm_refl.
  assert (sha256_hex (str "abc") = rel_sha256 Sample.forged_release) as H4 by vm_refl.
  assert (is_signed Sample.forged_release (JStr (str "YmFk")) (JStr Sample.pem)) as H5
    by (repeat split).
  assert (~ verifies (JStr (str "YmFk")) (JStr Sample.pem)
            (release_payload YtDlp Sample.forged_release)) as H6.
  { intros (sig & Hdecode & Hverify).
    vm_compute in Hdecode. injection Hdecode as <-.
    vm_compute in Hverify. discriminate Hverify. }
  destruct (X9_invalid_release_signature_fails_the_install YtDlp Sample.start w1 w3
              Sample.forged_release (str "abc") _ _ H1 H2 H3 H4 H5 H6)
    as (e & w' & Hrun & He & _).
  exists e, w'. split; [exact Hrun|exact He].
Defined.


(** The installed binary has been overwritten. *)
Lemma X12_witness :
  let P := Sample.platform Sample.install in
  exists later,
    w_requests (snd (ensureToolInstalled YtDlp Sample.tampered))
    = later ++ rel_url Sample.small_release :: w_requests (tick Sample.tampered).
Proof.
  intros P.
  assert (getRelease YtDlp Sample.tampered
          = (Ok Sample.small_release, tick Sample.tampered)) as H1 by vm_refl.
  assert (recordMatches YtDlp Sample.small_release Sample.binary_path
            (local_manifest (tick Sample.tampered)) = true) as H2 by vm_refl.
  assert (w_fs (tick Sample.tampered) !! Sample.binary_path
          = Some (Sample.file (str "tampered"))) as H3 by vm_refl.
  assert (sha256_hex (f_data (Sample.file (str "tampered")))
          <> rel_sha256 Sample.small_release) as H4.
  { intros H. vm_compute in H. discriminate H. }
  exact (proj2 (X12_tampered_binary_is_downloaded_again YtDlp Sample.tampered _
                  Sample.small_release _ H1 H2 H3 H4)).
Defined.


(** The catalog gives the binary the name [".."]: the binary path is the
    directory of the manager. *)
Lemma install_onto_directory :
  let P := Sample.platform Sample.parent_name in
  path_join binDir (rel_binaryName Sample.parent_release) = baseDir
  /\ fst (getRelease YtDlp Sample.start) = Ok Sample.parent_release
  /\ fst (ensureToolInstalled YtDlp Sample.start) = Throw (EISDIR baseDir).
Proof.
  repeat split; vm_refl.
Qed.

(** The second call, at 11:00, finds the install of 10:00. *)
Lemma X15_witness :
  let P := Sample.platform Sample.install in
  let binaryPath := path_join binDir (rel_binaryName Sample.small_release) in
  exists w',
    ensureToolInstalled YtDlp Sample.installed = (Ok binaryPath, w')
    /\ w_requests w' = w_requests Sample.installed.
Proof.
  intros P binaryPath.
  assert (getRelease YtDlp Sample.installed
          = (Ok Sample.small_release, tick Sample.installed)) as H1 by vm_refl.
  assert (verified_install YtDlp Sample.small_release Sample.binary_path
            (tick Sample.installed) = true) as H2 by vm_refl.
  assert (Sample.binary_path <> manifestPath) as H3.
  { intros H. vm_compute in H. discriminate H. }
  assert (Sample.binary_path <> manifestPath ++ str ".tmp") as H4.
  { intros H. vm_compute in H. discriminate H. }
  destruct (X15_verified_install_keeps_the_binary YtDlp Sample.installed _
              Sample.small_release H1 H2 H3 H4)
    as (w' & f & Hrun & _ & _ & _ & Hreq & _).
  exists w'. split; [exact Hrun|exact Hreq].
Defined.

(** The process prints the title with a carriage return and a line feed,
    and the path with a line feed. *)
Lemma X17_witness :
  let P := Sample.platform Sample.extraction in
  let source := str "https://youtu.be/abc123" in
  let args := downloadArgs (path_join mediaDir (safePlaylistId (str "p1"))) source in
  downloadYoutubeAudio Sample.binary_path source (str "p1") Sample.start
  = (Ok (str "Song", Sample.track_path),
     set_fs (<[ Sample.track_path := Sample.file (str "audio") ]> ∅)
       (log_spawn Sample.binary_path args Sample.start)).
Proof.
  intros P source args.
  assert (forall s, s <> [] -> trim s = s ->
            forallb (fun c => negb ((c =? 10) || (c =? 13))%N) s = true ->
            printed_line s) as Hline.
  { intros s H1 H2 H3. split; [exact H1|]. split; [exact H2|].
    apply no_line_end_check, H3. }
  assert (printed_line (str "Song")) as H1.
  { apply Hline; [intros H; vm_compute in H; discriminate H|vm_refl|vm_refl]. }
  assert (printed_line Sample.track_path) as H2.
  { apply Hline; [intros H; vm_compute in H; discriminate H|vm_refl|vm_refl]. }
  refine (X17_printed_title_and_path_are_returned Sample.binary_path source (str "p1")
            Sample.start (str "Song") Sample.track_path [13%N; 10%N] [10%N] []
            (<[ Sample.track_path := Sample.file (str "audio") ]> ∅)
            H1 H2 (or_intror eq_refl) (or_intror (or_introl eq_refl)) eq_refl _).
  exists (Sample.file (str "audio")). vm_refl.
Defined.

(** A video URL, with the catalog, the artifact and the extraction
    process at hand. *)
Lemma X18_witness :
  let P := Sample.platform Sample.import_track in
  needs_extraction (str " https://youtu.be/abc123 ").
Proof.
  intros P.
  pose (source := str " https://youtu.be/abc123 ").
  pose (args := downloadArgs (path_join mediaDir (safePlaylistId (str "p1")))
                  (trim source)).
  assert (resolveTrackSource source (str "p1") Sample.start
          = (Ok {| sourceType := youtube;
                   title := Some (str "Song");
                   localPath := Some Sample.track_path;
                   url := str "file://" ++ Sample.track_path |},
             set_fs (<[ Sample.track_path := Sample.file (str "audio") ]>
                       (w_fs Sample.installed))
               (log_spawn Sample.binary_path args Sample.installed))) as H by vm_refl.
  destruct (X18_resolved_source_shape source (str "p1") Sample.start _ _ H)
    as [(_ & Hdirect & _) | (Hneeds & _)].
  - discriminate Hdirect.
  - exact Hneeds.
Defined.

(** A video URL while the artifact of the tool arrives empty. *)
Lemma X19_witness :
  let P := Sample.platform Sample.corrupt_download in
  let source := str "https://youtu.be/abc123" in
  let w1 := log_request Sample.manifest_url (tick Sample.start) in
  let w' := log_request (rel_url Sample.linux_release) (tick w1) in
  resolveTrackSource source (str "p1") Sample.start
  = (Throw (checksum_mismatch YtDlp), w')
  /\ w_spawned w' = w_spawned Sample.start.
Proof.
  intros P source w1 w'.
  assert (needs_extraction source) as H1.
  { exists (str "youtu.be"). split; [vm_refl|].
    right. right. right. left. vm_refl. }
  assert (ensureToolInstalled YtDlp Sample.start
          = (Throw (checksum_mismatch YtDlp), w')) as H2 by vm_refl.
  exact (proj1 (X19_resolveTrackSource_propagates_errors source (str "p1")
                  Sample.start H1) _ _ H2).
Defined.

(** Events of the request r2 arrive among those of the request r1. *)
Lemma X20_witness :
  let events := [ Sample.event "r2" "download-audio" "Downloading audio..." (Some 90);
                  Sample.event "r1" "install-tool" "Installing..." (Some 30);
                  Sample.event "r2" "finalize" "Finalizing..." None ] in
  deliver (submitted (str "r1")) events
  = deliver (submitted (str "r1")) (filter (fun ev => fst ev = str "r1") events).
Proof.
  intros events.
  exact (proj2 (X20_events_of_other_requests_are_ignored (str "r1")
                  (submitted (str "r1")) events eq_refl)).
Defined.

(** A local file added without a title. *)
Lemma X23_witness :
  let P := Sample.platform Sample.outage in
  let source := str "/local/path/song.wav" in
  trackTitle [] (direct_source source) = str "Track".
Proof.
  intros P source.
  assert (resolveTrackSource source (str "p1") Sample.start
          = (Ok (direct_source source), Sample.start)) as H by vm_refl.
  assert (~ needs_extraction source) as Hno.
  { intros (hostname & Hhost & _). vm_compute in Hhost. discriminate Hhost. }
  exact (proj2 (proj2 (proj2 (X23_added_track_title [] source (str "p1")
                                Sample.start Sample.start _ H))) eq_refl Hno).
Defined.
